(** * django_celery_backend: the CSV ingestion pipeline

    A shallow embedding of [myceleryapp/tasks.py] (the Celery task
    [process_students_csv]), [myceleryapp/models.py] (the [Student] table) and
    [myceleryapp/views.py] (the upload and task-status endpoints), together
    with the parts of the Python and Django libraries the task runs through:
    the text layer of [open(..., "r", encoding="utf-8")], [csv.reader],
    [csv.DictReader] and [QuerySet.get_or_create].

    Conventions.
    - A Python [str] is a Rocq [string] holding the UTF-8 bytes of the text.
      Only text that passed the strict decoder is ever built, the encoding is
      injective on it, and every character the pipeline inspects (comma,
      quote, CR, LF) is ASCII, so equality and tokenisation on this
      representation agree with Python's. Lengths are counted in code points
      ([text_length]).
    - A Python value that may be [None] is an [option].
    - An exception is a constructor of [exn]; a computation that may raise
      returns a [result]. The task mutates the database while it may still
      raise, so its type threads the database through both outcomes. *)

From Stdlib Require Import List NArith Ascii String Bool Lia Permutation.
From Stdlib.Strings Require Import Byte.
From stdpp Require Import gmap strings list fin_maps.

Local Open Scope string_scope.
Local Open Scope list_scope.

(** ** Exceptions *)

Inductive exn : Type :=
| FileNotFoundError
| UnicodeDecodeError
| CsvError
| IntegrityError
| DataError
| ValueError
| OSError.

Inductive result (A : Type) : Type :=
| Ok (a : A)
| Raise (e : exn).
Arguments Ok {A} a.
Arguments Raise {A} e.

(** ** The text layer: [open(file_path, "r", encoding="utf-8")]

    [io.TextIOWrapper] reads the file in chunks of [_CHUNK_SIZE] bytes, feeds
    each chunk to an incremental strict UTF-8 decoder, translates newlines
    (universal newlines, the default [newline=None]) and serves [readline]
    from the decoded text, reading the next chunk only when the decoded text
    holds no complete line. *)

Module Text.

Definition LF : ascii := "010"%char.
Definition CR : ascii := "013"%char.

(** [_CHUNK_SIZE] of [io.TextIOWrapper]. *)
Definition CHUNK_SIZE : nat := N.to_nat 8192.

(** State of the incremental UTF-8 decoder between two bytes: idle, or inside
    a multi-byte sequence of which [pend] (in reverse) has been read, with
    [more] bytes still to come, the next of which must lie in [lo, hi]; or
    after the first two bytes of an encoded surrogate (U+D800 to U+DFFF),
    which CPython's decoder holds back when they end a chunk and refuses as
    soon as another byte, or the end of the file, follows. *)
Inductive dstate : Type :=
| Idle
| Need (more : nat) (lo hi : N) (pend : list ascii)
| Surrogate.

Definition in_range (lo hi n : N) : bool := (lo <=? n)%N && (n <=? hi)%N.

(** Lead byte of a sequence: the number of bytes that follow and the range of
    the first of them (overlong forms, surrogates and code points above
    U+10FFFF are refused by the range of the second byte). *)
Definition lead (n : N) : option (nat * N * N) :=
  if in_range 194 223 n then Some (1, 128%N, 191%N)
  else if (n =? 224)%N then Some (2, 160%N, 191%N)
  else if in_range 225 236 n then Some (2, 128%N, 191%N)
  else if (n =? 237)%N then Some (2, 128%N, 159%N)
  else if in_range 238 239 n then Some (2, 128%N, 191%N)
  else if (n =? 240)%N then Some (3, 144%N, 191%N)
  else if in_range 241 243 n then Some (3, 128%N, 191%N)
  else if (n =? 244)%N then Some (3, 128%N, 143%N)
  else None.

(** One byte through the decoder: the new state and the text completed by
    this byte, or [None] for an invalid byte. *)
Definition feed (st : dstate) (b : byte) : option (dstate * list ascii) :=
  let n := Byte.to_N b in
  let c := ascii_of_byte b in
  match st with
  | Idle =>
      if (n <? 128)%N then Some (Idle, [c])
      else match lead n with
           | Some (k, lo, hi) => Some (Need k lo hi [c], [])
           | None => None
           end
  | Need k lo hi pend =>
      if in_range lo hi n then
        match k with
        | 0 | 1 => Some (Idle, rev (c :: pend))
        | S k' => Some (Need k' 128 191 (c :: pend), [])
        end
      else if (hi =? 159)%N && in_range 160 191 n then Some (Surrogate, [])
      else None
  | Surrogate => None
  end.

(** [decoder.decode(chunk, final=False)]: the text decoded from the chunk
    (in reverse) and the state left by an incomplete trailing sequence. *)
Fixpoint decode_bytes (st : dstate) (acc : list ascii) (bs : list byte)
  : option (dstate * list ascii) :=
  match bs with
  | [] => Some (st, acc)
  | b :: bs' =>
      match feed st b with
      | Some (st', out) => decode_bytes st' (rev_append out acc) bs'
      | None => None
      end
  end.

(** Universal newlines: [\r\n] and a lone [\r] become [\n]. *)
Fixpoint translate_newlines (cs : list ascii) : list ascii :=
  match cs with
  | [] => []
  | c :: rest =>
      if Ascii.eqb c CR then
        match rest with
        | c' :: rest' =>
            if Ascii.eqb c' LF then LF :: translate_newlines rest'
            else LF :: translate_newlines rest
        | [] => [LF]
        end
      else c :: translate_newlines rest
  end.

(** State of the text wrapper between two chunks: the UTF-8 decoder and the
    [pendingcr] flag of [IncrementalNewlineDecoder] (a CR that ended the
    previous chunk is held back until it is known whether an LF follows). *)
Record tstate : Type := { dec : dstate; pendingcr : bool }.

Definition tstate0 : tstate := {| dec := Idle; pendingcr := false |}.

Definition ends_with_cr (cs : list ascii) : bool :=
  match rev cs with
  | c :: _ => Ascii.eqb c CR
  | [] => false
  end.

(** [IncrementalNewlineDecoder.decode(chunk, final)]. *)
Definition decode_chunk (st : tstate) (final : bool) (bs : list byte)
  : option (tstate * list ascii) :=
  match decode_bytes (dec st) [] bs with
  | None => None
  | Some (d, racc) =>
      match d, final with
      | Need _ _ _ _, true | Surrogate, true => None
      | _, _ =>
          let out := rev racc in
          let out :=
            if pendingcr st && (negb (Nat.eqb (length out) 0) || final)
            then CR :: out else out in
          let keep := pendingcr st && Nat.eqb (length (rev racc)) 0 && negb final in
          let hold := ends_with_cr out && negb final in
          let out := if hold then removelast out else out in
          Some ({| dec := d; pendingcr := hold || keep |}, translate_newlines out)
      end
  end.

(** Splitting decoded text at LF: the complete lines (terminator included)
    and the unterminated remainder. [cur] is the line being read, reversed. *)
Fixpoint split_lines (cur : list ascii) (cs : list ascii)
  : list string * list ascii :=
  match cs with
  | [] => ([], cur)
  | c :: rest =>
      if Ascii.eqb c LF then
        let '(ls, r) := split_lines [] rest in
        (string_of_list_ascii (rev (c :: cur)) :: ls, r)
      else split_lines (c :: cur) rest
  end.

Fixpoint chunk_list (n fuel : nat) (bs : list byte) : list (list byte) :=
  match fuel with
  | 0 => []
  | S fuel' =>
      match bs with
      | [] => []
      | _ => firstn n bs :: chunk_list n fuel' (skipn n bs)
      end
  end.

(** The successive results of [buffer.read1(n)] on a regular file. *)
Definition chunks (n : nat) (bs : list byte) : list (list byte) :=
  chunk_list n (length bs) bs.

(** The lines [readline] returns, in order, and how the iteration ends:
    [None] for end of file, [Some UnicodeDecodeError] when a chunk does not
    decode. The lines completed by the chunks before the offending one have
    been returned by then, and the caller has consumed them. [cur] is the
    unterminated text carried over from the previous chunks, reversed. *)
Fixpoint read_lines (st : tstate) (cur : list ascii) (cks : list (list byte))
  : list string * option exn :=
  match cks with
  | [] =>
      match decode_chunk st true [] with
      | None => ([], Some UnicodeDecodeError)
      | Some (_, out) =>
          let '(ls, r) := split_lines cur out in
          match r with
          | [] => (ls, None)
          | _ => (ls ++ [string_of_list_ascii (rev r)], None)
          end
      end
  | ck :: cks' =>
      match decode_chunk st false ck with
      | None => ([], Some UnicodeDecodeError)
      | Some (st', out) =>
          let '(ls, r) := split_lines cur out in
          let '(ls', e) := read_lines st' r cks' in
          (ls ++ ls', e)
      end
  end.

Definition lines_of (n : nat) (bs : list byte) : list string * option exn :=
  read_lines tstate0 [] (chunks n bs).

(** Number of code points of a text: the bytes that are not continuation
    bytes. *)
Definition text_length (s : string) : N :=
  N.of_nat (length (filter (fun c => negb (in_range 128 191 (N_of_ascii c)))
                         (list_ascii_of_string s))).

End Text.

(** ** [csv.reader] and [csv.DictReader]

    The reader is the state machine of CPython's [_csv] module under the
    default [excel] dialect: the comma as delimiter, the double quote as
    quote character (doubled inside a quoted field), no escape character,
    not strict. *)

Module Csv.

Definition COMMA : ascii := ","%char.
Definition QUOTE : ascii := "034"%char.

(** [csv.field_size_limit()], in characters. *)
Definition FIELD_LIMIT : N := 131072.

Inductive pstate : Type :=
| START_RECORD
| START_FIELD
| IN_FIELD
| IN_QUOTED_FIELD
| QUOTE_IN_QUOTED_FIELD
| EAT_CRNL.

Definition pstate_eqb (a b : pstate) : bool :=
  match a, b with
  | START_RECORD, START_RECORD
  | START_FIELD, START_FIELD
  | IN_FIELD, IN_FIELD
  | IN_QUOTED_FIELD, IN_QUOTED_FIELD
  | QUOTE_IN_QUOTED_FIELD, QUOTE_IN_QUOTED_FIELD
  | EAT_CRNL, EAT_CRNL => true
  | _, _ => false
  end.

(** The reader object: parser state, the field being read (reversed) with
    its length in characters, and the fields saved so far (reversed). *)
Record parser : Type := {
  state : pstate;
  field : list ascii;
  field_len : N;
  fields : list string
}.

(** [parse_reset]. *)
Definition parse_reset : parser :=
  {| state := START_RECORD; field := []; field_len := 0; fields := [] |}.

Definition set_state (s : pstate) (p : parser) : parser :=
  {| state := s; field := field p; field_len := field_len p; fields := fields p |}.

(** [parse_save_field]. *)
Definition parse_save_field (p : parser) : parser :=
  {| state := state p; field := []; field_len := 0;
     fields := string_of_list_ascii (rev (field p)) :: fields p |}.

(** [parse_add_char]: fails once the field holds [FIELD_LIMIT] characters. *)
Definition parse_add_char (c : ascii) (p : parser) : result parser :=
  if Text.in_range 128 191 (N_of_ascii c) then
    Ok {| state := state p; field := c :: field p;
          field_len := field_len p; fields := fields p |}
  else if (FIELD_LIMIT <=? field_len p)%N then Raise CsvError
  else
    Ok {| state := state p; field := c :: field p;
          field_len := N.succ (field_len p); fields := fields p |}.

Definition is_nl (c : ascii) : bool := Ascii.eqb c Text.LF || Ascii.eqb c Text.CR.

Definition after_eol (c : option ascii) : pstate :=
  match c with None => START_RECORD | Some _ => EAT_CRNL end.

Definition ends_line (c : option ascii) : bool :=
  match c with None => true | Some a => is_nl a end.

(** [parse_process_char]; [None] is the end-of-line marker [EOL] the reader
    feeds after the last character of each line. *)
Definition parse_process_char (p : parser) (c : option ascii) : result parser :=
  let start_field (p : parser) : result parser :=
    if ends_line c then Ok (set_state (after_eol c) (parse_save_field p))
    else match c with
         | None => Ok p
         | Some a =>
             if Ascii.eqb a QUOTE then Ok (set_state IN_QUOTED_FIELD p)
             else if Ascii.eqb a COMMA then Ok (parse_save_field p)
             else match parse_add_char a p with
                  | Ok p' => Ok (set_state IN_FIELD p')
                  | Raise e => Raise e
                  end
         end in
  match state p with
  | START_RECORD =>
      match c with
      | None => Ok p
      | Some a =>
          if is_nl a then Ok (set_state EAT_CRNL p)
          else start_field (set_state START_FIELD p)
      end
  | START_FIELD => start_field p
  | IN_FIELD =>
      if ends_line c then Ok (set_state (after_eol c) (parse_save_field p))
      else match c with
           | None => Ok p
           | Some a =>
               if Ascii.eqb a COMMA
               then Ok (set_state START_FIELD (parse_save_field p))
               else parse_add_char a p
           end
  | IN_QUOTED_FIELD =>
      match c with
      | None => Ok p
      | Some a =>
          if Ascii.eqb a QUOTE then Ok (set_state QUOTE_IN_QUOTED_FIELD p)
          else parse_add_char a p
      end
  | QUOTE_IN_QUOTED_FIELD =>
      match c with
      | None => Ok (set_state START_RECORD (parse_save_field p))
      | Some a =>
          if Ascii.eqb a QUOTE then
            match parse_add_char a p with
            | Ok p' => Ok (set_state IN_QUOTED_FIELD p')
            | Raise e => Raise e
            end
          else if Ascii.eqb a COMMA
          then Ok (set_state START_FIELD (parse_save_field p))
          else if is_nl a then Ok (set_state EAT_CRNL (parse_save_field p))
          else match parse_add_char a p with
               | Ok p' => Ok (set_state IN_FIELD p')
               | Raise e => Raise e
               end
      end
  | EAT_CRNL =>
      match c with
      | None => Ok (set_state START_RECORD p)
      | Some a => if is_nl a then Ok p else Raise CsvError
      end
  end.

(** The characters of one line, then [EOL]. *)
Fixpoint feed_chars (p : parser) (cs : list ascii) : result parser :=
  match cs with
  | [] => parse_process_char p None
  | c :: cs' =>
      match parse_process_char p (Some c) with
      | Ok p' => feed_chars p' cs'
      | Raise e => Raise e
      end
  end.

Definition feed_line (p : parser) (line : string) : result parser :=
  feed_chars p (list_ascii_of_string line).

(** The records [next(reader)] returns, in order, over the lines of the file
    and the way their iteration ends; [p] is the parser in the middle of a
    record. A record is returned when the machine is back in [START_RECORD]
    at the end of a line. At the end of the file an unfinished quoted field
    closes the last record; when the line iteration ends by an exception,
    that exception passes through and the unfinished record is dropped. *)
Fixpoint read_records (p : parser) (lines : list string) (stop : option exn)
  : list (list string) * option exn :=
  match lines with
  | [] =>
      match stop with
      | Some e => ([], Some e)
      | None =>
          if negb (N.eqb (field_len p) 0) || pstate_eqb (state p) IN_QUOTED_FIELD
          then ([rev (fields (parse_save_field p))], None)
          else ([], None)
      end
  | l :: ls =>
      match feed_line p l with
      | Raise e => ([], Some e)
      | Ok p' =>
          if pstate_eqb (state p') START_RECORD then
            let '(rs, e) := read_records parse_reset ls stop in
            (rev (fields p') :: rs, e)
          else read_records p' ls stop
      end
  end.

Definition reader (src : list string * option exn)
  : list (list string) * option exn :=
  read_records parse_reset (fst src) (snd src).

(** A row of [DictReader]: a [dict] from column name to cell, where a cell
    is [None] when the row is shorter than the header ([restval]). The
    surplus cells of a row longer than the header go under the key
    [restkey], which is the object [None] and so no column name; the task
    looks up column names only, and the entry is left out. *)
Abbreviation row := (gmap string (option string)).

(** [dict(zip(fieldnames, row))] followed by
    [for key in fieldnames[lr:]: d[key] = restval]. *)
Definition make_row (fieldnames cells : list string) : row :=
  let d := foldl (fun d kv => <[fst kv := Some (snd kv)]> d) ∅ (zip fieldnames cells) in
  foldl (fun d k => <[k := None]> d) d (skipn (length cells) fieldnames).

Definition is_blank (r : list string) : bool :=
  match r with [] => true | _ => false end.

(** The rows [for row in csv.DictReader(file)] yields and the way the
    iteration ends. The first record is the header, whatever it holds;
    blank records after it are skipped. *)
Definition DictReader (src : list (list string) * option exn)
  : list row * option exn :=
  match fst src with
  | [] => ([], snd src)
  | fieldnames :: recs =>
      (map (make_row fieldnames) (filter (fun r => negb (is_blank r)) recs), snd src)
  end.

(** [row.get(key)] and [row.get(key, default)]. *)
Definition get (r : row) (key : string) (dflt : option string) : option string :=
  match r !! key with
  | Some v => v
  | None => dflt
  end.

End Csv.

(** ** The database: [django.contrib.auth.models.User] and [models.Student]

    [get_user_model()] is Django's stock user model (the project sets no
    other): [username] is unique, and [username], [first_name], [last_name]
    and [email] are [NOT NULL] text columns of at most 150, 150, 150 and 254
    characters. The columns the task never writes (password, flags, dates)
    take their defaults and are left out, as is [Student.created_at], which
    the store sets on insertion and nothing reads. *)

Module User.
Record t : Type := {
  id : nat;
  username : string;
  first_name : string;
  last_name : string;
  email : string
}.
End User.

(** [class Student(models.Model)]: [user] is a nullable one-to-one link (the
    [id] of a [User], unique among students), [reg_no] is unique, [email] is
    nullable, every other column is [NOT NULL]. *)
Module Student.
Record t : Type := {
  id : nat;
  user : option nat;
  reg_no : string;
  first_name : string;
  last_name : string;
  email : option string;
  department : string;
  level : string
}.
End Student.

Record DB : Type := {
  users : list User.t;
  students : list Student.t
}.

Definition empty_db : DB := {| users := []; students := [] |}.

(** A computation on the database that may raise: the database it leaves
    behind comes with either outcome (each statement is committed on its
    own, an exception does not undo the earlier ones). *)
Definition M (A : Type) : Type := DB -> DB * result A.

Definition ret {A} (a : A) : M A := fun db => (db, Ok a).
Definition raise {A} (e : exn) : M A := fun db => (db, Raise e).
Definition bind {A B} (m : M A) (k : A -> M B) : M B :=
  fun db =>
    match m db with
    | (db', Ok a) => k a db'
    | (db', Raise e) => (db', Raise e)
    end.

Declare Scope db_scope.
Delimit Scope db_scope with db.
Notation "x <- m ;; k" := (bind m (fun x => k))
  (at level 100, m at next level, right associativity) : db_scope.
Notation "m ;;; k" := (bind m (fun _ => k))
  (at level 100, right associativity) : db_scope.

Module Orm.
Section Backend.

(** Whether the storage engine refuses a text longer than the column's
    [max_length] with a [DataError] (PostgreSQL, MySQL in strict mode) or
    stores it as it is (SQLite). The ORM itself does not check lengths on
    [create]. *)
Variable strict : bool.

Definition too_long (limit : N) (s : string) : bool :=
  strict && (limit <? Text.text_length s)%N.

Definition too_long_opt (limit : N) (s : option string) : bool :=
  match s with Some s => too_long limit s | None => false end.

(** The primary key of the next row: one above the largest in the table. *)
Definition next_id (ids : list nat) : nat := S (max_list ids).

(** [User.objects.get(username=...)]: a lookup by [None] compiles to
    [IS NULL] and matches no row of a [NOT NULL] column. *)
Definition get_user (username : option string) (db : DB) : option User.t :=
  match username with
  | None => None
  | Some k => List.find (fun u => String.eqb (User.username u) k) (users db)
  end.

(** [User.objects.create(username=..., first_name=..., last_name=...,
    email=...)]: one [INSERT]. *)
Definition create_user (username first_name last_name email : option string)
  : M User.t :=
  fun db =>
    if too_long_opt 150 username || too_long_opt 150 first_name
       || too_long_opt 150 last_name || too_long_opt 254 email
    then (db, Raise DataError)
    else
      match username, first_name, last_name, email with
      | Some k, Some f, Some l, Some e =>
          if existsb (fun u => String.eqb (User.username u) k) (users db)
          then (db, Raise IntegrityError)
          else
            let u := {| User.id := next_id (map User.id (users db));
                        User.username := k; User.first_name := f;
                        User.last_name := l; User.email := e |} in
            ({| users := users db ++ [u]; students := students db |}, Ok u)
      | _, _, _, _ => (db, Raise IntegrityError)
      end.

(** [Student.objects.get(reg_no=...)]. *)
Definition get_student (reg_no : option string) (db : DB) : option Student.t :=
  match reg_no with
  | None => None
  | Some k => List.find (fun s => String.eqb (Student.reg_no s) k) (students db)
  end.

Definition linked_to (uid : option nat) (s : Student.t) : bool :=
  match uid, Student.user s with
  | Some i, Some j => Nat.eqb i j
  | _, _ => false
  end.

(** [Student.objects.create(reg_no=..., user=..., ...)]: one [INSERT]. *)
Definition create_student (reg_no : option string) (user : option nat)
    (first_name last_name email department level : option string)
  : M Student.t :=
  fun db =>
    if too_long_opt 50 reg_no || too_long_opt 50 first_name
       || too_long_opt 50 last_name || too_long_opt 254 email
       || too_long_opt 120 department || too_long_opt 20 level
    then (db, Raise DataError)
    else
      match reg_no, first_name, last_name, department, level with
      | Some k, Some f, Some l, Some d, Some v =>
          if existsb (fun s => String.eqb (Student.reg_no s) k) (students db)
             || existsb (linked_to user) (students db)
          then (db, Raise IntegrityError)
          else
            let s := {| Student.id := next_id (map Student.id (students db));
                        Student.user := user; Student.reg_no := k;
                        Student.first_name := f; Student.last_name := l;
                        Student.email := email; Student.department := d;
                        Student.level := v |} in
            ({| users := users db; students := students db ++ [s] |}, Ok s)
      | _, _, _, _, _ => (db, Raise IntegrityError)
      end.

(** [QuerySet.get_or_create]: return what [self.get] finds for the lookup
    with the flag [False]; on [DoesNotExist] create the row from the lookup
    and the defaults and return it with [True]; an [IntegrityError] from the
    insert is answered by a second [get], and raised again if that finds
    nothing. *)
Definition get_or_create {E : Type} (get : DB -> option E) (create : M E)
  : M (E * bool) :=
  fun db =>
    match get db with
    | Some e => (db, Ok (e, false))
    | None =>
        match create db with
        | (db', Ok e) => (db', Ok (e, true))
        | (db', Raise IntegrityError) =>
            match get db' with
            | Some e => (db', Ok (e, false))
            | None => (db', Raise IntegrityError)
            end
        | (db', Raise x) => (db', Raise x)
        end
    end.

End Backend.
End Orm.

(** ** [myceleryapp/tasks.py] *)

Module Tasks.
Section Task.

Variable strict : bool.

(** The values the loop body reads from one row. *)
Record fields : Type := {
  reg_no : option string;
  first_name : option string;
  last_name : option string;
  email : option string;
  department : option string;
  level : option string
}.

(** [row.get("reg_no")] ... [row.get("level", "")]. *)
Definition read_row (r : Csv.row) : fields :=
  {| reg_no := Csv.get r "reg_no" None;
     first_name := Csv.get r "first_name" None;
     last_name := Csv.get r "last_name" None;
     email := Csv.get r "email" None;
     department := Csv.get r "department" (Some "");
     level := Csv.get r "level" (Some "") |}.

(** [User.objects.get_or_create(username=reg_no, defaults={...})]. *)
Definition upsert_user (f : fields) : M (User.t * bool) :=
  Orm.get_or_create (Orm.get_user (reg_no f))
    (Orm.create_user strict (reg_no f) (first_name f) (last_name f) (email f)).

(** [Student.objects.get_or_create(reg_no=reg_no, defaults={"user": user, ...})]. *)
Definition upsert_student (user : User.t) (f : fields) : M (Student.t * bool) :=
  Orm.get_or_create (Orm.get_student (reg_no f))
    (Orm.create_student strict (reg_no f) (Some (User.id user)) (first_name f)
       (last_name f) (email f) (department f) (level f)).

(** The body of [for row in reader]. *)
Definition process_row (r : Csv.row) : M unit :=
  (let f := read_row r in
   uc <- upsert_user f ;;
   upsert_student (fst uc) f ;;;
   ret tt)%db.

(** [for row in rows: body(row)]. *)
Fixpoint for_each {A} (body : A -> M unit) (rows : list A) : M unit :=
  match rows with
  | [] => ret tt
  | r :: rest => (body r ;;; for_each body rest)%db
  end.

(** The loop over an iterator that yields [fst src] and then stops, by
    exhaustion or by the exception [snd src]. *)
Definition for_rows (src : list Csv.row * option exn) : M unit :=
  (for_each process_row (fst src) ;;;
   match snd src with
   | Some e => raise e
   | None => ret tt
   end)%db.

(** The rows the task iterates over, from the bytes of the file. *)
Definition rows_of (bytes : list byte) : list Csv.row * option exn :=
  Csv.DictReader (Csv.reader (Text.lines_of Text.CHUNK_SIZE bytes)).

(** [process_students_csv(file_path)], on a file system that maps paths to
    file contents. *)
Definition process_students_csv (fs : gmap string (list byte)) (file_path : string)
  : M unit :=
  match fs !! file_path with
  | None => raise FileNotFoundError
  | Some bytes => for_rows (rows_of bytes)
  end.

End Task.
End Tasks.

(** [extends db db']: [db'] holds the rows of [db], in their order, and
    possibly more after them. The pipeline inserts and never updates or
    deletes, so every database it leaves extends the one it found. *)
Definition extends (db db' : DB) : Prop :=
  (exists us, users db' = users db ++ us)
  /\ (exists ss, students db' = students db ++ ss).

(** ** The queue and the result store (Celery)

    [task.delay(args)] puts a message carrying the task's id and arguments on
    the queue; a worker takes it, runs the task and records the outcome in
    the result store under that id. [AsyncResult(task_id).status] reads the
    store; an id the store holds nothing for reads as [PENDING]. The
    project's Celery settings are not part of the sources: a result store is
    taken to be configured. *)

Module Celery.

Inductive task_state : Type := PENDING | STARTED | SUCCESS | FAILURE.

Definition state_name (s : task_state) : string :=
  match s with
  | PENDING => "PENDING"
  | STARTED => "STARTED"
  | SUCCESS => "SUCCESS"
  | FAILURE => "FAILURE"
  end.

(** What the store keeps for a finished task: its state and its result, the
    task's return value or the exception it raised. The task returns
    [None], the only return value there is. *)
Inductive task_result : Type :=
| Returned_None
| Raised (e : exn).

Record meta : Type := { status : task_state; result : task_result }.

Record world : Type := {
  fs : gmap string (list byte);
  queue : list (string * string);
  backend : gmap string meta;
  db : DB
}.

(** [process_students_csv.delay(file_path)], with the id drawn for the task. *)
Definition delay (task_id file_path : string) (w : world) : world :=
  {| fs := fs w; queue := queue w ++ [(task_id, file_path)];
     backend := backend w; db := db w |}.

(** [AsyncResult(task_id, app=app).status]. *)
Definition AsyncResult_status (task_id : string) (w : world) : task_state :=
  match backend w !! task_id with
  | Some m => status m
  | None => PENDING
  end.

(** A worker takes the oldest message and runs the task to its end. *)
Definition worker_step (strict : bool) (w : world) : world :=
  match queue w with
  | [] => w
  | (task_id, file_path) :: rest =>
      let '(db', r) := Tasks.process_students_csv strict (fs w) file_path (db w) in
      let m := match r with
               | Ok _ => {| status := SUCCESS; result := Returned_None |}
               | Raise e => {| status := FAILURE; result := Raised e |}
               end in
      {| fs := fs w; queue := rest; backend := <[task_id := m]> (backend w);
         db := db' |}
  end.

End Celery.

(** ** The operating system under the upload view

    The upload view creates a directory and writes a file. Whether these
    calls go through depends on the machine (a file in the way, missing
    permissions, a full disk, a name too long for the file system), which
    the model does not hold: what the operating system answers to the calls
    of one request is given with the request, as the id of the new task is.
    [OSError] stands for the subclasses of [OSError] the model does not tell
    apart. *)

Module Os.

(** How [open(path, "wb+")], the writes and the close end: everything is
    written; or the open is refused and the path is as it was; or the file
    was created or truncated and a write or the close is refused, which
    leaves the file with [rest]. *)
Inductive outcome : Type :=
| Stored
| NotOpened (e : exn)
| Broken (e : exn) (rest : list byte).

(** The answers to one request: the exception [mkdir] raises on the way to
    the directory, if any, and how the writing ends. *)
Record answers : Type := { makedirs : option exn; write : outcome }.

(** A machine on which both go through. *)
Definition ok : answers := {| makedirs := None; write := Stored |}.

End Os.

(** ** [myceleryapp/views.py] *)

Module Views.

(** An uploaded file: its name and the chunks [file.chunks()] yields. *)
Record UploadedFile : Type := { name : string; file_chunks : list (list byte) }.

(** [request.FILES]. *)
Record Request : Type := { FILES : gmap string UploadedFile }.

(** A JSON object with text values, in the order the view writes its keys. *)
Record Response : Type := { status_code : nat; data : list (string * string) }.

Definition HTTP_200_OK : nat := 200.
Definition HTTP_202_ACCEPTED : nat := 202.
Definition HTTP_400_BAD_REQUEST : nat := 400.

Definition starts_with_slash (s : string) : bool :=
  match s with
  | String c _ => Ascii.eqb c "/"%char
  | EmptyString => false
  end.

Definition ends_with_slash (s : string) : bool :=
  match rev (list_ascii_of_string s) with
  | c :: _ => Ascii.eqb c "/"%char
  | [] => false
  end.

(** [os.path.join(a, b)] on POSIX. *)
Definition path_join (a b : string) : string :=
  if starts_with_slash b then b
  else if String.eqb a "" || ends_with_slash a then a ++ b
  else a ++ "/" ++ b.

(** The truth value of an uploaded file is that of its name. *)
Definition truthy (f : option UploadedFile) : bool :=
  match f with
  | Some f => negb (String.eqb (name f) "")
  | None => false
  end.

(** Whether a path holds a NUL character, which no system call takes. *)
Fixpoint has_nul (s : string) : bool :=
  match s with
  | EmptyString => false
  | String c s' => Ascii.eqb c "000"%char || has_nul s'
  end.

(** [os.makedirs(path, exist_ok=True)]: the exception it raises, if any. A
    directory that is there already is no error. The empty path names no
    directory: [mkdir] answers [ENOENT]. A path with a NUL character never
    goes through: the [mkdir] that meets the character raises [ValueError],
    unless the operating system refused a directory before it. *)
Definition makedirs (os : Os.answers) (path : string) : option exn :=
  if String.eqb path "" then Some FileNotFoundError
  else if has_nul path then
    Some (match Os.makedirs os with Some e => e | None => ValueError end)
  else Os.makedirs os.

(** [with open(file_path, "wb+") as destination:
       for chunk in chunks: destination.write(chunk)]:
    the files it leaves and the exception it raises, if any. [open] refuses
    the empty path and a path with a NUL character by itself; it creates the
    file or empties the one that is there. *)
Definition write_chunks (os : Os.answers) (file_path : string)
    (chunks : list (list byte)) (fs : gmap string (list byte))
  : gmap string (list byte) * option exn :=
  if String.eqb file_path "" then (fs, Some FileNotFoundError)
  else if has_nul file_path then (fs, Some ValueError)
  else
    match Os.write os with
    | Os.Stored => (<[file_path := concat chunks]> fs, None)
    | Os.NotOpened e => (fs, Some e)
    | Os.Broken e rest => (<[file_path := rest]> fs, Some e)
    end.

(** [upload_students_csv(request)]: the response it returns or the
    exception it raises. [MEDIA_ROOT] is [settings.MEDIA_ROOT], [task_id]
    the id the queue draws for the new task and [os] what the operating
    system answers to this request. *)
Definition upload_students_csv (os : Os.answers) (MEDIA_ROOT task_id : string)
    (request : Request) (w : Celery.world) : result Response * Celery.world :=
  let file := FILES request !! "file" in
  if negb (truthy file) then
    (Ok {| status_code := HTTP_400_BAD_REQUEST;
           data := [("error", "CSV file is required.")] |}, w)
  else
    match file with
    | None => (Ok {| status_code := HTTP_400_BAD_REQUEST;
                     data := [("error", "CSV file is required.")] |}, w)
    | Some f =>
        match makedirs os MEDIA_ROOT with
        | Some e => (Raise e, w)
        | None =>
            let file_path := path_join MEDIA_ROOT (name f) in
            let '(fs1, failure) :=
              write_chunks os file_path (file_chunks f) (Celery.fs w) in
            let w1 := {| Celery.fs := fs1;
                         Celery.queue := Celery.queue w;
                         Celery.backend := Celery.backend w;
                         Celery.db := Celery.db w |} in
            match failure with
            | Some e => (Raise e, w1)
            | None =>
                let w2 := Celery.delay task_id file_path w1 in
                (Ok {| status_code := HTTP_202_ACCEPTED;
                       data := [("message", "CSV upload received. Processing started.");
                                ("task_id", task_id);
                                ("status", "PENDING")] |}, w2)
            end
        end
    end.

(** [get_task_status(request, task_id)]. *)
Definition get_task_status (task_id : string) (w : Celery.world) : Response :=
  {| status_code := HTTP_200_OK;
     data := [("task_id", task_id);
              ("status", Celery.state_name (Celery.AsyncResult_status task_id w))] |}.

(** [get_students(request)]: every [Student] row, in primary-key order. *)
Definition get_students (w : Celery.world) : list Student.t :=
  students (Celery.db w).

(** The value a response gives for a key. *)
Definition field_of (key : string) (r : Response) : option string :=
  snd <$> List.find (fun kv => String.eqb (fst kv) key) (data r).

End Views.

(** ** Sample inputs *)

Module Samples.

Definition nl : string := String Text.LF "".

Definition header : string := "reg_no,first_name,last_name,email,department,level".

Definition bytes_of (s : string) : list byte := list_byte_of_string s.

Definition media : string := "/srv/media".

Definition world0 : Celery.world :=
  {| Celery.fs := ∅; Celery.queue := []; Celery.backend := ∅; Celery.db := empty_db |}.

Definition ada_user : User.t :=
  {| User.id := 1; User.username := "S001"; User.first_name := "Ada";
     User.last_name := "Lovelace"; User.email := "ada@x.com" |}.

Definition ada_student : Student.t :=
  {| Student.id := 1; Student.user := Some 1; Student.reg_no := "S001";
     Student.first_name := "Ada"; Student.last_name := "Lovelace";
     Student.email := Some "ada@x.com"; Student.department := "CS";
     Student.level := "300" |}.

Definition ada_db : DB := {| users := [ada_user]; students := [ada_student] |}.

Definition ada_fields : Tasks.fields :=
  {| Tasks.reg_no := Some "S001"; Tasks.first_name := Some "Ada";
     Tasks.last_name := Some "L"; Tasks.email := Some "";
     Tasks.department := Some "CS"; Tasks.level := Some "300" |}.

Definition columns : list string :=
  ["reg_no"; "first_name"; "last_name"; "email"; "department"; "level"].

Definition ada_row : Csv.row :=
  Csv.make_row columns ["S001"; "Ada"; "Lovelace"; "ada@x.com"; "CS"; "300"].

Definition bob_row : Csv.row :=
  Csv.make_row columns ["S002"; "Bob"; "Stone"; "bob@x.com"; "Math"; "100"].

(** A row with the registration number alone. *)
Definition lone_key_row : Csv.row := Csv.make_row columns ["S003"].

(** A well-formed file of one row. *)
Definition one_row : list byte :=
  bytes_of (header ++ nl ++ "S001,Ada,Lovelace,ada@x.com,CS,300" ++ nl).

(** A row with the registration number alone, then a complete row. *)
Definition bad_then_good : list byte :=
  bytes_of (header ++ nl ++ "S001" ++ nl ++ "S002,Bob,Stone,bob@x.com,Math,100" ++ nl).

(** A row without its two trailing cells. *)
Definition short_row : list byte :=
  bytes_of (header ++ nl ++ "S001,Ada,Lovelace,ada@x.com" ++ nl).

(** A complete row followed by the first byte of a three-byte sequence. *)
Definition truncated : list byte :=
  bytes_of (header ++ nl ++ "S001,Ada,Lovelace,ada@x.com,CS,300" ++ nl) ++ [xe2].

(** A complete row, a long unterminated line reaching past the first chunk,
    and a byte that starts no sequence. *)
Definition bad_second_chunk : list byte :=
  bytes_of (header ++ nl ++ "S001,Ada,Lovelace,ada@x.com,CS,300" ++ nl)
  ++ repeat x78 Text.CHUNK_SIZE ++ [xff].

(** A file that starts with a byte that starts no sequence. *)
Definition bad_first_chunk : list byte :=
  xff :: bytes_of (header ++ nl ++ "S001,Ada,Lovelace,ada@x.com,CS,300" ++ nl).

(** A header without the [email] column. *)
Definition without_email : list byte :=
  bytes_of ("reg_no,first_name,last_name,department,level" ++ nl
            ++ "S001,Ada,Lovelace,CS,300" ++ nl).

(** A header without the [first_name] column. *)
Definition without_first_name : list byte :=
  bytes_of ("reg_no,last_name,email,department,level" ++ nl
            ++ "S001,Lovelace,ada@x.com,CS,300" ++ nl).

(** Tables that hold an account and no profile. *)
Definition account_only : DB := {| users := [ada_user]; students := [] |}.

(** No header line: the first row of data comes first. *)
Definition no_header : list byte :=
  bytes_of ("S001,Ada,Lovelace,ada@x.com,CS,300" ++ nl
            ++ "S002,Bob,Stone,bob@x.com,Math,100" ++ nl).

(** The same registration number twice, with different names, in both
    orders. *)
Definition twice_ab : list byte :=
  bytes_of (header ++ nl ++ "S001,Ada,Lovelace,ada@x.com,CS,300" ++ nl
            ++ "S001,Ada,L,,CS,300" ++ nl).
Definition twice_ba : list byte :=
  bytes_of (header ++ nl ++ "S001,Ada,L,,CS,300" ++ nl
            ++ "S001,Ada,Lovelace,ada@x.com,CS,300" ++ nl).

Definition disk (bytes : list byte) : gmap string (list byte) :=
  {[ "/srv/media/students.csv" := bytes ]}.

Definition run (bytes : list byte) (db : DB) : DB * result unit :=
  Tasks.process_students_csv false (disk bytes) "/srv/media/students.csv" db.

(** The world after a well-formed file of one row was submitted and a worker
    ran the job. *)
Definition world_after_one_row : Celery.world :=
  Celery.worker_step false
    (snd (Views.upload_students_csv Os.ok media "7f3c"
            {| Views.FILES :=
                 {[ "file" := {| Views.name := "students.csv";
                                 Views.file_chunks := [one_row] |} ]} |}
            world0)).

End Samples.

(** ** The entities behind the rows

    Primary keys are handed out in insertion order, so two runs that insert
    the same entities in different orders leave different tables. What the
    pipeline's keys identify is the account behind a username and the
    profile behind a registration number: the entity set of a database maps
    each key to the columns of its row, with the link of a profile given as
    the username of the account it points to. *)

Module Entities.

Record account : Type := {
  a_first_name : string;
  a_last_name : string;
  a_email : string
}.

Record profile : Type := {
  p_account : option string;
  p_first_name : string;
  p_last_name : string;
  p_email : option string;
  p_department : string;
  p_level : string
}.

Definition account_of (u : User.t) : account :=
  {| a_first_name := User.first_name u; a_last_name := User.last_name u;
     a_email := User.email u |}.

Definition username_of (db : DB) (uid : nat) : option string :=
  User.username <$> List.find (fun u => Nat.eqb (User.id u) uid) (users db).

Definition profile_of (db : DB) (s : Student.t) : profile :=
  {| p_account := Student.user s ≫= username_of db;
     p_first_name := Student.first_name s; p_last_name := Student.last_name s;
     p_email := Student.email s; p_department := Student.department s;
     p_level := Student.level s |}.

Definition accounts (db : DB) : gmap string account :=
  list_to_map (map (fun u => (User.username u, account_of u)) (users db)).

Definition profiles (db : DB) : gmap string profile :=
  list_to_map (map (fun s => (Student.reg_no s, profile_of db s)) (students db)).

Definition entities (db : DB) : gmap string account * gmap string profile :=
  (accounts db, profiles db).

(** The schema constraints on the two tables: primary keys of users,
    usernames and registration numbers are unique, and the link of a student
    points to a user that exists. *)
Definition consistent (db : DB) : Prop :=
  NoDup (map User.id (users db))
  /\ NoDup (map User.username (users db))
  /\ NoDup (map Student.reg_no (students db))
  /\ (forall s j, In s (students db) -> Student.user s = Some j ->
                  In j (map User.id (users db))).

Section Step.

Variable strict : bool.

(** The account a row would insert, if the store accepts it. *)
Definition new_account (f : Tasks.fields) : option account :=
  if Orm.too_long_opt strict 150 (Tasks.reg_no f)
     || Orm.too_long_opt strict 150 (Tasks.first_name f)
     || Orm.too_long_opt strict 150 (Tasks.last_name f)
     || Orm.too_long_opt strict 254 (Tasks.email f)
  then None
  else
    match Tasks.first_name f, Tasks.last_name f, Tasks.email f with
    | Some a, Some b, Some c =>
        Some {| a_first_name := a; a_last_name := b; a_email := c |}
    | _, _, _ => None
    end.

(** The profile a row would insert, linked to the account of its key. *)
Definition new_profile (k : string) (f : Tasks.fields) : option profile :=
  if Orm.too_long_opt strict 50 (Tasks.reg_no f)
     || Orm.too_long_opt strict 50 (Tasks.first_name f)
     || Orm.too_long_opt strict 50 (Tasks.last_name f)
     || Orm.too_long_opt strict 254 (Tasks.email f)
     || Orm.too_long_opt strict 120 (Tasks.department f)
     || Orm.too_long_opt strict 20 (Tasks.level f)
  then None
  else
    match Tasks.first_name f, Tasks.last_name f, Tasks.department f, Tasks.level f with
    | Some a, Some b, Some d, Some v =>
        Some {| p_account := Some k; p_first_name := a; p_last_name := b;
                p_email := Tasks.email f; p_department := d; p_level := v |}
    | _, _, _, _ => None
    end.

(** No profile is linked to the account [k]. *)
Definition unlinked (k : string) (ps : gmap string profile) : Prop :=
  map_Forall (fun _ p => p_account p <> Some k) ps.

(** The account upsert on the accounts: nothing for a known key, the new
    account for an unknown one; [None] when the insert raises. *)
Definition add_account (k : string) (f : Tasks.fields) (us : gmap string account)
  : option (gmap string account) :=
  match us !! k with
  | Some _ => Some us
  | None => (fun a => <[k := a]> us) <$> new_account f
  end.

(** The profile upsert on the profiles; the insert also raises when a
    profile is already linked to the account of the key. *)
Definition add_profile (k : string) (f : Tasks.fields) (ps : gmap string profile)
  : option (gmap string profile) :=
  match ps !! k with
  | Some _ => Some ps
  | None =>
      if decide (unlinked k ps)
      then (fun p => <[k := p]> ps) <$> new_profile k f
      else None
  end.

(** What a row that is processed without an exception does to the entity
    set; [None] when the row raises. *)
Definition step (f : Tasks.fields) (v : gmap string account * gmap string profile)
  : option (gmap string account * gmap string profile) :=
  match Tasks.reg_no f with
  | None => None
  | Some k =>
      match add_account k f (fst v), add_profile k f (snd v) with
      | Some us, Some ps => Some (us, ps)
      | _, _ => None
      end
  end.

Fixpoint steps (fs : list Tasks.fields) (v : gmap string account * gmap string profile)
  : option (gmap string account * gmap string profile) :=
  match fs with
  | [] => Some v
  | f :: rest =>
      match step f v with
      | Some v' => steps rest v'
      | None => None
      end
  end.

End Step.

(** Rows that carry the same registration number carry the same values. *)
Definition agree (fs : list Tasks.fields) : Prop :=
  forall f g, In f fs -> In g fs -> Tasks.reg_no f = Tasks.reg_no g -> f = g.

End Entities.

(** ** Rows, batches and the worker loop *)

Module Batch.

(** Every value the loop body reads from the row is there. *)
Definition complete (f : Tasks.fields) : Prop :=
  is_Some (Tasks.reg_no f) /\ is_Some (Tasks.first_name f)
  /\ is_Some (Tasks.last_name f) /\ is_Some (Tasks.email f)
  /\ is_Some (Tasks.department f) /\ is_Some (Tasks.level f).

(** No value of the row is longer than a column it goes to, on a store
    that enforces the lengths. *)
Definition within_limits (strict : bool) (f : Tasks.fields) : bool :=
  negb (Orm.too_long_opt strict 150 (Tasks.reg_no f)
        || Orm.too_long_opt strict 150 (Tasks.first_name f)
        || Orm.too_long_opt strict 150 (Tasks.last_name f)
        || Orm.too_long_opt strict 254 (Tasks.email f))
  && negb (Orm.too_long_opt strict 50 (Tasks.reg_no f)
           || Orm.too_long_opt strict 50 (Tasks.first_name f)
           || Orm.too_long_opt strict 50 (Tasks.last_name f)
           || Orm.too_long_opt strict 254 (Tasks.email f)
           || Orm.too_long_opt strict 120 (Tasks.department f)
           || Orm.too_long_opt strict 20 (Tasks.level f)).

(** The first of the rows that carries the registration number [k]. *)
Definition first_with_key (k : string) (fs : list Tasks.fields) : option Tasks.fields :=
  List.find (fun f => bool_decide (Tasks.reg_no f = Some k)) fs.

(** The link of every profile that has one points to the account that bears
    the profile's registration number. *)
Definition links_match (db : DB) : Prop :=
  forall s j, In s (students db) -> Student.user s = Some j ->
              Entities.username_of db j = Some (Student.reg_no s).

(** The link is one-to-one: no two profiles point to the same account. *)
Definition links_unique (db : DB) : Prop :=
  NoDup (omap Student.user (students db)).

End Batch.

Module Worker.

(** A worker that takes [n] messages from the queue, one after the other. *)
Definition work (strict : bool) (n : nat) (w : Celery.world) : Celery.world :=
  Nat.iter n (Celery.worker_step strict) w.

(** The database a list of jobs leaves when they run in order. *)
Definition run_jobs (strict : bool) (fs : gmap string (list byte))
    (jobs : list (string * string)) (db : DB) : DB :=
  foldl (fun db job => fst (Tasks.process_students_csv strict fs (snd job) db)) db jobs.

(** What the worker records for a task that ended with [o]. *)
Definition meta_of (o : result unit) : Celery.meta :=
  match o with
  | Ok _ => {| Celery.status := Celery.SUCCESS; Celery.result := Celery.Returned_None |}
  | Raise e => {| Celery.status := Celery.FAILURE; Celery.result := Celery.Raised e |}
  end.

(** The states in which the result store holds an outcome. *)
Definition terminal (s : Celery.task_state) : bool :=
  match s with
  | Celery.SUCCESS | Celery.FAILURE => true
  | Celery.PENDING | Celery.STARTED => false
  end.

End Worker.

(** ** [myceleryapp/urls.py]

    [path(route, view, name)] matches the whole of what is left of the
    request path once the prefix under which the project includes these
    patterns is taken off. A route is literal text with converters in it;
    [<str:name>] stands for one or more characters other than [/], as many
    as the rest of the route allows. The resolver tries the patterns in the
    order of the list and takes the first that matches. *)

Module Urls.

Inductive part : Type :=
| Lit (text : string)
| Str (name : string).

Inductive view : Type :=
| upload_students_csv
| get_task_status
| get_students.

Record url : Type := { route : list part; target : view; name : string }.

Definition urlpatterns : list url :=
  [ {| route := [Lit "upload-students-csv/"]; target := upload_students_csv;
       name := "upload_students_csv" |};
    {| route := [Lit "task-status/"; Str "task_id"; Lit "/"];
       target := get_task_status; name := "get_task_status" |};
    {| route := [Lit "students/"]; target := get_students;
       name := "student_list" |} ].

Definition SLASH : ascii := "/"%char.

(** What is left of [s] after the text [p], if [s] starts with it. *)
Fixpoint strip_prefix (p s : string) : option string :=
  match p with
  | EmptyString => Some s
  | String a p' =>
      match s with
      | String b s' => if Ascii.eqb a b then strip_prefix p' s' else None
      | EmptyString => None
      end
  end.

(** The converter [str] in front of the rest of the route [k]: [taken] is
    the run read so far; longer runs are tried before shorter ones. *)
Fixpoint match_str (k : string -> option (list (string * string)))
    (taken : string) (s : string) : option (string * list (string * string)) :=
  let here :=
    if String.eqb taken "" then None
    else match k s with
         | Some kwargs => Some (taken, kwargs)
         | None => None
         end in
  match s with
  | EmptyString => here
  | String c s' =>
      if Ascii.eqb c SLASH then here
      else match match_str k (taken ++ String c "") s' with
           | Some r => Some r
           | None => here
           end
  end.

(** The keyword arguments a route captures from a path, if it matches the
    whole path. *)
Fixpoint match_route (r : list part) (s : string) : option (list (string * string)) :=
  match r with
  | [] => if String.eqb s "" then Some [] else None
  | Lit text :: r' =>
      match strip_prefix text s with
      | Some s' => match_route r' s'
      | None => None
      end
  | Str name :: r' =>
      match match_str (match_route r') "" s with
      | Some (v, kwargs) => Some ((name, v) :: kwargs)
      | None => None
      end
  end.

(** The first pattern that matches, with the arguments it captures; [None]
    is the resolver's 404. *)
Fixpoint resolve_in (patterns : list url) (path : string)
  : option (url * list (string * string)) :=
  match patterns with
  | [] => None
  | u :: rest =>
      match match_route (route u) path with
      | Some kwargs => Some (u, kwargs)
      | None => resolve_in rest path
      end
  end.

Definition resolve (path : string) : option (url * list (string * string)) :=
  resolve_in urlpatterns path.

Fixpoint no_slash (s : string) : bool :=
  match s with
  | EmptyString => true
  | String c s' => negb (Ascii.eqb c SLASH) && no_slash s'
  end.

End Urls.

(** [Student.__str__]: the registration number, a dash between spaces, and
    the two names with a space between them. *)
Definition __str__ (s : Student.t) : string :=
  Student.reg_no s ++ " - " ++ Student.first_name s ++ " " ++ Student.last_name s.

Fixpoint no_space (s : string) : bool :=
  match s with
  | EmptyString => true
  | String c s' => negb (Ascii.eqb c " "%char) && no_space s'
  end.

(** ** Files written the plain way

    A file written without quoting: the cells of a record joined by commas,
    a line feed after each record. *)

Module Format.

(** A character that needs no quoting: ASCII, and not a comma, a double
    quote, a carriage return or a line feed. *)
Definition plain (c : ascii) : bool :=
  (N_of_ascii c <? 128)%N
  && negb (Ascii.eqb c Csv.COMMA) && negb (Ascii.eqb c Csv.QUOTE)
  && negb (Csv.is_nl c).

(** A cell of plain characters, within the reader's field size limit. *)
Definition plain_cell (s : string) : bool :=
  forallb plain (list_ascii_of_string s)
  && (N.of_nat (String.length s) <=? Csv.FIELD_LIMIT)%N.

(** A record the plain way can carry: plain cells, and not the record of one
    empty cell, whose line is the line of the empty record. *)
Definition writable (rec : list string) : Prop :=
  rec <> [""] /\ forall cell, In cell rec -> plain_cell cell = true.

Definition encode_record (rec : list string) : string :=
  String.concat "," rec ++ String Text.LF "".

Definition encode_file (recs : list (list string)) : list byte :=
  list_byte_of_string (String.concat "" (map encode_record recs)).

End Format.

(** ** More sample inputs *)

Module Fixtures.

(** A row without its two trailing cells: the account goes in, the profile
    does not. *)
Definition four_cells : Csv.row :=
  Csv.make_row Samples.columns ["S001"; "Ada"; "Lovelace"; "ada@x.com"].

(** The registration number of [Samples.ada_row] again, with other values. *)
Definition ada_again : Csv.row :=
  Csv.make_row Samples.columns ["S001"; "Ada"; "L"; ""; "CS"; "300"].

(** Two uploads under one file name. *)
Definition students_file : Views.UploadedFile :=
  {| Views.name := "students.csv"; Views.file_chunks := [Samples.one_row] |}.

Definition second_file : Views.UploadedFile :=
  {| Views.name := "students.csv";
     Views.file_chunks :=
       [Samples.bytes_of (String.append Samples.header Samples.nl);
        Samples.bytes_of (String.append "S002,Bob,Stone,bob@x.com,Math,100" Samples.nl)] |}.

Definition upload (f : Views.UploadedFile) : Views.Request :=
  {| Views.FILES := {[ "file" := f ]} |}.

(** A finished job, and a second upload waiting in the queue. *)
Definition world_with_pending : Celery.world :=
  snd (Views.upload_students_csv Os.ok Samples.media "9a1e" (upload second_file)
         Samples.world_after_one_row).

(** A machine whose disk is full: the file is created and nothing of it is
    written. *)
Definition disk_full : Os.answers :=
  {| Os.makedirs := None; Os.write := Os.Broken OSError [] |}.

(** Two complete rows with different registration numbers. *)
Definition two_rows : list byte :=
  Samples.bytes_of
    (String.append Samples.header
       (String.append Samples.nl
          (String.append "S001,Ada,Lovelace,ada@x.com,CS,300"
             (String.append Samples.nl
                (String.append "S002,Bob,Stone,bob@x.com,Math,100" Samples.nl))))).

(** A student that shares registration number and names with
    [Samples.ada_student] and nothing else. *)
Definition ada_twin : Student.t :=
  {| Student.id := 2; Student.user := None; Student.reg_no := "S001";
     Student.first_name := "Ada"; Student.last_name := "Lovelace";
     Student.email := None; Student.department := "Math";
     Student.level := "100" |}.

Definition status_url : Urls.url :=
  {| Urls.route := [Urls.Lit "task-status/"; Urls.Str "task_id"; Urls.Lit "/"];
     Urls.target := Urls.get_task_status; Urls.name := "get_task_status" |}.

(** The records of a file of one row under the usual header. *)
Definition ada_cells : list string :=
  ["S001"; "Ada"; "Lovelace"; "ada@x.com"; "CS"; "300"].

End Fixtures.

(** * Properties *)

(** ** The endpoints *)

(** C10. A Submit request that carries no file is answered with HTTP 400 and
    an error message, and leaves the file system, the queue, the result
    store and the database as they were. *)
Theorem C10_submit_without_file :
  forall (os : Os.answers) (MEDIA_ROOT task_id : string) (request : Views.Request)
         (w : Celery.world),
    Views.FILES request !! "file" = None ->
    Views.upload_students_csv os MEDIA_ROOT task_id request w
    = (Ok {| Views.status_code := Views.HTTP_400_BAD_REQUEST;
             Views.data := [("error", "CSV file is required.")] |}, w).
Proof.
  intros os MEDIA_ROOT task_id request w Hnone.
  unfold Views.upload_students_csv. rewrite Hnone. reflexivity.
Qed.

Lemma C10_submit_without_file_witness :
  Views.upload_students_csv Os.ok Samples.media "7f3c" {| Views.FILES := ∅ |}
    Samples.world0
  = (Ok {| Views.status_code := 400;
           Views.data := [("error", "CSV file is required.")] |}, Samples.world0).
Proof.
  apply (C10_submit_without_file Os.ok Samples.media "7f3c" {| Views.FILES := ∅ |}
           Samples.world0).
  vm_compute. reflexivity.
Defined.

(** C9 as stated fails: a Status query on an identifier no job was ever
    given is answered with HTTP 200 and the state [PENDING]. *)
Lemma C9_unknown_id_is_pending :
  Views.get_task_status "no-such-job" Samples.world0
  = {| Views.status_code := 200;
       Views.data := [("task_id", "no-such-job"); ("status", "PENDING")] |}.
Proof. vm_compute. reflexivity. Qed.

(** C9, amended. A Status query never fails: for an identifier the result
    store holds nothing for, it answers HTTP 200 with the identifier and the
    state [PENDING]. *)
Theorem C9_status_of_unknown_id :
  forall (task_id : string) (w : Celery.world),
    Celery.backend w !! task_id = None ->
    Views.get_task_status task_id w
    = {| Views.status_code := Views.HTTP_200_OK;
         Views.data := [("task_id", task_id); ("status", "PENDING")] |}.
Proof.
  intros task_id w Hnone.
  unfold Views.get_task_status, Celery.AsyncResult_status.
  rewrite Hnone. reflexivity.
Qed.

Lemma C9_status_of_unknown_id_witness :
  Views.get_task_status "no-such-job" Samples.world0
  = {| Views.status_code := Views.HTTP_200_OK;
       Views.data := [("task_id", "no-such-job"); ("status", "PENDING")] |}.
Proof.
  apply (C9_status_of_unknown_id "no-such-job" Samples.world0).
  vm_compute. reflexivity.
Defined.

(** C5 as stated fails: after a job has completed, the result store holds
    the state [SUCCESS] and the return value [None], and the Status answer
    has the two keys [task_id] and [status] and no report. *)
Lemma C5_completed_job_has_no_report :
  Celery.queue Samples.world_after_one_row = []
  /\ Celery.db Samples.world_after_one_row = Samples.ada_db
  /\ Celery.backend Samples.world_after_one_row !! "7f3c"
     = Some {| Celery.status := Celery.SUCCESS; Celery.result := Celery.Returned_None |}
  /\ Views.get_task_status "7f3c" Samples.world_after_one_row
     = {| Views.status_code := 200;
          Views.data := [("task_id", "7f3c"); ("status", "SUCCESS")] |}
  /\ Views.field_of "report" (Views.get_task_status "7f3c" Samples.world_after_one_row) = None.
Proof. vm_compute. repeat split; reflexivity. Qed.

(** C5, amended. A worker that runs a job records its state only: [SUCCESS]
    with the return value [None] when the task ran to its end, [FAILURE]
    with the exception otherwise; no counter is kept. A Status query on the
    finished job returns the identifier and that state, and no report. *)
Theorem C5_status_of_finished_job :
  forall (strict : bool) (w : Celery.world) (task_id file_path : string)
         (rest : list (string * string)),
    Celery.queue w = (task_id, file_path) :: rest ->
    let w' := Celery.worker_step strict w in
    let r := Tasks.process_students_csv strict (Celery.fs w) file_path (Celery.db w) in
    Celery.backend w' !! task_id
    = Some (match snd r with
            | Ok _ => {| Celery.status := Celery.SUCCESS;
                         Celery.result := Celery.Returned_None |}
            | Raise e => {| Celery.status := Celery.FAILURE;
                            Celery.result := Celery.Raised e |}
            end)
    /\ Views.get_task_status task_id w'
       = {| Views.status_code := Views.HTTP_200_OK;
            Views.data :=
              [("task_id", task_id);
               ("status", match snd r with
                          | Ok _ => "SUCCESS"
                          | Raise _ => "FAILURE"
                          end)] |}
    /\ Views.field_of "report" (Views.get_task_status task_id w') = None.
Proof.
  intros strict w task_id file_path rest Hq w' r.
  assert (Hb : Celery.backend w' !! task_id
               = Some (match snd r with
                       | Ok _ => {| Celery.status := Celery.SUCCESS;
                                    Celery.result := Celery.Returned_None |}
                       | Raise e => {| Celery.status := Celery.FAILURE;
                                       Celery.result := Celery.Raised e |}
                       end)).
  { subst w' r. unfold Celery.worker_step. rewrite Hq.
    destruct (Tasks.process_students_csv strict (Celery.fs w) file_path (Celery.db w))
      as [db' [u | e]]; simpl; apply lookup_insert_eq. }
  split; [exact Hb |].
  unfold Views.get_task_status, Celery.AsyncResult_status. rewrite Hb.
  split.
  - destruct (snd r); reflexivity.
  - unfold Views.field_of. simpl.
    destruct (String.eqb_spec "task_id" "report") as [E | _]; [discriminate E |].
    destruct (String.eqb_spec "status" "report") as [E | _]; [discriminate E |].
    reflexivity.
Qed.

Lemma C5_status_of_finished_job_witness :
  Views.field_of "report"
    (Views.get_task_status "7f3c"
       (Celery.worker_step false
          {| Celery.fs := Samples.disk Samples.one_row;
             Celery.queue := [("7f3c", "/srv/media/students.csv")];
             Celery.backend := ∅; Celery.db := empty_db |})) = None.
Proof.
  refine (proj2 (proj2 (C5_status_of_finished_job false
    {| Celery.fs := Samples.disk Samples.one_row;
       Celery.queue := [("7f3c", "/srv/media/students.csv")];
       Celery.backend := ∅; Celery.db := empty_db |}
    "7f3c" "/srv/media/students.csv" [] _))).
  reflexivity.
Defined.

(** ** The upserts *)

Section Upserts.

Variable strict : bool.

(** An insert either appends one row or raises and changes nothing. *)
Lemma create_user_cases (k f l e : option string) (db : DB) :
  (exists u, Orm.create_user strict k f l e db
             = ({| users := users db ++ [u]; students := students db |}, Ok u)
             /\ k = Some (User.username u)
             /\ Orm.get_user k db = None)
  \/ (exists x, Orm.create_user strict k f l e db = (db, Raise x)).
Proof.
  unfold Orm.create_user.
  destruct (_ || _ || _ || _); [right; eauto |].
  destruct k as [k |], f as [f |], l as [l |], e as [e |]; try (right; eauto; fail).
  destruct (existsb _ (users db)) eqn:Hex; [right; eauto |].
  left. eexists. split; [reflexivity |]. split; [reflexivity |].
  simpl. destruct (List.find _ (users db)) as [u |] eqn:Hf; [| reflexivity].
  apply find_some in Hf as [Hin Hk].
  assert (existsb (fun u => String.eqb (User.username u) k) (users db) = true)
    by (apply existsb_exists; eauto).
  congruence.
Qed.

Lemma create_student_cases (k : option string) (uid : option nat)
    (f l e d v : option string) (db : DB) :
  (exists s, Orm.create_student strict k uid f l e d v db
             = ({| users := users db; students := students db ++ [s] |}, Ok s)
             /\ k = Some (Student.reg_no s)
             /\ Orm.get_student k db = None)
  \/ (exists x, Orm.create_student strict k uid f l e d v db = (db, Raise x)).
Proof.
  unfold Orm.create_student.
  destruct (_ || _ || _ || _ || _ || _); [right; eauto |].
  destruct k as [k |], f as [f |], l as [l |], d as [d |], v as [v |];
    try (right; eauto; fail).
  destruct (existsb _ (students db)) eqn:Hex; simpl; [right; eauto |].
  destruct (existsb (Orm.linked_to uid) (students db)); [right; eauto |].
  left. eexists. split; [reflexivity |]. split; [reflexivity |].
  simpl. destruct (List.find _ (students db)) as [s |] eqn:Hf; [| reflexivity].
  apply find_some in Hf as [Hin Hk].
  assert (existsb (fun s => String.eqb (Student.reg_no s) k) (students db) = true)
    by (apply existsb_exists; eauto).
  congruence.
Qed.

(** A lookup that finds a row is answered with that row and no write. *)
Lemma get_or_create_hit {E : Type} (get : DB -> option E) (create : M E)
    (db : DB) (e : E) :
  get db = Some e -> Orm.get_or_create get create db = (db, Ok (e, false)).
Proof. intros H. unfold Orm.get_or_create. rewrite H. reflexivity. Qed.

(** A lookup that finds nothing, followed by an insert that raises without
    a write, raises the same exception and writes nothing. *)
Lemma get_or_create_raise {E : Type} (get : DB -> option E) (create : M E)
    (db : DB) (x : exn) :
  get db = None -> create db = (db, Raise x) ->
  Orm.get_or_create get create db = (db, Raise x).
Proof.
  intros Hg Hc. unfold Orm.get_or_create. rewrite Hg, Hc, Hg.
  destruct x; reflexivity.
Qed.

Lemma get_or_create_new {E : Type} (get : DB -> option E) (create : M E)
    (db db' : DB) (e : E) :
  get db = None -> create db = (db', Ok e) ->
  Orm.get_or_create get create db = (db', Ok (e, true)).
Proof. intros Hg Hc. unfold Orm.get_or_create. rewrite Hg, Hc. reflexivity. Qed.

(** The three ways the account upsert ends. *)
Lemma upsert_user_cases (f : Tasks.fields) (db : DB) :
  (exists u, Orm.get_user (Tasks.reg_no f) db = Some u
             /\ Tasks.upsert_user strict f db = (db, Ok (u, false)))
  \/ (exists u, Orm.get_user (Tasks.reg_no f) db = None
                /\ Tasks.reg_no f = Some (User.username u)
                /\ Orm.create_user strict (Tasks.reg_no f) (Tasks.first_name f)
                     (Tasks.last_name f) (Tasks.email f) db
                   = ({| users := users db ++ [u]; students := students db |}, Ok u)
                /\ Tasks.upsert_user strict f db
                   = ({| users := users db ++ [u]; students := students db |},
                      Ok (u, true)))
  \/ (exists x, Orm.get_user (Tasks.reg_no f) db = None
                /\ Orm.create_user strict (Tasks.reg_no f) (Tasks.first_name f)
                     (Tasks.last_name f) (Tasks.email f) db = (db, Raise x)
                /\ Tasks.upsert_user strict f db = (db, Raise x)).
Proof.
  unfold Tasks.upsert_user.
  destruct (Orm.get_user (Tasks.reg_no f) db) as [u |] eqn:Hg.
  - left. exists u. split; [reflexivity |]. by apply get_or_create_hit.
  - destruct (create_user_cases (Tasks.reg_no f) (Tasks.first_name f)
                (Tasks.last_name f) (Tasks.email f) db)
      as [(u & Hc & Hk & _) | (x & Hc)].
    + right; left. exists u. repeat split; try done.
      by apply get_or_create_new.
    + right; right. exists x. repeat split; try done.
      by apply get_or_create_raise.
Qed.

Lemma upsert_student_cases (user : User.t) (f : Tasks.fields) (db : DB) :
  (exists s, Orm.get_student (Tasks.reg_no f) db = Some s
             /\ Tasks.upsert_student strict user f db = (db, Ok (s, false)))
  \/ (exists s, Orm.get_student (Tasks.reg_no f) db = None
                /\ Tasks.reg_no f = Some (Student.reg_no s)
                /\ Orm.create_student strict (Tasks.reg_no f) (Some (User.id user))
                     (Tasks.first_name f) (Tasks.last_name f) (Tasks.email f)
                     (Tasks.department f) (Tasks.level f) db
                   = ({| users := users db; students := students db ++ [s] |}, Ok s)
                /\ Tasks.upsert_student strict user f db
                   = ({| users := users db; students := students db ++ [s] |},
                      Ok (s, true)))
  \/ (exists x, Orm.get_student (Tasks.reg_no f) db = None
                /\ Orm.create_student strict (Tasks.reg_no f) (Some (User.id user))
                     (Tasks.first_name f) (Tasks.last_name f) (Tasks.email f)
                     (Tasks.department f) (Tasks.level f) db = (db, Raise x)
                /\ Tasks.upsert_student strict user f db = (db, Raise x)).
Proof.
  unfold Tasks.upsert_student.
  destruct (Orm.get_student (Tasks.reg_no f) db) as [s |] eqn:Hg.
  - left. exists s. split; [reflexivity |]. by apply get_or_create_hit.
  - destruct (create_student_cases (Tasks.reg_no f) (Some (User.id user))
                (Tasks.first_name f) (Tasks.last_name f) (Tasks.email f)
                (Tasks.department f) (Tasks.level f) db)
      as [(s & Hc & Hk & _) | (x & Hc)].
    + right; left. exists s. repeat split; try done.
      by apply get_or_create_new.
    + right; right. exists x. repeat split; try done.
      by apply get_or_create_raise.
Qed.

(** C3. When the key of a row matches an existing entity, the upsert returns
    that entity, reports that nothing was created, and leaves both tables
    as they were, whatever names, contact, department or level the row
    carries: for the account and for the profile. *)
Theorem C3_reuse_keeps_fields :
  forall (f : Tasks.fields) (db : DB),
    (forall u : User.t,
        Orm.get_user (Tasks.reg_no f) db = Some u ->
        Tasks.upsert_user strict f db = (db, Ok (u, false)) /\ In u (users db))
    /\ (forall (s : Student.t) (user : User.t),
           Orm.get_student (Tasks.reg_no f) db = Some s ->
           Tasks.upsert_student strict user f db = (db, Ok (s, false))
           /\ In s (students db)).
Proof.
  intros f db. split.
  - intros u Hg. split.
    + unfold Tasks.upsert_user. by apply get_or_create_hit.
    + unfold Orm.get_user in Hg. destruct (Tasks.reg_no f); [| discriminate].
      by apply find_some in Hg as [? _].
  - intros s user Hg. split.
    + unfold Tasks.upsert_student. by apply get_or_create_hit.
    + unfold Orm.get_student in Hg. destruct (Tasks.reg_no f); [| discriminate].
      by apply find_some in Hg as [? _].
Qed.

End Upserts.

Lemma C3_reuse_keeps_fields_witness :
  Tasks.upsert_user false Samples.ada_fields Samples.ada_db
  = (Samples.ada_db, Ok (Samples.ada_user, false))
  /\ Tasks.upsert_student false Samples.ada_user Samples.ada_fields Samples.ada_db
     = (Samples.ada_db, Ok (Samples.ada_student, false)).
Proof.
  split.
  - apply (proj1 (C3_reuse_keeps_fields false Samples.ada_fields Samples.ada_db)
             Samples.ada_user).
    reflexivity.
  - apply (proj2 (C3_reuse_keeps_fields false Samples.ada_fields Samples.ada_db)
             Samples.ada_student Samples.ada_user).
    reflexivity.
Defined.

(** ** The loop *)

Lemma find_app_hit {A : Type} (p : A -> bool) (l l' : list A) (x : A) :
  List.find p l = Some x -> List.find p (l ++ l') = Some x.
Proof.
  induction l as [| a l IH]; simpl; [discriminate |].
  destruct (p a); [done | exact IH].
Qed.

Lemma find_app_miss {A : Type} (p : A -> bool) (l l' : list A) :
  List.find p l = None -> List.find p (l ++ l') = List.find p l'.
Proof.
  induction l as [| a l IH]; simpl; [done |].
  destruct (p a); [discriminate | exact IH].
Qed.

Lemma extends_refl (db : DB) : extends db db.
Proof. split; exists []; by rewrite app_nil_r. Qed.

Lemma extends_trans (a b c : DB) : extends a b -> extends b c -> extends a c.
Proof.
  intros [[us Hu] [ss Hs]] [[us' Hu'] [ss' Hs']]. split.
  - exists (us ++ us'). by rewrite Hu', Hu, <- app_assoc.
  - exists (ss ++ ss'). by rewrite Hs', Hs, <- app_assoc.
Qed.

Lemma get_user_extends (k : option string) (db db' : DB) (u : User.t) :
  extends db db' -> Orm.get_user k db = Some u -> Orm.get_user k db' = Some u.
Proof.
  intros [[us Hu] _]. unfold Orm.get_user. destruct k; [| done].
  rewrite Hu. apply find_app_hit.
Qed.

Lemma get_student_extends (k : option string) (db db' : DB) (s : Student.t) :
  extends db db' -> Orm.get_student k db = Some s -> Orm.get_student k db' = Some s.
Proof.
  intros [_ [ss Hs]]. unfold Orm.get_student. destruct k; [| done].
  rewrite Hs. apply find_app_hit.
Qed.

Lemma get_user_snoc (db : DB) (u : User.t) :
  Orm.get_user (Some (User.username u)) db = None ->
  Orm.get_user (Some (User.username u))
    {| users := users db ++ [u]; students := students db |} = Some u.
Proof.
  unfold Orm.get_user. simpl. intros H. rewrite find_app_miss by done.
  simpl. by rewrite String.eqb_refl.
Qed.

Lemma get_student_snoc (db : DB) (s : Student.t) :
  Orm.get_student (Some (Student.reg_no s)) db = None ->
  Orm.get_student (Some (Student.reg_no s))
    {| users := users db; students := students db ++ [s] |} = Some s.
Proof.
  unfold Orm.get_student. simpl. intros H. rewrite find_app_miss by done.
  simpl. by rewrite String.eqb_refl.
Qed.

Section Loop.

Variable strict : bool.

Lemma process_row_eq (r : Csv.row) (db : DB) :
  Tasks.process_row strict r db
  = match Tasks.upsert_user strict (Tasks.read_row r) db with
    | (db1, Ok uc) =>
        match Tasks.upsert_student strict (fst uc) (Tasks.read_row r) db1 with
        | (db2, Ok _) => (db2, Ok tt)
        | (db2, Raise e) => (db2, Raise e)
        end
    | (db1, Raise e) => (db1, Raise e)
    end.
Proof. reflexivity. Qed.

(** After the account upsert has returned, the account is in the table. *)
Lemma upsert_user_ok (f : Tasks.fields) (db db1 : DB) (u : User.t) (c : bool) :
  Tasks.upsert_user strict f db = (db1, Ok (u, c)) ->
  extends db db1 /\ students db1 = students db
  /\ Orm.get_user (Tasks.reg_no f) db1 = Some u.
Proof.
  intros H.
  destruct (upsert_user_cases strict f db)
    as [(u' & Hg & E) | [(u' & Hg & Hk & _ & E) | (x & _ & _ & E)]];
    rewrite E in H; inversion H; subst.
  - split; [apply extends_refl | done].
  - split; [| split; [done |]].
    + split; [by exists [u] | exists []; simpl; by rewrite app_nil_r].
    + rewrite Hk in Hg |- *. by apply get_user_snoc.
Qed.

Lemma upsert_user_raise (f : Tasks.fields) (db db1 : DB) (x : exn) :
  Tasks.upsert_user strict f db = (db1, Raise x) -> db1 = db.
Proof.
  intros H.
  destruct (upsert_user_cases strict f db)
    as [(u' & Hg & E) | [(u' & Hg & Hk & _ & E) | (x' & _ & _ & E)]];
    rewrite E in H; by inversion H.
Qed.

Lemma upsert_student_ok (user : User.t) (f : Tasks.fields) (db db1 : DB)
    (s : Student.t) (c : bool) :
  Tasks.upsert_student strict user f db = (db1, Ok (s, c)) ->
  extends db db1 /\ users db1 = users db
  /\ Orm.get_student (Tasks.reg_no f) db1 = Some s.
Proof.
  intros H.
  destruct (upsert_student_cases strict user f db)
    as [(s' & Hg & E) | [(s' & Hg & Hk & _ & E) | (x & _ & _ & E)]];
    rewrite E in H; inversion H; subst.
  - split; [apply extends_refl | done].
  - split; [| split; [done |]].
    + split; [exists []; simpl; by rewrite app_nil_r | by exists [s]].
    + rewrite Hk in Hg |- *. by apply get_student_snoc.
Qed.

Lemma upsert_student_raise (user : User.t) (f : Tasks.fields) (db db1 : DB) (x : exn) :
  Tasks.upsert_student strict user f db = (db1, Raise x) -> db1 = db.
Proof.
  intros H.
  destruct (upsert_student_cases strict user f db)
    as [(s' & Hg & E) | [(s' & Hg & Hk & _ & E) | (x' & _ & _ & E)]];
    rewrite E in H; by inversion H.
Qed.

(** A row that went through leaves its account and its profile behind. *)
Lemma process_row_ok (r : Csv.row) (db db' : DB) :
  Tasks.process_row strict r db = (db', Ok tt) ->
  extends db db'
  /\ is_Some (Orm.get_user (Tasks.reg_no (Tasks.read_row r)) db')
  /\ is_Some (Orm.get_student (Tasks.reg_no (Tasks.read_row r)) db').
Proof.
  rewrite process_row_eq.
  destruct (Tasks.upsert_user strict (Tasks.read_row r) db) as [db1 [[u c] | x]] eqn:Hu;
    [| discriminate].
  simpl.
  destruct (Tasks.upsert_student strict u (Tasks.read_row r) db1)
    as [db2 [[s c'] | x]] eqn:Hs; [| discriminate].
  intros H; inversion H; subst db2.
  apply upsert_user_ok in Hu as (E1 & _ & Gu).
  apply upsert_student_ok in Hs as (E2 & _ & Gs).
  split; [by eapply extends_trans |].
  split; [| by eexists].
  exists u. by eapply get_user_extends.
Qed.

(** A row whose account and profile both exist goes through without a
    write. *)
Lemma process_row_settled (r : Csv.row) (db : DB) :
  is_Some (Orm.get_user (Tasks.reg_no (Tasks.read_row r)) db) ->
  is_Some (Orm.get_student (Tasks.reg_no (Tasks.read_row r)) db) ->
  Tasks.process_row strict r db = (db, Ok tt).
Proof.
  intros [u Hu] [s Hs]. rewrite process_row_eq.
  unfold Tasks.upsert_user. rewrite (get_or_create_hit _ _ _ _ Hu). simpl.
  unfold Tasks.upsert_student. by rewrite (get_or_create_hit _ _ _ _ Hs).
Qed.

(** A row that raised raises again, without a write, on the database it
    left. *)
Lemma process_row_raise (r : Csv.row) (db db' : DB) (x : exn) :
  Tasks.process_row strict r db = (db', Raise x) ->
  extends db db' /\ Tasks.process_row strict r db' = (db', Raise x).
Proof.
  rewrite process_row_eq.
  destruct (Tasks.upsert_user strict (Tasks.read_row r) db) as [db1 [[u c] | y]] eqn:Hu.
  - simpl.
    destruct (Tasks.upsert_student strict u (Tasks.read_row r) db1)
      as [db2 [[s c'] | y]] eqn:Hs; [discriminate |].
    intros H; inversion H; subst db2 y.
    pose proof (upsert_student_raise _ _ _ _ _ Hs) as ->.
    apply upsert_user_ok in Hu as (E1 & _ & Gu).
    split; [done |].
    rewrite process_row_eq. unfold Tasks.upsert_user at 1.
    rewrite (get_or_create_hit _ _ _ _ Gu). simpl. by rewrite Hs.
  - intros H; inversion H; subst db1 y.
    pose proof (upsert_user_raise _ _ _ _ Hu) as ->.
    split; [apply extends_refl |].
    by rewrite process_row_eq, Hu.
Qed.

Lemma for_each_cons (r : Csv.row) (rows : list Csv.row) (db : DB) :
  Tasks.for_each (Tasks.process_row strict) (r :: rows) db
  = match Tasks.process_row strict r db with
    | (db', Ok _) => Tasks.for_each (Tasks.process_row strict) rows db'
    | (db', Raise e) => (db', Raise e)
    end.
Proof. reflexivity. Qed.

Lemma for_each_app (pre post : list Csv.row) (db : DB) :
  Tasks.for_each (Tasks.process_row strict) (pre ++ post) db
  = match Tasks.for_each (Tasks.process_row strict) pre db with
    | (db', Ok _) => Tasks.for_each (Tasks.process_row strict) post db'
    | (db', Raise e) => (db', Raise e)
    end.
Proof.
  revert db. induction pre as [| r pre IH]; intros db; [reflexivity |].
  rewrite <- app_comm_cons, !for_each_cons.
  destruct (Tasks.process_row strict r db) as [db' [[] | e]]; [apply IH | reflexivity].
Qed.

Lemma for_each_extends (rows : list Csv.row) (db db' : DB) (o : result unit) :
  Tasks.for_each (Tasks.process_row strict) rows db = (db', o) -> extends db db'.
Proof.
  revert db. induction rows as [| r rows IH]; intros db.
  - intros H; inversion H. apply extends_refl.
  - rewrite for_each_cons.
    destruct (Tasks.process_row strict r db) as [db1 [[] | e]] eqn:Hr.
    + intros H. apply process_row_ok in Hr as [E _].
      eapply extends_trans; [exact E | by apply IH].
    + intros H; inversion H; subst. by apply process_row_raise in Hr as [E _].
Qed.

(** Running the loop again on the database it left changes nothing and ends
    the same way. *)
Lemma for_each_again (rows : list Csv.row) (db db' : DB) (o : result unit) :
  Tasks.for_each (Tasks.process_row strict) rows db = (db', o) ->
  Tasks.for_each (Tasks.process_row strict) rows db' = (db', o).
Proof.
  revert db. induction rows as [| r rows IH]; intros db.
  - intros H; by inversion H.
  - rewrite !for_each_cons.
    destruct (Tasks.process_row strict r db) as [db1 [[] | e]] eqn:Hr.
    + intros H. apply process_row_ok in Hr as (_ & [u Gu] & [s Gs]).
      pose proof (for_each_extends _ _ _ _ H) as E.
      rewrite process_row_settled.
      * by eapply IH.
      * exists u. by eapply get_user_extends.
      * exists s. by eapply get_student_extends.
    + intros H; inversion H; subst.
      apply process_row_raise in Hr as [_ Hr]. by rewrite Hr.
Qed.

End Loop.

(** ** Failures and repeated runs *)

(** C1 as stated fails: the first data row carries a registration number
    only, its account upsert raises, and the task ends there. The row after
    it, which goes through on its own, is never processed, and nothing
    records the failure. *)
Lemma C1_failed_upsert_ends_the_task :
  match fst (Tasks.rows_of Samples.bad_then_good) with
  | [r1; r2] =>
      Tasks.upsert_user false (Tasks.read_row r1) empty_db
      = (empty_db, Raise IntegrityError)
      /\ snd (Tasks.process_row false r2 empty_db) = Ok tt
      /\ Samples.run Samples.bad_then_good empty_db = (empty_db, Raise IntegrityError)
  | _ => False
  end.
Proof. vm_compute. repeat split; reflexivity. Qed.

(** C1, amended. When the account upsert of a row raises, the exception
    leaves the task: the rows before it keep their effects, the row itself
    and the rows after it leave no trace, and the task ends with that
    exception. *)
Theorem C1_failed_upsert_propagates :
  forall (strict : bool) (pre post : list Csv.row) (r : Csv.row)
         (stop : option exn) (db db1 : DB) (e : exn),
    Tasks.for_each (Tasks.process_row strict) pre db = (db1, Ok tt) ->
    snd (Tasks.upsert_user strict (Tasks.read_row r) db1) = Raise e ->
    Tasks.for_rows strict (pre ++ r :: post, stop) db = (db1, Raise e).
Proof.
  intros strict pre post r stop db db1 e Hpre Hup.
  destruct (Tasks.upsert_user strict (Tasks.read_row r) db1) as [db2 o] eqn:Hu.
  simpl in Hup. subst o.
  pose proof (upsert_user_raise _ _ _ _ _ Hu) as ->.
  unfold Tasks.for_rows, bind. simpl fst.
  rewrite for_each_app, Hpre, for_each_cons, process_row_eq, Hu.
  reflexivity.
Qed.

Lemma C1_failed_upsert_propagates_witness :
  Tasks.for_rows false
    ([Samples.ada_row] ++ Samples.lone_key_row :: [Samples.bob_row], None) empty_db
  = (Samples.ada_db, Raise IntegrityError).
Proof.
  apply (C1_failed_upsert_propagates false [Samples.ada_row] [Samples.bob_row]
           Samples.lone_key_row None empty_db Samples.ada_db IntegrityError).
  - vm_compute. reflexivity.
  - vm_compute. reflexivity.
Defined.

Lemma create_student_keeps_unique (strict : bool) (k : option string)
    (uid : option nat) (f l e d v : option string) (db db' : DB) (o : result Student.t) :
  Orm.create_student strict k uid f l e d v db = (db', o) ->
  NoDup (map Student.reg_no (students db)) ->
  NoDup (map Student.reg_no (students db')).
Proof.
  unfold Orm.create_student.
  destruct (_ || _ || _ || _ || _ || _); [by intros [= <- _] |].
  destruct k as [k |], f as [f |], l as [l |], d as [d |], v as [v |];
    try (by intros [= <- _]).
  destruct (existsb _ (students db)) eqn:Hex; simpl; [by intros [= <- _] |].
  destruct (existsb (Orm.linked_to uid) (students db)); [by intros [= <- _] |].
  intros [= <- _] Hnd. simpl. rewrite map_app. simpl.
  apply NoDup_app. split; [done |]. split; [| apply NoDup_singleton].
  intros x Hx ->%list_elem_of_singleton.
  apply list_elem_of_In, in_map_iff in Hx as (s & Hs & Hin).
  assert (existsb (fun s => String.eqb (Student.reg_no s) k) (students db) = true).
  { apply existsb_exists. exists s. split; [done |]. by apply String.eqb_eq. }
  congruence.
Qed.

Lemma process_row_keeps_unique (strict : bool) (r : Csv.row) (db db' : DB)
    (o : result unit) :
  Tasks.process_row strict r db = (db', o) ->
  NoDup (map Student.reg_no (students db)) ->
  NoDup (map Student.reg_no (students db')).
Proof.
  rewrite process_row_eq.
  destruct (Tasks.upsert_user strict (Tasks.read_row r) db) as [db1 [[u c] | y]] eqn:Hu.
  - apply upsert_user_ok in Hu as (_ & Hst & _). simpl.
    destruct (Tasks.upsert_student strict u (Tasks.read_row r) db1)
      as [db2 ou] eqn:Hs.
    intros H Hnd. rewrite <- Hst in Hnd.
    assert (NoDup (map Student.reg_no (students db2))) as Hnd2.
    { destruct (upsert_student_cases strict u (Tasks.read_row r) db1)
        as [(s' & Hg & E) | [(s' & Hg & Hk & Hc & E) | (x & _ & _ & E)]];
        rewrite E in Hs; inversion Hs; subst; try done.
      eapply create_student_keeps_unique; [exact Hc | exact Hnd]. }
    destruct ou as [[s c'] | y]; by inversion H; subst.
  - intros H. inversion H; subst. by rewrite (upsert_user_raise _ _ _ _ _ Hu).
Qed.

Lemma for_each_keeps_unique (strict : bool) (rows : list Csv.row) (db db' : DB)
    (o : result unit) :
  Tasks.for_each (Tasks.process_row strict) rows db = (db', o) ->
  NoDup (map Student.reg_no (students db)) ->
  NoDup (map Student.reg_no (students db')).
Proof.
  revert db. induction rows as [| r rows IH]; intros db.
  - by intros [= <- _].
  - rewrite for_each_cons.
    destruct (Tasks.process_row strict r db) as [db1 [[] | e]] eqn:Hr.
    + intros H Hnd. eapply IH; [exact H |].
      by eapply process_row_keeps_unique.
    + intros [= <- _] Hnd. by eapply process_row_keeps_unique.
Qed.

Lemma for_rows_eq (strict : bool) (src : list Csv.row * option exn) (db : DB) :
  Tasks.for_rows strict src db
  = match Tasks.for_each (Tasks.process_row strict) (fst src) db with
    | (db', Ok _) =>
        match snd src with
        | Some e => (db', Raise e)
        | None => (db', Ok tt)
        end
    | (db', Raise e) => (db', Raise e)
    end.
Proof.
  unfold Tasks.for_rows, bind.
  destruct (Tasks.for_each _ _ db) as [db' [[] | e]]; [| reflexivity].
  destruct (snd src); reflexivity.
Qed.

(** C2. Processing a file a second time, on the database the first run
    left, changes no table and ends the way the first run ended: every
    registration number the first run settled is found again and nothing is
    inserted. If no two profiles shared a registration number before, none
    do afterwards. *)
Theorem C2_second_run_changes_nothing :
  forall (strict : bool) (fs : gmap string (list byte)) (file_path : string) (db : DB),
    NoDup (map Student.reg_no (students db)) ->
    let once := Tasks.process_students_csv strict fs file_path db in
    Tasks.process_students_csv strict fs file_path (fst once) = once
    /\ NoDup (map Student.reg_no (students (fst once))).
Proof.
  intros strict fs file_path db Hnd once. subst once.
  unfold Tasks.process_students_csv.
  destruct (fs !! file_path) as [bytes |]; [| by split].
  rewrite !for_rows_eq.
  destruct (Tasks.for_each (Tasks.process_row strict) (fst (Tasks.rows_of bytes)) db)
    as [db' o] eqn:Hrun.
  pose proof (for_each_again _ _ _ _ _ Hrun) as Hagain.
  pose proof (for_each_keeps_unique _ _ _ _ _ Hrun Hnd) as Hnd'.
  destruct o as [[] | e]; [destruct (snd (Tasks.rows_of bytes)) |];
    simpl; rewrite Hagain; by split.
Qed.

Lemma C2_second_run_changes_nothing_witness :
  Samples.run Samples.twice_ab (fst (Samples.run Samples.twice_ab empty_db))
  = Samples.run Samples.twice_ab empty_db
  /\ NoDup (map Student.reg_no
              (students (fst (Samples.run Samples.twice_ab empty_db)))).
Proof.
  apply (C2_second_run_changes_nothing false (Samples.disk Samples.twice_ab)
           "/srv/media/students.csv" empty_db).
  apply NoDup_nil_2.
Defined.

(** ** The parser *)

(** C7 fails on a short row: the header names six columns and the row has
    four cells, so [DictReader] stores [None] under [department] and
    [level]; the key being present, [row.get("department", "")] returns that
    [None] and not the empty string. The account is inserted, the profile
    insert violates [NOT NULL] and the task ends with [IntegrityError]. *)
Lemma C7_short_row_reads_none :
  match fst (Tasks.rows_of Samples.short_row) with
  | [r] =>
      r !! "department" = Some None
      /\ Tasks.department (Tasks.read_row r) = None
      /\ Tasks.level (Tasks.read_row r) = None
      /\ Samples.run Samples.short_row empty_db
         = ({| users := [Samples.ada_user]; students := [] |}, Raise IntegrityError)
  | _ => False
  end.
Proof. vm_compute. repeat split; reflexivity. Qed.

Lemma foldl_restval_other (k : string) (l : list string)
    (d : gmap string (option string)) :
  ~ In k l -> foldl (fun d k => <[k := None]> d) d l !! k = d !! k.
Proof.
  revert d. induction l as [| a l IH]; intros d Hl; [done |].
  cbn [foldl]. rewrite IH by (intros ?; apply Hl; by right).
  apply lookup_insert_ne. intros ->. apply Hl. by left.
Qed.

Lemma foldl_cells_other (k : string) (l : list (string * string))
    (d : gmap string (option string)) :
  (forall kv, In kv l -> fst kv <> k) ->
  foldl (fun d kv => <[fst kv := Some (snd kv)]> d) d l !! k = d !! k.
Proof.
  revert d. induction l as [| a l IH]; intros d Hl; [done |].
  cbn [foldl]. rewrite IH by (intros ? ?; apply Hl; by right).
  apply lookup_insert_ne. apply Hl. by left.
Qed.

(** A name the header does not hold is no key of the row. *)
Lemma make_row_absent (k : string) (fieldnames cells : list string) :
  ~ In k fieldnames -> Csv.make_row fieldnames cells !! k = None.
Proof.
  intros Hnot. unfold Csv.make_row.
  rewrite foldl_restval_other, foldl_cells_other; [apply lookup_empty | |].
  - intros [k' v] Hin <-. apply Hnot. cbn [fst].
    apply list_elem_of_In. eapply elem_of_zip_l. apply list_elem_of_In, Hin.
  - intros Hin. apply Hnot. revert Hin. generalize (length cells).
    induction fieldnames as [| a l IH]; intros [| n]; cbn [skipn]; try done.
    intros Hin. right. eapply IH; [| exact Hin]. intros ?. apply Hnot. by right.
Qed.

(** A column of the header past the last cell of the row is a key of the
    row, and its value is [None]. *)
Lemma make_row_short (k : string) (fieldnames cells : list string) :
  In k (skipn (length cells) fieldnames) ->
  Csv.make_row fieldnames cells !! k = Some None.
Proof.
  unfold Csv.make_row.
  generalize (foldl (fun d kv => <[fst kv := Some (snd kv)]> d)
                (∅ : gmap string (option string)) (zip fieldnames cells)).
  generalize (skipn (length cells) fieldnames). clear fieldnames cells.
  induction l as [| a l IH]; intros d Hin; [destruct Hin |].
  cbn [foldl]. destruct (in_dec string_dec k l) as [Hl | Hl]; [by apply IH |].
  destruct Hin as [-> | Hin]; [| done].
  rewrite foldl_restval_other by done. apply lookup_insert_eq.
Qed.

(** So on every short row the default written in [row.get("department", "")]
    is not used: the task reads [None]. *)
Lemma short_row_department (fieldnames cells : list string) :
  In "department" (skipn (length cells) fieldnames) ->
  Tasks.department (Tasks.read_row (Csv.make_row fieldnames cells)) = None.
Proof.
  intros Hin. unfold Tasks.read_row. cbn [Tasks.department]. unfold Csv.get.
  by rewrite make_row_short.
Qed.

(** Where the header itself lacks the column, the default of [row.get]
    applies and the profile gets the empty string. *)
Lemma absent_column_reads_default (fieldnames cells : list string) :
  ~ In "department" fieldnames ->
  Tasks.department (Tasks.read_row (Csv.make_row fieldnames cells)) = Some "".
Proof.
  intros Hnot. unfold Tasks.read_row. cbn [Tasks.department]. unfold Csv.get.
  by rewrite make_row_absent.
Qed.

(** C8 as stated fails: nothing checks the header, and the code has no
    [SchemaError]. An empty file, which has no header at all, is read
    without an error and the task ends without an exception. In a file that
    starts with its first row of data, that row is taken for the header,
    the next one is produced as a row, and what ends the task is the
    [IntegrityError] of the account upsert. And under a header without
    [email], on tables that hold the account of the row, the profile of the
    row is created. *)
Lemma C8_missing_header_is_not_refused :
  Tasks.rows_of [] = ([], None)
  /\ Samples.run [] empty_db = (empty_db, Ok tt)
  /\ Csv.reader (Text.lines_of Text.CHUNK_SIZE Samples.no_header)
     = ([["S001"; "Ada"; "Lovelace"; "ada@x.com"; "CS"; "300"];
         ["S002"; "Bob"; "Stone"; "bob@x.com"; "Math"; "100"]], None)
  /\ length (fst (Tasks.rows_of Samples.no_header)) = 1
  /\ Samples.run Samples.no_header empty_db = (empty_db, Raise IntegrityError)
  /\ fst (Csv.reader (Text.lines_of Text.CHUNK_SIZE Samples.without_email))
     = [["reg_no"; "first_name"; "last_name"; "department"; "level"];
        ["S001"; "Ada"; "Lovelace"; "CS"; "300"]]
  /\ Samples.run Samples.without_email Samples.account_only
     = ({| users := [Samples.ada_user];
           students :=
             [{| Student.id := 1; Student.user := Some 1; Student.reg_no := "S001";
                 Student.first_name := "Ada"; Student.last_name := "Lovelace";
                 Student.email := None; Student.department := "CS";
                 Student.level := "300" |}] |}, Ok tt).
Proof. vm_compute. repeat split; reflexivity. Qed.

(** A row without a registration number raises at the account upsert and
    writes nothing. *)
Lemma process_row_without_key (strict : bool) (r : Csv.row) (db : DB) :
  Tasks.reg_no (Tasks.read_row r) = None ->
  Tasks.process_row strict r db = (db, Raise IntegrityError)
  \/ Tasks.process_row strict r db = (db, Raise DataError).
Proof.
  intros Hk. rewrite process_row_eq.
  unfold Tasks.upsert_user, Orm.get_or_create. rewrite Hk. cbn [Orm.get_user].
  unfold Orm.create_user. cbn [Orm.too_long_opt orb].
  destruct (_ || _ || _); [by right | by left].
Qed.

(** An account is inserted only when all four of its values are there. *)
Lemma create_user_needs (strict : bool) (k f l e : option string) (db db' : DB)
    (u : User.t) :
  Orm.create_user strict k f l e db = (db', Ok u) ->
  is_Some k /\ is_Some f /\ is_Some l /\ is_Some e.
Proof.
  unfold Orm.create_user. destruct (_ || _ || _ || _); [discriminate |].
  destruct k, f, l, e; try discriminate. intros _. repeat split; by eexists.
Qed.

(** A profile is inserted only when its key and both names are there. *)
Lemma create_student_needs (strict : bool) (k : option string) (uid : option nat)
    (f l e d v : option string) (db db' : DB) (s : Student.t) :
  Orm.create_student strict k uid f l e d v db = (db', Ok s) ->
  is_Some k /\ is_Some f /\ is_Some l /\ users db' = users db.
Proof.
  unfold Orm.create_student. destruct (_ || _ || _ || _ || _ || _); [discriminate |].
  destruct k, f, l, d, v; try discriminate.
  destruct (existsb _ _ || existsb _ _); [discriminate |].
  intros [= <- _]. repeat split; by eexists.
Qed.

(** A row without one of the two names writes nothing: no account can be
    inserted for it, and no profile. *)
Lemma process_row_without_name (strict : bool) (r : Csv.row) (db : DB) :
  Tasks.first_name (Tasks.read_row r) = None
  \/ Tasks.last_name (Tasks.read_row r) = None ->
  fst (Tasks.process_row strict r db) = db.
Proof.
  intros Hname. rewrite process_row_eq.
  destruct (upsert_user_cases strict (Tasks.read_row r) db)
    as [(u & _ & ->) | [(u & _ & _ & Hc & _) | (x & _ & _ & ->)]]; [| | done].
  - cbn [fst].
    destruct (upsert_student_cases strict u (Tasks.read_row r) db)
      as [(s & _ & ->) | [(s & _ & _ & Hc & _) | (x & _ & _ & ->)]]; [done | | done].
    apply create_student_needs in Hc as (_ & [? Hf] & [? Hl] & _).
    destruct Hname; congruence.
  - apply create_user_needs in Hc as (_ & [? Hf] & [? Hl] & _).
    destruct Hname; congruence.
Qed.

(** A row without an email address inserts no account. *)
Lemma process_row_without_email (strict : bool) (r : Csv.row) (db : DB) :
  Tasks.email (Tasks.read_row r) = None ->
  users (fst (Tasks.process_row strict r db)) = users db.
Proof.
  intros Hemail. rewrite process_row_eq.
  destruct (upsert_user_cases strict (Tasks.read_row r) db)
    as [(u & _ & ->) | [(u & _ & _ & Hc & _) | (x & _ & _ & ->)]]; [| | done].
  - cbn [fst].
    destruct (upsert_student_cases strict u (Tasks.read_row r) db)
      as [(s & _ & ->) | [(s & _ & _ & _ & ->) | (x & _ & _ & ->)]]; done.
  - apply create_user_needs in Hc as (_ & _ & _ & [? He]). congruence.
Qed.

(** A loop over rows that write nothing writes nothing. *)
Lemma for_each_writes_nothing (strict : bool) (rows : list Csv.row) (db : DB) :
  (forall r db, In r rows -> fst (Tasks.process_row strict r db) = db) ->
  fst (Tasks.for_each (Tasks.process_row strict) rows db) = db.
Proof.
  induction rows as [| r rows IH]; intros Hrows; [done |].
  rewrite for_each_cons. pose proof (Hrows r db (or_introl eq_refl)) as Hr.
  destruct (Tasks.process_row strict r db) as [db1 [[] | x]]; cbn [fst] in Hr; subst db1.
  - apply IH. intros r' db' Hin. apply Hrows. by right.
  - done.
Qed.

(** A loop over rows that insert no account inserts no account. *)
Lemma for_each_inserts_no_account (strict : bool) (rows : list Csv.row) (db : DB) :
  (forall r db, In r rows -> users (fst (Tasks.process_row strict r db)) = users db) ->
  users (fst (Tasks.for_each (Tasks.process_row strict) rows db)) = users db.
Proof.
  revert db. induction rows as [| r rows IH]; intros db Hrows; [done |].
  rewrite for_each_cons. pose proof (Hrows r db (or_introl eq_refl)) as Hr.
  destruct (Tasks.process_row strict r db) as [db1 [[] | x]]; cbn [fst] in Hr.
  - rewrite IH; [done |]. intros r' db' Hin. apply Hrows. by right.
  - done.
Qed.

(** The database a run leaves is the one its loop leaves. *)
Lemma run_leaves_loop (strict : bool) (fs : gmap string (list byte))
    (file_path : string) (bytes : list byte) (db : DB) :
  fs !! file_path = Some bytes ->
  fst (Tasks.process_students_csv strict fs file_path db)
  = fst (Tasks.for_each (Tasks.process_row strict) (fst (Tasks.rows_of bytes)) db).
Proof.
  intros Hfile. unfold Tasks.process_students_csv. rewrite Hfile, for_rows_eq.
  destruct (Tasks.for_each _ _ db) as [db' [[] | x]]; [| done].
  by destruct (snd (Tasks.rows_of bytes)).
Qed.

(** C8, amended. The header is not checked and no [SchemaError] exists: the
    first record of the file is the header whatever it holds, and a column
    it lacks reads as [None] (as the empty string for [department] and
    [level]). What the claim concludes still holds where the header lacks a
    column no entity can do without: when it lacks [reg_no], [first_name] or
    [last_name], no entity is created and the database is left as it was;
    when it lacks [email], no account is created. When it lacks [reg_no] and
    the file has a row of data, the task ends at the account upsert of the
    first one, with [IntegrityError] ([DataError] on a store that first
    refuses an overlong value). *)
Theorem C8_header_without_required_column :
  forall (strict : bool) (fs : gmap string (list byte)) (file_path : string)
         (bytes : list byte) (fieldnames : list string) (recs : list (list string))
         (db : DB),
    fs !! file_path = Some bytes ->
    fst (Csv.reader (Text.lines_of Text.CHUNK_SIZE bytes)) = fieldnames :: recs ->
    let out := Tasks.process_students_csv strict fs file_path db in
    (~ In "reg_no" fieldnames \/ ~ In "first_name" fieldnames
     \/ ~ In "last_name" fieldnames -> fst out = db)
    /\ (~ In "email" fieldnames -> users (fst out) = users db)
    /\ (~ In "reg_no" fieldnames ->
        (exists cells, In cells recs /\ cells <> []) ->
        snd out = Raise IntegrityError \/ snd out = Raise DataError).
Proof.
  intros strict fs file_path bytes fieldnames recs db Hfile Hrecs out.
  assert (fst (Tasks.rows_of bytes)
          = map (Csv.make_row fieldnames)
              (filter (fun r => negb (Csv.is_blank r)) recs)) as Hrows.
  { unfold Tasks.rows_of, Csv.DictReader. by rewrite Hrecs. }
  assert (forall (k : string) (r : Csv.row),
            ~ In k fieldnames -> In r (fst (Tasks.rows_of bytes)) ->
            r !! k = None) as Habsent.
  { intros k r Hk Hr. rewrite Hrows in Hr.
    apply in_map_iff in Hr as (cells & <- & _). by apply make_row_absent. }
  split; [| split].
  - intros Hlacks. subst out. rewrite (run_leaves_loop _ _ _ bytes) by done.
    apply for_each_writes_nothing. intros r db' Hr.
    destruct Hlacks as [Hk | [Hk | Hk]].
    + assert (Tasks.reg_no (Tasks.read_row r) = None) as Hnone.
      { unfold Tasks.read_row. cbn [Tasks.reg_no]. unfold Csv.get.
        by rewrite (Habsent _ r Hk Hr). }
      by destruct (process_row_without_key strict r db' Hnone) as [-> | ->].
    + apply process_row_without_name. left.
      unfold Tasks.read_row. cbn [Tasks.first_name]. unfold Csv.get.
      by rewrite (Habsent _ r Hk Hr).
    + apply process_row_without_name. right.
      unfold Tasks.read_row. cbn [Tasks.last_name]. unfold Csv.get.
      by rewrite (Habsent _ r Hk Hr).
  - intros Hk. subst out. rewrite (run_leaves_loop _ _ _ bytes) by done.
    apply for_each_inserts_no_account. intros r db' Hr.
    apply process_row_without_email.
    unfold Tasks.read_row. cbn [Tasks.email]. unfold Csv.get.
    by rewrite (Habsent _ r Hk Hr).
  - intros Hnot (cells & Hin & Hne). subst out.
    unfold Tasks.process_students_csv. rewrite Hfile, for_rows_eq, Hrows.
    destruct (filter (fun r => negb (Csv.is_blank r)) recs) as [| c rest] eqn:Hf.
    + exfalso.
      assert (cells ∈ filter (fun r => negb (Csv.is_blank r)) recs) as Hmem.
      { apply list_elem_of_filter. split; [| by apply list_elem_of_In].
        by destruct cells. }
      rewrite Hf in Hmem. by apply not_elem_of_nil in Hmem.
    + cbn [map]. rewrite for_each_cons.
      assert (Tasks.reg_no (Tasks.read_row (Csv.make_row fieldnames c)) = None) as Hk.
      { unfold Tasks.read_row. cbn [Tasks.reg_no]. unfold Csv.get.
        by rewrite make_row_absent. }
      destruct (process_row_without_key strict _ db Hk) as [-> | ->];
        [by left | by right].
Qed.

Lemma C8_header_without_required_column_witness :
  fst (Samples.run Samples.without_first_name Samples.account_only)
  = Samples.account_only
  /\ fst (Samples.run Samples.no_header empty_db) = empty_db
  /\ (snd (Samples.run Samples.no_header empty_db) = Raise IntegrityError
      \/ snd (Samples.run Samples.no_header empty_db) = Raise DataError).
Proof.
  pose proof (C8_header_without_required_column false
                (Samples.disk Samples.without_first_name)
                "/srv/media/students.csv" Samples.without_first_name
                ["reg_no"; "last_name"; "email"; "department"; "level"]
                [["S001"; "Lovelace"; "ada@x.com"; "CS"; "300"]]
                Samples.account_only) as H.
  destruct H as (H0 & _ & _); [vm_compute; reflexivity | vm_compute; reflexivity |].
  pose proof (C8_header_without_required_column false (Samples.disk Samples.no_header)
                "/srv/media/students.csv" Samples.no_header
                ["S001"; "Ada"; "Lovelace"; "ada@x.com"; "CS"; "300"]
                [["S002"; "Bob"; "Stone"; "bob@x.com"; "Math"; "100"]] empty_db) as H.
  destruct H as (H1 & _ & H2); [vm_compute; reflexivity | vm_compute; reflexivity |].
  assert (~ In "reg_no" ["S001"; "Ada"; "Lovelace"; "ada@x.com"; "CS"; "300"]) as Hnot.
  { intros Hin. repeat (destruct Hin as [Hin | Hin]; [discriminate Hin |]). exact Hin. }
  split; [| split].
  - apply H0. right; left. intros Hin.
    repeat (destruct Hin as [Hin | Hin]; [discriminate Hin |]). exact Hin.
  - apply H1. by left.
  - apply H2; [exact Hnot |].
    exists ["S002"; "Bob"; "Stone"; "bob@x.com"; "Math"; "100"].
    split; [by left | discriminate].
Defined.

(** ** Undecodable bytes *)

(** C4 as stated fails: the file ends inside a multi-byte sequence, so its
    byte stream does not decode; the error is raised when the end of the
    file is read, after the row before it has been processed and its account
    and profile inserted. *)
Lemma C4_row_processed_before_decode_error :
  snd (Text.lines_of Text.CHUNK_SIZE Samples.truncated) = Some UnicodeDecodeError
  /\ Samples.run Samples.truncated empty_db
     = (Samples.ada_db, Raise UnicodeDecodeError).
Proof. vm_compute. split; reflexivity. Qed.

(** The same with a byte that starts no sequence, past the first chunk. *)
Lemma row_processed_before_bad_chunk :
  Samples.run Samples.bad_second_chunk empty_db
  = (Samples.ada_db, Raise UnicodeDecodeError).
Proof. vm_compute. reflexivity. Qed.

Lemma read_records_stop (p : Csv.parser) (lines : list string) (e : exn) :
  is_Some (snd (Csv.read_records p lines (Some e))).
Proof.
  revert p. induction lines as [| l ls IH]; intros p; cbn [Csv.read_records].
  - by eexists.
  - destruct (Csv.feed_line p l) as [p' | x]; [| by eexists].
    destruct (Csv.pstate_eqb (Csv.state p') Csv.START_RECORD).
    + specialize (IH Csv.parse_reset).
      destruct (Csv.read_records Csv.parse_reset ls (Some e)). exact IH.
    + apply IH.
Qed.

(** C4, amended. An undecodable file makes the task end with an exception,
    raised when the chunk that holds the offending bytes is read: if that
    is the first chunk of the file, no row has been processed and the
    database is left as it was; otherwise the database is the one the rows
    read before that chunk leave behind. *)
Theorem C4_decode_error_in_first_chunk :
  forall (strict : bool) (fs : gmap string (list byte)) (file_path : string)
         (bytes : list byte) (db : DB),
    fs !! file_path = Some bytes ->
    (Text.decode_chunk Text.tstate0 false (firstn Text.CHUNK_SIZE bytes) = None ->
     Tasks.process_students_csv strict fs file_path db = (db, Raise UnicodeDecodeError))
    /\ (snd (Text.lines_of Text.CHUNK_SIZE bytes) = Some UnicodeDecodeError ->
        (exists e, snd (Tasks.process_students_csv strict fs file_path db) = Raise e)
        /\ fst (Tasks.process_students_csv strict fs file_path db)
           = fst (Tasks.for_each (Tasks.process_row strict)
                    (fst (Tasks.rows_of bytes)) db)).
Proof.
  intros strict fs file_path bytes db Hfile.
  unfold Tasks.process_students_csv. rewrite Hfile. split.
  - intros Hdec.
    assert (Text.lines_of Text.CHUNK_SIZE bytes = ([], Some UnicodeDecodeError)) as Hl.
    { unfold Text.lines_of, Text.chunks. destruct bytes as [| b bs].
      - vm_compute in Hdec. discriminate Hdec.
      - cbn [length Text.chunk_list Text.read_lines]. by rewrite Hdec. }
    unfold Tasks.rows_of. rewrite Hl. reflexivity.
  - intros Hstop. rewrite for_rows_eq.
    assert (is_Some (snd (Tasks.rows_of bytes))) as [e He].
    { unfold Tasks.rows_of, Csv.DictReader, Csv.reader. rewrite Hstop.
      pose proof (read_records_stop Csv.parse_reset
                    (fst (Text.lines_of Text.CHUNK_SIZE bytes)) UnicodeDecodeError) as H.
      by destruct (fst (Csv.read_records _ _ _)). }
    rewrite He.
    destruct (Tasks.for_each _ _ db) as [db' [[] | x]]; split; by eauto.
Qed.

Lemma C4_decode_error_in_first_chunk_witness :
  Samples.run Samples.bad_first_chunk empty_db = (empty_db, Raise UnicodeDecodeError).
Proof.
  apply (proj1 (C4_decode_error_in_first_chunk false (Samples.disk Samples.bad_first_chunk)
                  "/srv/media/students.csv" Samples.bad_first_chunk empty_db
                  ltac:(vm_compute; reflexivity))).
  vm_compute. reflexivity.
Defined.

(** ** The order of the rows *)

Section Order.

Variable strict : bool.

Lemma add_account_comm (kx ky : string) (x y : Tasks.fields)
    (us : gmap string Entities.account) :
  kx <> ky ->
  Entities.add_account strict kx x us ≫= Entities.add_account strict ky y
  = Entities.add_account strict ky y us ≫= Entities.add_account strict kx x.
Proof.
  intros Hne. unfold Entities.add_account.
  destruct (us !! kx) as [a |] eqn:Hx, (us !! ky) as [b |] eqn:Hy;
    destruct (Entities.new_account strict x) as [ax |],
             (Entities.new_account strict y) as [ay |];
    cbn; rewrite ?Hx, ?Hy, ?lookup_insert_ne, ?Hx, ?Hy by done; cbn;
    try done.
  f_equal. by apply insert_insert_ne.
Qed.

Lemma unlinked_insert (kx ky : string) (p : Entities.profile)
    (ps : gmap string Entities.profile) :
  ps !! ky = None -> Entities.p_account p <> Some kx ->
  Entities.unlinked kx (<[ky := p]> ps) <-> Entities.unlinked kx ps.
Proof.
  intros Hy Hp. unfold Entities.unlinked.
  rewrite map_Forall_insert by done. tauto.
Qed.

Lemma new_profile_account (k : string) (f : Tasks.fields) (p : Entities.profile) :
  Entities.new_profile strict k f = Some p -> Entities.p_account p = Some k.
Proof.
  unfold Entities.new_profile. destruct (_ || _ || _ || _ || _ || _); [done |].
  destruct (Tasks.first_name f), (Tasks.last_name f), (Tasks.department f),
    (Tasks.level f); try done.
  by intros [= <-].
Qed.

Lemma unlinked_new_profile (k : string) (f : Tasks.fields) (p : Entities.profile)
    (k' : string) (ps : gmap string Entities.profile) :
  Entities.new_profile strict k f = Some p -> ps !! k = None -> k' <> k ->
  Entities.unlinked k' (<[k := p]> ps) <-> Entities.unlinked k' ps.
Proof.
  intros Hp Hk Hne. apply unlinked_insert; [done |].
  rewrite (new_profile_account _ _ _ Hp). congruence.
Qed.

Lemma add_profile_comm (kx ky : string) (x y : Tasks.fields)
    (ps : gmap string Entities.profile) :
  kx <> ky ->
  Entities.add_profile strict kx x ps ≫= Entities.add_profile strict ky y
  = Entities.add_profile strict ky y ps ≫= Entities.add_profile strict kx x.
Proof.
  intros Hne. unfold Entities.add_profile.
  destruct (ps !! kx) as [a |] eqn:Hx, (ps !! ky) as [b |] eqn:Hy; cbn;
    rewrite ?Hx, ?Hy; try done.
  - destruct (decide (Entities.unlinked ky ps)); [| done].
    destruct (Entities.new_profile strict ky y); cbn; [| done].
    by rewrite lookup_insert_ne, Hx by done.
  - destruct (decide (Entities.unlinked kx ps)); [| done].
    destruct (Entities.new_profile strict kx x); cbn; [| done].
    by rewrite lookup_insert_ne, Hy by done.
  - destruct (Entities.new_profile strict kx x) as [px |] eqn:Hpx,
             (Entities.new_profile strict ky y) as [py |] eqn:Hpy;
      try pose proof (unlinked_new_profile _ _ _ ky ps Hpx Hx (not_eq_sym Hne)) as Lx;
      try pose proof (unlinked_new_profile _ _ _ kx ps Hpy Hy Hne) as Ly;
      destruct (decide (Entities.unlinked kx ps)) as [Ux | Ux],
               (decide (Entities.unlinked ky ps)) as [Uy | Uy]; cbn;
      rewrite ?lookup_insert_ne, ?Hx, ?Hy by done;
      repeat case_decide; cbn; try done; try tauto.
    f_equal. apply insert_insert_ne. congruence.
Qed.


Lemma step_comm (x y : Tasks.fields)
    (v : gmap string Entities.account * gmap string Entities.profile) :
  Tasks.reg_no x <> Tasks.reg_no y \/ x = y ->
  Entities.step strict x v ≫= Entities.step strict y
  = Entities.step strict y v ≫= Entities.step strict x.
Proof.
  intros [Hne | ->]; [| done]. destruct v as [us ps]. unfold Entities.step.
  destruct (Tasks.reg_no x) as [kx |], (Tasks.reg_no y) as [ky |]; cbn [fst snd].
  - assert (kx <> ky) as Hk by congruence.
    pose proof (add_account_comm kx ky x y us Hk) as Ha.
    pose proof (add_profile_comm kx ky x y ps Hk) as Hp.
    destruct (Entities.add_account strict kx x us) as [u1 |],
             (Entities.add_profile strict kx x ps) as [p1 |],
             (Entities.add_account strict ky y us) as [u2 |],
             (Entities.add_profile strict ky y ps) as [p2 |];
      cbn in *; rewrite ?Ha, ?Hp, <- ?Ha, <- ?Hp; try done;
      repeat case_match; done.
  - cbn. by repeat case_match.
  - cbn. by repeat case_match.
  - done.
Qed.

Lemma agree_tail (f : Tasks.fields) (fs : list Tasks.fields) :
  Entities.agree (f :: fs) -> Entities.agree fs.
Proof. intros H a b Ha Hb. apply H; by right. Qed.

Lemma agree_permutation (fs fs' : list Tasks.fields) :
  Permutation fs fs' -> Entities.agree fs -> Entities.agree fs'.
Proof.
  intros Hp H a b Ha Hb. apply H; eapply Permutation_in; try eassumption;
    by apply Permutation_sym.
Qed.

(** On the entity set, rows that agree on shared keys can be taken in any
    order. *)
Lemma steps_permutation (fs fs' : list Tasks.fields) :
  Permutation fs fs' -> Entities.agree fs ->
  forall v, Entities.steps strict fs v = Entities.steps strict fs' v.
Proof.
  induction 1 as [| x l l' Hp IH | x y l | l l' l'' Hp1 IH1 Hp2 IH2]; intros Hag v.
  - done.
  - cbn. destruct (Entities.step strict x v); [| done].
    apply IH. by eapply agree_tail.
  - assert (Tasks.reg_no y <> Tasks.reg_no x \/ y = x) as Hxy.
    { destruct (decide (Tasks.reg_no y = Tasks.reg_no x)) as [E | E]; [| by left].
      right. apply Hag; [by left | right; by left | done]. }
    pose proof (step_comm y x v Hxy) as Hc. cbn.
    destruct (Entities.step strict y v) as [vy |],
             (Entities.step strict x v) as [vx |]; cbn in Hc;
      [by rewrite Hc | by rewrite Hc | by rewrite <- Hc | done].
  - rewrite IH1 by done. apply IH2. by eapply agree_permutation.
Qed.

End Order.

(** ** From the tables to the entity set *)

Lemma NoDup_map_In_inj {A K : Type} (key : A -> K) (l : list A) (a b : A) :
  NoDup (map key l) -> In a l -> In b l -> key a = key b -> a = b.
Proof.
  induction l as [| x l IH]; [done |]. cbn [map].
  intros [Hx Hnd]%NoDup_cons [-> | Ha] [-> | Hb] Hk; try done.
  - exfalso. apply Hx. rewrite Hk. apply list_elem_of_In. by apply in_map.
  - exfalso. apply Hx. rewrite <- Hk. apply list_elem_of_In. by apply in_map.
  - by apply IH.
Qed.

Lemma find_In_unique {A K : Type} (key : A -> K) (eqb : K -> K -> bool)
    (l : list A) (a : A) :
  (forall x y, eqb x y = true <-> x = y) ->
  NoDup (map key l) -> In a l ->
  List.find (fun x => eqb (key x) (key a)) l = Some a.
Proof.
  intros Heqb Hnd Hin.
  destruct (List.find (fun x => eqb (key x) (key a)) l) as [b |] eqn:Hf.
  - apply find_some in Hf as [Hb Hk%Heqb]. f_equal.
    by eapply NoDup_map_In_inj.
  - exfalso. pose proof (find_none _ _ Hf a Hin) as Hn. cbn in Hn.
    assert (eqb (key a) (key a) = true) by by apply Heqb. congruence.
Qed.

(** A lookup in the map built from a table is a search by key in the
    table. *)
Lemma list_to_map_find {A V : Type} (key : A -> string) (val : A -> V)
    (l : list A) (k : string) :
  (list_to_map (map (fun a => (key a, val a)) l) : gmap string V) !! k
  = val <$> List.find (fun a => String.eqb (key a) k) l.
Proof.
  induction l as [| a l IH]; [apply lookup_empty |].
  cbn [map List.find]. rewrite list_to_map_cons.
  destruct (String.eqb_spec (key a) k) as [-> | Hne].
  - apply lookup_insert_eq.
  - by rewrite lookup_insert_ne.
Qed.

Lemma accounts_lookup (db : DB) (k : string) :
  Entities.accounts db !! k = Entities.account_of <$> Orm.get_user (Some k) db.
Proof. apply list_to_map_find. Qed.

Lemma profiles_lookup (db : DB) (k : string) :
  Entities.profiles db !! k = Entities.profile_of db <$> Orm.get_student (Some k) db.
Proof. apply (list_to_map_find Student.reg_no (Entities.profile_of db)). Qed.

Lemma list_to_map_snoc_find {A V : Type} (key : A -> string) (val : A -> V)
    (l : list A) (a : A) :
  List.find (fun x => String.eqb (key x) (key a)) l = None ->
  (list_to_map (map (fun a => (key a, val a)) (l ++ [a])) : gmap string V)
  = <[key a := val a]> (list_to_map (map (fun a => (key a, val a)) l)).
Proof.
  intros Hf. rewrite map_app. cbn [map]. apply list_to_map_snoc.
  intros Hin. apply list_elem_of_In, in_map_iff in Hin as ([k v] & Hk & Hin).
  apply in_map_iff in Hin as (x & [= <- <-] & Hx). cbn in Hk.
  pose proof (find_none _ _ Hf x Hx) as Hn. cbn in Hn.
  rewrite Hk, String.eqb_refl in Hn. discriminate.
Qed.

(** The account a link resolves to does not change when users are added. *)
Lemma username_of_extends (db db' : DB) (us : list User.t) (j : nat) :
  users db' = users db ++ us -> In j (map User.id (users db)) ->
  Entities.username_of db' j = Entities.username_of db j.
Proof.
  intros Hu Hj. unfold Entities.username_of. rewrite Hu.
  apply in_map_iff in Hj as (u & Hid & Hin).
  destruct (List.find (fun u => Nat.eqb (User.id u) j) (users db)) as [u' |] eqn:Hf.
  - by rewrite (find_app_hit _ _ _ _ Hf).
  - pose proof (find_none _ _ Hf u Hin) as Hn. cbn in Hn.
    rewrite Hid, Nat.eqb_refl in Hn. discriminate.
Qed.

Lemma profiles_extends (db db' : DB) (us : list User.t) :
  Entities.consistent db ->
  users db' = users db ++ us -> students db' = students db ->
  Entities.profiles db' = Entities.profiles db.
Proof.
  intros (_ & _ & _ & Hfk) Hu Hs. unfold Entities.profiles. rewrite Hs.
  f_equal. apply map_ext_in. intros s Hin. f_equal.
  unfold Entities.profile_of. f_equal.
  destruct (Student.user s) as [j |] eqn:Hj; [| done]. cbn.
  eapply username_of_extends; [exact Hu |]. by eapply Hfk.
Qed.

Lemma next_id_fresh (ids : list nat) : ~ In (Orm.next_id ids) ids.
Proof.
  intros Hin%list_elem_of_In%max_list_elem_of_le. unfold Orm.next_id in Hin. lia.
Qed.

Section Simulation.

Variable strict : bool.

Lemma string_eqb_iff (x y : string) : String.eqb x y = true <-> x = y.
Proof. apply String.eqb_eq. Qed.

Lemma nat_eqb_iff (x y : nat) : Nat.eqb x y = true <-> x = y.
Proof. apply Nat.eqb_eq. Qed.

Lemma username_of_In (db : DB) (u : User.t) :
  NoDup (map User.id (users db)) -> In u (users db) ->
  Entities.username_of db (User.id u) = Some (User.username u).
Proof.
  intros Hnd Hin. unfold Entities.username_of.
  by rewrite (find_In_unique User.id Nat.eqb _ _ nat_eqb_iff Hnd Hin).
Qed.

(** The store's check on the link is the check that no profile points to
    the account. *)
Lemma linked_iff (db : DB) (u : User.t) :
  Entities.consistent db -> In u (users db) ->
  existsb (Orm.linked_to (Some (User.id u))) (students db) = false
  <-> Entities.unlinked (User.username u) (Entities.profiles db).
Proof.
  intros (Hid & Hname & Hreg & Hfk) Hu. split.
  - intros Hex k' p Hlook Hacc. rewrite profiles_lookup in Hlook.
    destruct (Orm.get_student (Some k') db) as [s |] eqn:Hs; [| done].
    injection Hlook as <-. apply find_some in Hs as [Hs _].
    cbn in Hacc. destruct (Student.user s) as [j |] eqn:Hj; [| done]. cbn in Hacc.
    unfold Entities.username_of in Hacc.
    destruct (List.find _ (users db)) as [u' |] eqn:Hf; [| done].
    apply find_some in Hf as [Hu' Hid'%Nat.eqb_eq]. injection Hacc as Hacc.
    assert (u' = u) as -> by by eapply NoDup_map_In_inj.
    assert (existsb (Orm.linked_to (Some (User.id u))) (students db) = true).
    { apply existsb_exists. exists s. split; [done |].
      unfold Orm.linked_to. rewrite Hj, Hid'. apply Nat.eqb_refl. }
    congruence.
  - intros Hun. destruct (existsb _ (students db)) eqn:Hex; [| done]. exfalso.
    apply existsb_exists in Hex as (s & Hs & Hl). unfold Orm.linked_to in Hl.
    destruct (Student.user s) as [j |] eqn:Hj; [| done].
    apply Nat.eqb_eq in Hl as <-.
    apply (Hun (Student.reg_no s) (Entities.profile_of db s)).
    + rewrite profiles_lookup. unfold Orm.get_student.
      by rewrite (find_In_unique Student.reg_no String.eqb _ _ string_eqb_iff Hreg Hs).
    + cbn. rewrite Hj. cbn. by apply username_of_In.
Qed.

Lemma create_user_new_account (f : Tasks.fields) (k : string) (db : DB) :
  Tasks.reg_no f = Some k -> Orm.get_user (Some k) db = None ->
  match Orm.create_user strict (Tasks.reg_no f) (Tasks.first_name f)
          (Tasks.last_name f) (Tasks.email f) db with
  | (db1, Ok u) =>
      db1 = {| users := users db ++ [u]; students := students db |}
      /\ User.username u = k
      /\ User.id u = Orm.next_id (map User.id (users db))
      /\ Entities.new_account strict f = Some (Entities.account_of u)
  | (db1, Raise _) => db1 = db /\ Entities.new_account strict f = None
  end.
Proof.
  intros Hk Hg. unfold Orm.create_user, Entities.new_account. rewrite Hk.
  destruct (_ || _ || _ || _); [done |].
  destruct (Tasks.first_name f) as [a |], (Tasks.last_name f) as [b |],
    (Tasks.email f) as [c |]; try done.
  destruct (existsb _ (users db)) eqn:Hex; [| done]. exfalso.
  apply existsb_exists in Hex as (u & Hu & Hn).
  pose proof (find_none _ _ Hg u Hu) as Hf. cbn in Hf. congruence.
Qed.

Lemma create_student_new_profile (f : Tasks.fields) (k : string) (uid : nat) (db : DB) :
  Tasks.reg_no f = Some k -> Orm.get_student (Some k) db = None ->
  match Orm.create_student strict (Tasks.reg_no f) (Some uid) (Tasks.first_name f)
          (Tasks.last_name f) (Tasks.email f) (Tasks.department f) (Tasks.level f) db with
  | (db1, Ok s) =>
      db1 = {| users := users db; students := students db ++ [s] |}
      /\ Student.reg_no s = k /\ Student.user s = Some uid
      /\ existsb (Orm.linked_to (Some uid)) (students db) = false
      /\ Entities.new_profile strict k f
         = Some {| Entities.p_account := Some k;
                   Entities.p_first_name := Student.first_name s;
                   Entities.p_last_name := Student.last_name s;
                   Entities.p_email := Student.email s;
                   Entities.p_department := Student.department s;
                   Entities.p_level := Student.level s |}
  | (db1, Raise _) =>
      db1 = db
      /\ (Entities.new_profile strict k f = None
          \/ existsb (Orm.linked_to (Some uid)) (students db) = true)
  end.
Proof.
  intros Hk Hg. unfold Orm.create_student, Entities.new_profile. rewrite Hk.
  destruct (_ || _ || _ || _ || _ || _); [by split; [| left] |].
  destruct (Tasks.first_name f) as [a |], (Tasks.last_name f) as [b |],
    (Tasks.department f) as [d |], (Tasks.level f) as [v |];
    try (by split; [| left]).
  destruct (existsb _ (students db)) eqn:Hex.
  - exfalso. apply existsb_exists in Hex as (s & Hs & Hn).
    pose proof (find_none _ _ Hg s Hs) as Hf. cbn in Hf. congruence.
  - cbn [orb]. destruct (existsb (Orm.linked_to (Some uid)) (students db));
      [by split; [| right] | done].
Qed.

Lemma consistent_add_user (db : DB) (u : User.t) :
  Entities.consistent db ->
  Orm.get_user (Some (User.username u)) db = None ->
  User.id u = Orm.next_id (map User.id (users db)) ->
  Entities.consistent {| users := users db ++ [u]; students := students db |}.
Proof.
  intros (Hid & Hname & Hreg & Hfk) Hg Hnew.
  split; [| split; [| split]]; cbn [users students].
  - rewrite map_app. apply NoDup_app. split; [done |]. split; [| apply NoDup_singleton].
    intros x Hx ->%list_elem_of_singleton. apply list_elem_of_In in Hx.
    rewrite Hnew in Hx. by apply next_id_fresh in Hx.
  - rewrite map_app. apply NoDup_app. split; [done |]. split; [| apply NoDup_singleton].
    intros x Hx ->%list_elem_of_singleton.
    apply list_elem_of_In, in_map_iff in Hx as (u' & Hk & Hu').
    pose proof (find_none _ _ Hg u' Hu') as Hf. cbn in Hf.
    rewrite Hk, String.eqb_refl in Hf. discriminate.
  - done.
  - intros s j Hs Hj. rewrite map_app. apply in_or_app. left. by eapply Hfk.
Qed.

Lemma consistent_add_student (db : DB) (s : Student.t) (u : User.t) :
  Entities.consistent db ->
  Orm.get_student (Some (Student.reg_no s)) db = None ->
  In u (users db) -> Student.user s = Some (User.id u) ->
  Entities.consistent {| users := users db; students := students db ++ [s] |}.
Proof.
  intros (Hid & Hname & Hreg & Hfk) Hg Hu Hlink.
  split; [| split; [| split]]; cbn [users students]; try done.
  - rewrite map_app. apply NoDup_app. split; [done |]. split; [| apply NoDup_singleton].
    intros x Hx ->%list_elem_of_singleton.
    apply list_elem_of_In, in_map_iff in Hx as (s' & Hk & Hs').
    pose proof (find_none _ _ Hg s' Hs') as Hf. cbn in Hf.
    rewrite Hk, String.eqb_refl in Hf. discriminate.
  - intros s' j [Hs' | [<- | []]]%in_app_or Hj; [by eapply Hfk |].
    rewrite Hlink in Hj. injection Hj as <-. by apply in_map.
Qed.

(** The account upsert, seen on the accounts. *)
Lemma upsert_user_step (f : Tasks.fields) (k : string) (db : DB) :
  Entities.consistent db -> Tasks.reg_no f = Some k ->
  match Tasks.upsert_user strict f db with
  | (db1, Ok (u, _)) =>
      Entities.consistent db1 /\ In u (users db1) /\ User.username u = k
      /\ Entities.profiles db1 = Entities.profiles db
      /\ Entities.add_account strict k f (Entities.accounts db)
         = Some (Entities.accounts db1)
  | (db1, Raise _) =>
      db1 = db /\ Entities.add_account strict k f (Entities.accounts db) = None
  end.
Proof.
  intros Hc Hk. unfold Tasks.upsert_user, Orm.get_or_create, Entities.add_account.
  rewrite accounts_lookup, Hk.
  destruct (Orm.get_user (Some k) db) as [u |] eqn:Hg; cbn [fmap option_fmap option_map].
  - apply find_some in Hg as [Hu Hn%String.eqb_eq]. done.
  - pose proof (create_user_new_account f k db Hk Hg) as Hcr. rewrite Hk in Hcr.
    destruct (Orm.create_user strict (Some k) _ _ _ db) as [db1 [u | x]].
    + destruct Hcr as (-> & Hn & Hid & ->). rewrite <- Hn in Hg.
      split; [by apply consistent_add_user |].
      split; [apply in_or_app; right; by left |]. split; [done |].
      split; [by eapply profiles_extends |].
      cbn. f_equal. symmetry. rewrite <- Hn.
      apply (list_to_map_snoc_find User.username Entities.account_of). exact Hg.
    + destruct Hcr as (-> & ->). destruct x; try done. by rewrite Hg.
Qed.

(** The profile upsert, seen on the profiles. *)
Lemma upsert_student_step (u : User.t) (f : Tasks.fields) (k : string) (db : DB) :
  Entities.consistent db -> Tasks.reg_no f = Some k ->
  In u (users db) -> User.username u = k ->
  match Tasks.upsert_student strict u f db with
  | (db1, Ok _) =>
      Entities.consistent db1
      /\ Entities.accounts db1 = Entities.accounts db
      /\ Entities.add_profile strict k f (Entities.profiles db)
         = Some (Entities.profiles db1)
  | (db1, Raise _) =>
      db1 = db /\ Entities.add_profile strict k f (Entities.profiles db) = None
  end.
Proof.
  intros Hc Hk Hu Hn. unfold Tasks.upsert_student, Orm.get_or_create, Entities.add_profile.
  rewrite profiles_lookup, Hk.
  destruct (Orm.get_student (Some k) db) as [s |] eqn:Hg; cbn [fmap option_fmap option_map].
  - done.
  - pose proof (create_student_new_profile f k (User.id u) db Hk Hg) as Hcr.
    rewrite Hk in Hcr. pose proof (linked_iff db u Hc Hu) as Hl. rewrite Hn in Hl.
    destruct (Orm.create_student strict (Some k) _ _ _ _ _ _ db) as [db1 [s | x]].
    + destruct Hcr as (-> & Hr & Hlink & Hex & ->). rewrite <- Hr in Hg.
      split; [by eapply consistent_add_student |]. split; [done |].
      rewrite decide_True by by apply Hl.
      cbn. f_equal. symmetry. unfold Entities.profiles. cbn [students].
      rewrite (list_to_map_snoc_find Student.reg_no _ _ _ Hg).
      rewrite Hr. f_equal. unfold Entities.profile_of at 1. f_equal.
      rewrite Hlink. cbn. rewrite <- Hn.
      destruct Hc as (Hid & _). by apply (username_of_In db u).
    + destruct Hcr as (-> & Hcr).
      assert ((if decide (Entities.unlinked k (Entities.profiles db))
               then (fun p => <[k := p]> (Entities.profiles db))
                      <$> Entities.new_profile strict k f
               else None) = None) as Hnone.
      { case_decide as Hd; [| done]. destruct Hcr as [-> | Hex]; [done |].
        apply Hl in Hd. congruence. }
      destruct x; try done. by rewrite Hg.
Qed.

End Simulation.

Section Refinement.

Variable strict : bool.

(** One row, seen on the entity set. *)
Lemma process_row_step (r : Csv.row) (db : DB) :
  Entities.consistent db ->
  match Tasks.process_row strict r db with
  | (db', Ok _) =>
      Entities.consistent db'
      /\ Entities.step strict (Tasks.read_row r) (Entities.entities db)
         = Some (Entities.entities db')
  | (db', Raise _) =>
      Entities.step strict (Tasks.read_row r) (Entities.entities db) = None
  end.
Proof.
  intros Hc. unfold Entities.step.
  destruct (Tasks.reg_no (Tasks.read_row r)) as [k |] eqn:Hk.
  - rewrite process_row_eq. cbn [Entities.entities fst snd].
    pose proof (upsert_user_step strict _ k db Hc Hk) as Hu.
    destruct (Tasks.upsert_user strict (Tasks.read_row r) db) as [db1 [[u c] | x]].
    + destruct Hu as (Hc1 & Hin & Hn & Hp & ->). cbn [fst].
      pose proof (upsert_student_step strict u _ k db1 Hc1 Hk Hin Hn) as Hs.
      rewrite Hp in Hs.
      destruct (Tasks.upsert_student strict u (Tasks.read_row r) db1)
        as [db2 [sc | x]].
      * destruct Hs as (Hc2 & Ha & ->). split; [done |].
        unfold Entities.entities. by rewrite Ha.
      * by destruct Hs as (_ & ->).
    + by destruct Hu as (_ & ->).
  - by destruct (process_row_without_key strict r db Hk) as [-> | ->].
Qed.

(** The loop, seen on the entity set. *)
Lemma for_each_steps (rows : list Csv.row) (db : DB) :
  Entities.consistent db ->
  match Tasks.for_each (Tasks.process_row strict) rows db with
  | (db', Ok _) =>
      Entities.consistent db'
      /\ Entities.steps strict (map Tasks.read_row rows) (Entities.entities db)
         = Some (Entities.entities db')
  | (db', Raise _) =>
      Entities.steps strict (map Tasks.read_row rows) (Entities.entities db) = None
  end.
Proof.
  revert db. induction rows as [| r rows IH]; intros db Hc; [done |].
  rewrite for_each_cons. cbn [map Entities.steps].
  pose proof (process_row_step r db Hc) as Hr.
  destruct (Tasks.process_row strict r db) as [db1 [[] | x]].
  - destruct Hr as [Hc1 ->]. by apply IH.
  - by rewrite Hr.
Qed.

End Refinement.

(** ** The order of the rows, on the tables *)

(** C6 as stated fails: two rows carry the same registration number with
    different names; in file order the account and the profile take the
    values of the one, in the opposite order those of the other. *)
Lemma C6_order_decides_the_fields :
  match fst (Tasks.rows_of Samples.twice_ab), fst (Tasks.rows_of Samples.twice_ba) with
  | [a; b], [c; d] =>
      a = d /\ b = c
      /\ Entities.profiles (fst (Samples.run Samples.twice_ab empty_db)) !! "S001"
         = Some {| Entities.p_account := Some "S001"; Entities.p_first_name := "Ada";
                   Entities.p_last_name := "Lovelace";
                   Entities.p_email := Some "ada@x.com";
                   Entities.p_department := "CS"; Entities.p_level := "300" |}
      /\ Entities.profiles (fst (Samples.run Samples.twice_ba empty_db)) !! "S001"
         = Some {| Entities.p_account := Some "S001"; Entities.p_first_name := "Ada";
                   Entities.p_last_name := "L"; Entities.p_email := Some "";
                   Entities.p_department := "CS"; Entities.p_level := "300" |}
  | _, _ => False
  end.
Proof. vm_compute. repeat split; reflexivity. Qed.

(** C6, amended. On a database that meets the schema constraints, for rows
    among which those with the same registration number carry the same
    values: if the rows go through in file order without an exception, they
    go through in any other order, and both orders leave the same accounts
    and profiles, key by key and column by column (primary keys, which
    follow the order of insertion, apart), in tables that still meet the
    constraints. *)
Theorem C6_order_of_agreeing_rows :
  forall (strict : bool) (rows rows' : list Csv.row) (db : DB),
    Entities.consistent db ->
    Permutation rows rows' ->
    Entities.agree (map Tasks.read_row rows) ->
    snd (Tasks.for_each (Tasks.process_row strict) rows db) = Ok tt ->
    snd (Tasks.for_each (Tasks.process_row strict) rows' db) = Ok tt
    /\ Entities.entities (fst (Tasks.for_each (Tasks.process_row strict) rows' db))
       = Entities.entities (fst (Tasks.for_each (Tasks.process_row strict) rows db))
    /\ Entities.consistent (fst (Tasks.for_each (Tasks.process_row strict) rows db))
    /\ Entities.consistent (fst (Tasks.for_each (Tasks.process_row strict) rows' db)).
Proof.
  intros strict rows rows' db Hc Hperm Hag Hok.
  pose proof (for_each_steps strict rows db Hc) as H1.
  pose proof (for_each_steps strict rows' db Hc) as H2.
  pose proof (steps_permutation strict _ _ (Permutation_map Tasks.read_row Hperm) Hag
                (Entities.entities db)) as Heq.
  destruct (Tasks.for_each (Tasks.process_row strict) rows db) as [db1 [[] | x]];
    [| discriminate Hok].
  destruct H1 as [Hc1 H1]. rewrite H1 in Heq.
  destruct (Tasks.for_each (Tasks.process_row strict) rows' db) as [db2 [[] | x]].
  - destruct H2 as [Hc2 H2]. rewrite H2 in Heq. injection Heq as Ha Hp.
    split; [reflexivity |]. cbn [fst]. split; [| by split].
    unfold Entities.entities. by rewrite Ha, Hp.
  - congruence.
Qed.

Lemma empty_db_consistent : Entities.consistent empty_db.
Proof. repeat split; try apply NoDup_nil_2. intros s j []. Qed.

Lemma C6_order_of_agreeing_rows_witness :
  snd (Tasks.for_each (Tasks.process_row false)
         [Samples.bob_row; Samples.ada_row] empty_db) = Ok tt
  /\ Entities.entities
       (fst (Tasks.for_each (Tasks.process_row false)
               [Samples.bob_row; Samples.ada_row] empty_db))
     = Entities.entities
         (fst (Tasks.for_each (Tasks.process_row false)
                 [Samples.ada_row; Samples.bob_row] empty_db)).
Proof.
  refine (let H := C6_order_of_agreeing_rows false [Samples.ada_row; Samples.bob_row]
                     [Samples.bob_row; Samples.ada_row] empty_db _ _ _ _ in
          conj (proj1 H) (proj1 (proj2 H))).
  - exact empty_db_consistent.
  - apply perm_swap.
  - intros f g [<- | [<- | []]] [<- | [<- | []]] Hk; try reflexivity;
      vm_compute in Hk; discriminate Hk.
  - vm_compute. reflexivity.
Defined.

(** * Further properties of the pipeline *)

(** ** What one row and one run leave behind *)

Section Footprint.

Variable strict : bool.

Lemma create_user_raise_kind (k f l e : option string) (db db1 : DB) (x : exn) :
  Orm.create_user strict k f l e db = (db1, Raise x) ->
  x = IntegrityError \/ (strict = true /\ x = DataError).
Proof.
  unfold Orm.create_user.
  destruct (_ || _ || _ || _) eqn:Hlong.
  - intros H; inversion H; subst. right. split; [| done].
    destruct strict; [done |]. unfold Orm.too_long_opt, Orm.too_long in Hlong.
    by destruct k, f, l, e.
  - destruct k, f, l, e; try (intros H; inversion H; by left).
    destruct (existsb _ _); [intros H; inversion H; by left | discriminate].
Qed.

Lemma create_student_raise_kind (k : option string) (uid : option nat)
    (f l e d v : option string) (db db1 : DB) (x : exn) :
  Orm.create_student strict k uid f l e d v db = (db1, Raise x) ->
  x = IntegrityError \/ (strict = true /\ x = DataError).
Proof.
  unfold Orm.create_student.
  destruct (_ || _ || _ || _ || _ || _) eqn:Hlong.
  - intros H; inversion H; subst. right. split; [| done].
    destruct strict; [done |]. unfold Orm.too_long_opt, Orm.too_long in Hlong.
    by destruct k, f, l, e, d, v.
  - destruct k, f, l, d, v; try (intros H; inversion H; by left).
    destruct (existsb _ _ || existsb _ _); intros H; inversion H; by left.
Qed.

(** What the account upsert does to the two tables. *)
Lemma upsert_user_footprint (f : Tasks.fields) (db db1 : DB)
    (o : result (User.t * bool)) :
  Tasks.upsert_user strict f db = (db1, o) ->
  students db1 = students db
  /\ (users db1 = users db
      \/ exists u, users db1 = users db ++ [u]
                   /\ Tasks.reg_no f = Some (User.username u)
                   /\ o = Ok (u, true))
  /\ (forall x, o = Raise x ->
                db1 = db /\ (x = IntegrityError \/ (strict = true /\ x = DataError))).
Proof.
  intros H.
  destruct (upsert_user_cases strict f db)
    as [(u & Hg & E) | [(u & Hg & Hk & _ & E) | (x & _ & Hc & E)]];
    rewrite E in H; inversion H; subst; cbn [users students].
  - split; [done |]. split; [by left | done].
  - split; [done |]. split; [right; by exists u | done].
  - split; [done |]. split; [by left |]. intros y [= <-]. split; [done |].
    by eapply create_user_raise_kind.
Qed.

(** What the profile upsert does to the two tables. *)
Lemma upsert_student_footprint (user : User.t) (f : Tasks.fields) (db db1 : DB)
    (o : result (Student.t * bool)) :
  Tasks.upsert_student strict user f db = (db1, o) ->
  users db1 = users db
  /\ (students db1 = students db
      \/ exists s, students db1 = students db ++ [s]
                   /\ Tasks.reg_no f = Some (Student.reg_no s)
                   /\ Student.user s = Some (User.id user)
                   /\ o = Ok (s, true))
  /\ (forall x, o = Raise x ->
                db1 = db /\ (x = IntegrityError \/ (strict = true /\ x = DataError))).
Proof.
  intros H.
  destruct (upsert_student_cases strict user f db)
    as [(s & Hg & E) | [(s & Hg & Hk & Hc & E) | (x & _ & Hc & E)]];
    rewrite E in H; inversion H; subst; cbn [users students].
  - split; [done |]. split; [by left | done].
  - split; [done |]. split; [| done]. right. exists s.
    split; [done |]. split; [done |]. split; [| done].
    rewrite Hk in Hg.
    pose proof (create_student_new_profile strict f _ (User.id user) db Hk Hg) as Hn.
    rewrite Hc in Hn. by destruct Hn as (_ & _ & ? & _).
  - split; [done |]. split; [by left |]. intros y [= <-]. split; [done |].
    by eapply create_student_raise_kind.
Qed.

(** X1. A row that raises leaves no profile: the profiles are as they were
    and the accounts are as they were or hold one more, the account of the
    row's registration number, inserted before the profile insert failed.
    The exception is [IntegrityError], or [DataError] on a store that
    enforces lengths. *)
Theorem X1_failed_row_footprint :
  forall (r : Csv.row) (db db' : DB) (x : exn),
    Tasks.process_row strict r db = (db', Raise x) ->
    students db' = students db
    /\ (users db' = users db
        \/ exists u, users db' = users db ++ [u]
                     /\ Tasks.reg_no (Tasks.read_row r) = Some (User.username u))
    /\ (x = IntegrityError \/ (strict = true /\ x = DataError)).
Proof.
  intros r db db' x. rewrite process_row_eq.
  destruct (Tasks.upsert_user strict (Tasks.read_row r) db) as [db1 [[u c] | y]] eqn:Hu.
  - apply upsert_user_footprint in Hu as (Hs1 & Hu1 & _). cbn [fst].
    destruct (Tasks.upsert_student strict u (Tasks.read_row r) db1)
      as [db2 [sc | y]] eqn:Hs; [discriminate |].
    intros [= <- <-].
    apply upsert_student_footprint in Hs as (_ & _ & Hr).
    destruct (Hr y eq_refl) as [-> Hkind].
    split; [done |]. split; [| done].
    destruct Hu1 as [? | (u' & ? & ? & _)]; [by left | right; by exists u'].
  - intros [= <- <-].
    apply upsert_user_footprint in Hu as (Hs1 & _ & Hr).
    destruct (Hr y eq_refl) as [-> Hkind]. split; [done |]. split; [by left | done].
Qed.

(** One row adds at most one account and at most one profile, after the
    rows that were there; a profile it adds is linked to an account that
    bears the row's registration number. *)
Lemma process_row_footprint (r : Csv.row) (db db' : DB) (o : result unit) :
  Tasks.process_row strict r db = (db', o) ->
  (users db' = users db \/ exists u, users db' = users db ++ [u])
  /\ (students db' = students db
      \/ exists s u, students db' = students db ++ [s]
                     /\ In u (users db')
                     /\ Student.user s = Some (User.id u)
                     /\ User.username u = Student.reg_no s).
Proof.
  rewrite process_row_eq.
  destruct (Tasks.upsert_user strict (Tasks.read_row r) db) as [db1 [[u c] | y]] eqn:Hu.
  - pose proof (upsert_user_ok _ _ _ _ _ _ Hu) as (_ & _ & Hget).
    apply upsert_user_footprint in Hu as (Hs1 & Hu1 & _). cbn [fst].
    destruct (Tasks.upsert_student strict u (Tasks.read_row r) db1)
      as [db2 osc] eqn:Hs.
    apply upsert_student_footprint in Hs as (Hu2 & Hs2 & _).
    intros H.
    assert (db' = db2) as -> by (destruct osc; by inversion H).
    rewrite Hu2. split.
    + destruct Hu1 as [? | (u' & ? & _)]; [by left | right; by exists u'].
    + rewrite <- Hs1. destruct Hs2 as [? | (s & ? & Hk & Hl & _)]; [by left | right].
      exists s, u. split; [done |]. split; [| split; [done |]].
      * unfold Orm.get_user in Hget. destruct (Tasks.reg_no _); [| done].
        by apply find_some in Hget as [? _].
      * unfold Orm.get_user in Hget. rewrite Hk in Hget.
        by apply find_some in Hget as [_ ?%String.eqb_eq].
  - intros [= <- <-]. apply upsert_user_footprint in Hu as (Hs1 & _ & Hr).
    destruct (Hr y eq_refl) as [-> _]. split; by left.
Qed.

End Footprint.

Lemma X1_failed_row_footprint_witness :
  Tasks.process_row false Fixtures.four_cells empty_db
  = (Samples.account_only, Raise IntegrityError)
  /\ students Samples.account_only = students empty_db
  /\ (users Samples.account_only = users empty_db
      \/ exists u, users Samples.account_only = users empty_db ++ [u]
                   /\ Tasks.reg_no (Tasks.read_row Fixtures.four_cells)
                      = Some (User.username u))
  /\ (IntegrityError = IntegrityError \/ (false = true /\ IntegrityError = DataError)).
Proof.
  split; [vm_compute; reflexivity |].
  apply (X1_failed_row_footprint false Fixtures.four_cells empty_db
           Samples.account_only IntegrityError).
  vm_compute. reflexivity.
Defined.

Section Runs.

Variable strict : bool.

Lemma for_each_footprint (rows : list Csv.row) (db db' : DB) (o : result unit) :
  Tasks.for_each (Tasks.process_row strict) rows db = (db', o) ->
  length (users db') <= length (users db) + length rows
  /\ length (students db') <= length (students db) + length rows
  /\ (forall s, In s (students db') ->
                In s (students db)
                \/ exists u, In u (users db')
                             /\ Student.user s = Some (User.id u)
                             /\ User.username u = Student.reg_no s).
Proof.
  revert db. induction rows as [| r rows IH]; intros db.
  - intros H; inversion H; subst. cbn. split; [lia |]. split; [lia |]. by left.
  - rewrite for_each_cons.
    destruct (Tasks.process_row strict r db) as [db1 o1] eqn:Hr.
    pose proof (process_row_footprint strict _ _ _ _ Hr) as (Hu & Hs).
    assert (length (users db1) <= S (length (users db))) as Lu.
    { destruct Hu as [-> | [u ->]]; [lia |]. rewrite length_app. cbn. lia. }
    assert (length (students db1) <= S (length (students db))) as Ls.
    { destruct Hs as [-> | (s & u & -> & _)]; [lia |]. rewrite length_app. cbn. lia. }
    assert (forall s, In s (students db1) ->
                      In s (students db)
                      \/ exists u, In u (users db1)
                                   /\ Student.user s = Some (User.id u)
                                   /\ User.username u = Student.reg_no s) as Hl.
    { intros s Hin. destruct Hs as [E | (s' & u & E & Hu' & Hk & Hn)].
      - left. by rewrite <- E.
      - rewrite E in Hin. apply in_app_or in Hin as [? | [<- | []]]; [by left |].
        right. by exists u. }
    destruct o1 as [[] | x].
    + intros H. pose proof (for_each_extends _ _ _ _ _ H) as [[us Eu] _].
      apply IH in H as (Hu2 & Hs2 & Hl2). cbn [length].
      split; [lia |]. split; [lia |].
      intros s Hin. destruct (Hl2 s Hin) as [Hin1 | ?]; [| by right].
      destruct (Hl s Hin1) as [? | (u & Hu' & ? & ?)]; [by left | right].
      exists u. split; [| done]. rewrite Eu. apply in_or_app. by left.
    + intros H; inversion H; subst. cbn [length]. split; [lia |]. split; [lia | done].
Qed.

(** X2. Whatever the file holds and however the run ends, the run only
    appends: every account and every profile that was in the tables is
    still there, unchanged and in place, and nothing is deleted. *)
Theorem X2_task_only_appends :
  forall (fs : gmap string (list byte)) (file_path : string) (db : DB),
    extends db (fst (Tasks.process_students_csv strict fs file_path db)).
Proof.
  intros fs file_path db. unfold Tasks.process_students_csv.
  destruct (fs !! file_path) as [bytes |]; [| apply extends_refl].
  rewrite for_rows_eq.
  destruct (Tasks.for_each (Tasks.process_row strict) (fst (Tasks.rows_of bytes)) db)
    as [db' o] eqn:Hrun.
  apply for_each_extends in Hrun.
  destruct o as [[] | x]; [destruct (snd (Tasks.rows_of bytes)) |]; exact Hrun.
Qed.

(** X3. Every profile a run inserts is linked to an account that is in the
    table and bears the profile's registration number. *)
Theorem X3_inserted_profiles_are_linked :
  forall (fs : gmap string (list byte)) (file_path : string) (db : DB) (s : Student.t),
    In s (students (fst (Tasks.process_students_csv strict fs file_path db))) ->
    In s (students db)
    \/ exists u,
         In u (users (fst (Tasks.process_students_csv strict fs file_path db)))
         /\ Student.user s = Some (User.id u)
         /\ User.username u = Student.reg_no s.
Proof.
  intros fs file_path db s. unfold Tasks.process_students_csv.
  destruct (fs !! file_path) as [bytes |]; [| by left].
  rewrite for_rows_eq.
  destruct (Tasks.for_each (Tasks.process_row strict) (fst (Tasks.rows_of bytes)) db)
    as [db' o] eqn:Hrun.
  apply for_each_footprint in Hrun as (_ & _ & Hl).
  destruct o as [[] | x]; [destruct (snd (Tasks.rows_of bytes)) |]; apply Hl.
Qed.

(** X4. A run inserts at most one account and at most one profile for each
    row the reader yields. *)
Theorem X4_at_most_one_insert_per_row :
  forall (src : list Csv.row * option exn) (db : DB),
    length (users (fst (Tasks.for_rows strict src db)))
    <= length (users db) + length (fst src)
    /\ length (students (fst (Tasks.for_rows strict src db)))
       <= length (students db) + length (fst src).
Proof.
  intros src db. rewrite for_rows_eq.
  destruct (Tasks.for_each (Tasks.process_row strict) (fst src) db) as [db' o] eqn:Hrun.
  apply for_each_footprint in Hrun as (Hu & Hs & _).
  destruct o as [[] | x]; [destruct (snd src) |]; by split.
Qed.

(** The constraints of the schema hold after a row, whichever way it ends. *)
Lemma process_row_consistent (r : Csv.row) (db : DB) :
  Entities.consistent db ->
  Entities.consistent (fst (Tasks.process_row strict r db)).
Proof.
  intros Hc.
  destruct (Tasks.reg_no (Tasks.read_row r)) as [k |] eqn:Hk.
  - rewrite process_row_eq.
    pose proof (upsert_user_step strict _ k db Hc Hk) as Hu.
    destruct (Tasks.upsert_user strict (Tasks.read_row r) db) as [db1 [[u c] | x]].
    + destruct Hu as (Hc1 & Hin & Hn & _). cbn [fst].
      pose proof (upsert_student_step strict u _ k db1 Hc1 Hk Hin Hn) as Hs.
      destruct (Tasks.upsert_student strict u (Tasks.read_row r) db1)
        as [db2 [sc | x]].
      * by destruct Hs as (? & _).
      * by destruct Hs as (-> & _).
    + by destruct Hu as (-> & _).
  - by destruct (process_row_without_key strict r db Hk) as [-> | ->].
Qed.

Lemma for_each_consistent (rows : list Csv.row) (db : DB) :
  Entities.consistent db ->
  Entities.consistent (fst (Tasks.for_each (Tasks.process_row strict) rows db)).
Proof.
  revert db. induction rows as [| r rows IH]; intros db Hc; [done |].
  rewrite for_each_cons. pose proof (process_row_consistent r db Hc) as Hr.
  destruct (Tasks.process_row strict r db) as [db1 [[] | x]]; [by apply IH | done].
Qed.

(** An insert into the profiles keeps the links one-to-one: the store
    refuses a second profile for an account. *)
Lemma create_student_links (k : option string) (uid : option nat)
    (f l e d v : option string) (db : DB) :
  Batch.links_unique db ->
  Batch.links_unique (fst (Orm.create_student strict k uid f l e d v db)).
Proof.
  intros Hl. unfold Orm.create_student.
  destruct (_ || _ || _ || _ || _ || _); [done |].
  destruct k, f, l, d, v; try done.
  destruct (existsb (fun s => String.eqb (Student.reg_no s) _) (students db));
    [done |]. cbn [orb].
  destruct (existsb (Orm.linked_to uid) (students db)) eqn:Hex; [done |].
  unfold Batch.links_unique. cbn [fst students]. rewrite omap_app.
  apply NoDup_app. split; [done |]. cbn [omap list_omap Student.user].
  destruct uid as [i |]; [| split; [intros ? _ []%elem_of_nil | apply NoDup_nil_2]].
  split; [| apply NoDup_singleton].
  intros j Hj ->%list_elem_of_singleton.
  apply list_elem_of_omap in Hj as (s' & Hs' & Hu).
  assert (existsb (Orm.linked_to (Some i)) (students db) = true); [| congruence].
  apply existsb_exists. exists s'. split; [by apply list_elem_of_In |].
  unfold Orm.linked_to. rewrite Hu. apply Nat.eqb_refl.
Qed.

Lemma process_row_links_unique (r : Csv.row) (db : DB) :
  Batch.links_unique db ->
  Batch.links_unique (fst (Tasks.process_row strict r db)).
Proof.
  intros Hl. rewrite process_row_eq.
  destruct (Tasks.upsert_user strict (Tasks.read_row r) db) as [db1 [[u c] | x]] eqn:Hu.
  - apply upsert_user_footprint in Hu as (Hs1 & _ & _). cbn [fst].
    assert (Batch.links_unique db1) as Hl1
        by (unfold Batch.links_unique; by rewrite Hs1).
    destruct (upsert_student_cases strict u (Tasks.read_row r) db1)
      as [(s & _ & ->) | [(s & _ & _ & Hc & ->) | (x & _ & _ & ->)]]; [done | | done].
    pose proof (create_student_links (Tasks.reg_no (Tasks.read_row r))
                  (Some (User.id u)) (Tasks.first_name (Tasks.read_row r))
                  (Tasks.last_name (Tasks.read_row r)) (Tasks.email (Tasks.read_row r))
                  (Tasks.department (Tasks.read_row r)) (Tasks.level (Tasks.read_row r))
                  db1 Hl1) as Hnew.
    by rewrite Hc in Hnew.
  - apply upsert_user_footprint in Hu as (_ & _ & Hr).
    by destruct (Hr x eq_refl) as [-> _].
Qed.

Lemma for_each_links_unique (rows : list Csv.row) (db : DB) :
  Batch.links_unique db ->
  Batch.links_unique (fst (Tasks.for_each (Tasks.process_row strict) rows db)).
Proof.
  revert db. induction rows as [| r rows IH]; intros db Hl; [done |].
  rewrite for_each_cons. pose proof (process_row_links_unique r db Hl) as Hr.
  destruct (Tasks.process_row strict r db) as [db1 [[] | x]]; [by apply IH | done].
Qed.

(** X5. A run keeps the constraints of the schema, whichever way it ends:
    if primary keys of users, usernames, registration numbers and the
    one-to-one links were unique and every link pointed to a user, they
    still are and do. *)
Theorem X5_task_keeps_constraints :
  forall (fs : gmap string (list byte)) (file_path : string) (db : DB),
    Entities.consistent db -> Batch.links_unique db ->
    Entities.consistent (fst (Tasks.process_students_csv strict fs file_path db))
    /\ Batch.links_unique (fst (Tasks.process_students_csv strict fs file_path db)).
Proof.
  intros fs file_path db Hc Hl. unfold Tasks.process_students_csv.
  destruct (fs !! file_path) as [bytes |]; [| done].
  rewrite for_rows_eq.
  pose proof (for_each_consistent (fst (Tasks.rows_of bytes)) db Hc) as H.
  pose proof (for_each_links_unique (fst (Tasks.rows_of bytes)) db Hl) as H'.
  destruct (Tasks.for_each (Tasks.process_row strict) (fst (Tasks.rows_of bytes)) db)
    as [db' [[] | x]]; [destruct (snd (Tasks.rows_of bytes)) |]; by split.
Qed.

Lemma for_each_settles (rows : list Csv.row) (db db' : DB) :
  Tasks.for_each (Tasks.process_row strict) rows db = (db', Ok tt) ->
  forall r, In r rows ->
    exists k u s,
      Tasks.reg_no (Tasks.read_row r) = Some k
      /\ In u (users db') /\ User.username u = k
      /\ In s (students db') /\ Student.reg_no s = k.
Proof.
  revert db. induction rows as [| r0 rows IH]; intros db H r Hin; [destruct Hin |].
  rewrite for_each_cons in H.
  destruct (Tasks.process_row strict r0 db) as [db1 [[] | x]] eqn:Hr; [| discriminate].
  destruct Hin as [<- | Hin]; [| by eapply IH].
  apply process_row_ok in Hr as (_ & [u Gu] & [s Gs]).
  pose proof (for_each_extends _ _ _ _ _ H) as E.
  eapply get_user_extends in Gu; [| exact E].
  eapply get_student_extends in Gs; [| exact E].
  unfold Orm.get_user in Gu. unfold Orm.get_student in Gs.
  destruct (Tasks.reg_no (Tasks.read_row r0)) as [k |]; [| done].
  apply find_some in Gu as [? ?%String.eqb_eq].
  apply find_some in Gs as [? ?%String.eqb_eq].
  by exists k, u, s.
Qed.

(** X6. When a run ends without an exception, every row of the file has its
    account and its profile in the tables: the row has a registration
    number, and a user with that username and a student with that
    registration number exist. *)
Theorem X6_success_settles_every_row :
  forall (fs : gmap string (list byte)) (file_path : string) (bytes : list byte)
         (db : DB) (r : Csv.row),
    fs !! file_path = Some bytes ->
    snd (Tasks.process_students_csv strict fs file_path db) = Ok tt ->
    In r (fst (Tasks.rows_of bytes)) ->
    exists k u s,
      Tasks.reg_no (Tasks.read_row r) = Some k
      /\ In u (users (fst (Tasks.process_students_csv strict fs file_path db)))
      /\ User.username u = k
      /\ In s (students (fst (Tasks.process_students_csv strict fs file_path db)))
      /\ Student.reg_no s = k.
Proof.
  intros fs file_path bytes db r Hfile. unfold Tasks.process_students_csv.
  rewrite Hfile, for_rows_eq.
  destruct (Tasks.for_each (Tasks.process_row strict) (fst (Tasks.rows_of bytes)) db)
    as [db' [[] | x]] eqn:Hrun; [| discriminate].
  destruct (snd (Tasks.rows_of bytes)); [discriminate |].
  intros _ Hin. cbn [fst]. by eapply for_each_settles.
Qed.

End Runs.

Lemma X3_inserted_profiles_are_linked_witness :
  In Samples.ada_student (students empty_db)
  \/ exists u,
       In u (users (fst (Samples.run Samples.one_row empty_db)))
       /\ Student.user Samples.ada_student = Some (User.id u)
       /\ User.username u = Student.reg_no Samples.ada_student.
Proof.
  apply (X3_inserted_profiles_are_linked false (Samples.disk Samples.one_row)
           "/srv/media/students.csv" empty_db Samples.ada_student).
  vm_compute. left. reflexivity.
Defined.

Lemma X5_task_keeps_constraints_witness :
  length (students (fst (Samples.run Fixtures.two_rows empty_db))) = 2
  /\ Entities.consistent (fst (Samples.run Fixtures.two_rows empty_db))
  /\ Batch.links_unique (fst (Samples.run Fixtures.two_rows empty_db)).
Proof.
  split; [vm_compute; reflexivity |].
  apply (X5_task_keeps_constraints false (Samples.disk Fixtures.two_rows)
           "/srv/media/students.csv" empty_db).
  - exact empty_db_consistent.
  - apply NoDup_nil_2.
Defined.

Lemma X6_success_settles_every_row_witness :
  exists k u s,
    Tasks.reg_no (Tasks.read_row (nth 0 (fst (Tasks.rows_of Samples.one_row)) ∅)) = Some k
    /\ In u (users (fst (Samples.run Samples.one_row empty_db)))
    /\ User.username u = k
    /\ In s (students (fst (Samples.run Samples.one_row empty_db)))
    /\ Student.reg_no s = k.
Proof.
  apply (X6_success_settles_every_row false (Samples.disk Samples.one_row)
           "/srv/media/students.csv" Samples.one_row empty_db
           (nth 0 (fst (Tasks.rows_of Samples.one_row)) ∅)).
  - vm_compute. reflexivity.
  - vm_compute. reflexivity.
  - apply nth_In. vm_compute. constructor.
Defined.

(** ** Rows that go through, and which row a key keeps *)

Section Acceptance.

Variable strict : bool.

Lemma username_of_mono (db db' : DB) (j : nat) (k : string) :
  extends db db' ->
  Entities.username_of db j = Some k -> Entities.username_of db' j = Some k.
Proof.
  intros [[us Hu] _]. unfold Entities.username_of. rewrite Hu.
  destruct (List.find (fun u => Nat.eqb (User.id u) j) (users db)) as [u |] eqn:Hf;
    [| done].
  by rewrite (find_app_hit _ _ _ _ Hf).
Qed.

(** Where the links match, a key without a profile has no profile linked to
    its account either. *)
Lemma links_match_unlinked (db : DB) (k : string) :
  Batch.links_match db -> Entities.profiles db !! k = None ->
  Entities.unlinked k (Entities.profiles db).
Proof.
  intros Hl Hnone k' p Hlook Hacc. rewrite profiles_lookup in Hlook.
  destruct (Orm.get_student (Some k') db) as [s |] eqn:Hs; [| done].
  injection Hlook as <-. apply find_some in Hs as [Hin Hk%String.eqb_eq].
  cbn in Hacc. destruct (Student.user s) as [j |] eqn:Hj; [| done]. cbn in Hacc.
  rewrite (Hl s j Hin Hj) in Hacc. injection Hacc as <-.
  rewrite profiles_lookup in Hnone. unfold Orm.get_student in Hnone.
  destruct (List.find _ (students db)) as [s' |] eqn:Hf; [done |].
  pose proof (find_none _ _ Hf s Hin) as Hn. cbn in Hn.
  rewrite String.eqb_refl in Hn. discriminate.
Qed.

Lemma process_row_links (r : Csv.row) (db : DB) :
  Entities.consistent db -> Batch.links_match db ->
  Batch.links_match (fst (Tasks.process_row strict r db)).
Proof.
  intros Hc Hl. pose proof (process_row_consistent strict r db Hc) as Hc'.
  destruct (Tasks.process_row strict r db) as [db' o] eqn:Hr. cbn [fst] in *.
  pose proof (process_row_footprint strict _ _ _ _ Hr) as (Hu & Hs).
  assert (extends db db') as E.
  { destruct o as [[] | x]; [by apply process_row_ok in Hr as [? _] |].
    by apply process_row_raise in Hr as [? _]. }
  intros s j Hin Hj.
  destruct Hs as [Es | (s' & u & Es & Hin' & Hlink & Hn)].
  - rewrite Es in Hin. eapply username_of_mono; [exact E | by apply Hl].
  - rewrite Es in Hin. apply in_app_or in Hin as [Hin | [<- | []]].
    + eapply username_of_mono; [exact E | by apply Hl].
    + rewrite Hlink in Hj. injection Hj as <-. rewrite <- Hn.
      destruct Hc' as (Hid & _). by apply username_of_In.
Qed.

Lemma new_account_complete (f : Tasks.fields) :
  Batch.complete f -> Batch.within_limits strict f = true ->
  is_Some (Entities.new_account strict f).
Proof.
  intros (_ & [a Ha] & [b Hb] & [c Hc] & _) Hw.
  unfold Batch.within_limits in Hw. apply andb_true_iff in Hw as [Hw _].
  apply negb_true_iff in Hw. unfold Entities.new_account.
  rewrite Hw, Ha, Hb, Hc. by eexists.
Qed.

Lemma new_profile_complete (k : string) (f : Tasks.fields) :
  Batch.complete f -> Batch.within_limits strict f = true ->
  is_Some (Entities.new_profile strict k f).
Proof.
  intros (_ & [a Ha] & [b Hb] & _ & [d Hd] & [v Hv]) Hw.
  unfold Batch.within_limits in Hw. apply andb_true_iff in Hw as [_ Hw].
  apply negb_true_iff in Hw. unfold Entities.new_profile.
  rewrite Hw, Ha, Hb, Hd, Hv. by eexists.
Qed.

(** A row with every value present and within the limits goes through. *)
Lemma process_row_complete (r : Csv.row) (db : DB) :
  Entities.consistent db -> Batch.links_match db ->
  Batch.complete (Tasks.read_row r) ->
  Batch.within_limits strict (Tasks.read_row r) = true ->
  snd (Tasks.process_row strict r db) = Ok tt.
Proof.
  intros Hc Hl Hcomp Hw.
  pose proof Hcomp as ([k Hk] & _).
  pose proof (process_row_step strict r db Hc) as Hstep.
  destruct (Tasks.process_row strict r db) as [db' [[] | x]]; [done |]. exfalso.
  unfold Entities.step in Hstep. rewrite Hk in Hstep. cbn [Entities.entities fst snd] in Hstep.
  destruct (new_account_complete _ Hcomp Hw) as [a Ha].
  destruct (new_profile_complete k _ Hcomp Hw) as [p Hp].
  unfold Entities.add_account, Entities.add_profile in Hstep. rewrite Ha, Hp in Hstep.
  destruct (Entities.accounts db !! k);
    destruct (Entities.profiles db !! k) eqn:Hpk; cbn in Hstep; try done;
    rewrite decide_True in Hstep by (by apply links_match_unlinked); done.
Qed.

Lemma for_each_complete (rows : list Csv.row) (db : DB) :
  Entities.consistent db -> Batch.links_match db ->
  (forall r, In r rows ->
             Batch.complete (Tasks.read_row r)
             /\ Batch.within_limits strict (Tasks.read_row r) = true) ->
  snd (Tasks.for_each (Tasks.process_row strict) rows db) = Ok tt.
Proof.
  revert db. induction rows as [| r rows IH]; intros db Hc Hl Hall; [done |].
  rewrite for_each_cons.
  destruct (Hall r (or_introl eq_refl)) as [Hcomp Hw].
  pose proof (process_row_complete r db Hc Hl Hcomp Hw) as Hok.
  pose proof (process_row_consistent strict r db Hc) as Hc1.
  pose proof (process_row_links r db Hc Hl) as Hl1.
  destruct (Tasks.process_row strict r db) as [db1 [[] | x]]; [| discriminate].
  apply IH; try done. intros r' Hin. apply Hall. by right.
Qed.

(** X7. On tables that meet the schema constraints and whose links match,
    a file in which every row has all six values, none longer than its
    columns where the store enforces lengths, is processed to its last
    row: no row raises, and the run ends as the reading of the file ends. *)
Theorem X7_complete_rows_go_through :
  forall (fs : gmap string (list byte)) (file_path : string) (bytes : list byte) (db : DB),
    fs !! file_path = Some bytes ->
    Entities.consistent db -> Batch.links_match db ->
    (forall r, In r (fst (Tasks.rows_of bytes)) ->
               Batch.complete (Tasks.read_row r)
               /\ Batch.within_limits strict (Tasks.read_row r) = true) ->
    snd (Tasks.process_students_csv strict fs file_path db)
    = match snd (Tasks.rows_of bytes) with
      | Some e => Raise e
      | None => Ok tt
      end.
Proof.
  intros fs file_path bytes db Hfile Hc Hl Hall.
  unfold Tasks.process_students_csv. rewrite Hfile, for_rows_eq.
  pose proof (for_each_complete _ db Hc Hl Hall) as Hok.
  destruct (Tasks.for_each (Tasks.process_row strict) (fst (Tasks.rows_of bytes)) db)
    as [db' [[] | x]]; [| discriminate].
  by destruct (snd (Tasks.rows_of bytes)).
Qed.

(** On a store that does not enforce lengths every row is within the
    limits. *)
Lemma within_limits_lenient (f : Tasks.fields) : Batch.within_limits false f = true.
Proof.
  unfold Batch.within_limits, Orm.too_long_opt, Orm.too_long.
  by destruct (Tasks.reg_no f), (Tasks.first_name f), (Tasks.last_name f),
    (Tasks.email f), (Tasks.department f), (Tasks.level f).
Qed.

Lemma steps_first_wins (fs : list Tasks.fields)
    (v v' : gmap string Entities.account * gmap string Entities.profile) (k : string) :
  Entities.steps strict fs v = Some v' ->
  fst v' !! k
  = match fst v !! k with
    | Some a => Some a
    | None => Batch.first_with_key k fs ≫= Entities.new_account strict
    end
  /\ snd v' !! k
     = match snd v !! k with
       | Some p => Some p
       | None => Batch.first_with_key k fs ≫= Entities.new_profile strict k
       end.
Proof.
  revert v. induction fs as [| f fs IH]; intros v.
  - intros [= <-]. cbn. by destruct (fst v !! k), (snd v !! k).
  - cbn [Entities.steps]. destruct (Entities.step strict f v) as [v1 |] eqn:Hs; [| done].
    intros H. apply IH in H as [Ha Hp]. rewrite Ha, Hp. clear Ha Hp IH.
    unfold Entities.step in Hs. destruct (Tasks.reg_no f) as [kf |] eqn:Hk; [| done].
    destruct (Entities.add_account strict kf f (fst v)) as [us |] eqn:Hus; [| done].
    destruct (Entities.add_profile strict kf f (snd v)) as [ps |] eqn:Hps; [| done].
    injection Hs as <-. cbn [fst snd].
    unfold Batch.first_with_key. cbn [List.find]. rewrite Hk.
    unfold Entities.add_account in Hus. unfold Entities.add_profile in Hps.
    destruct (decide (kf = k)) as [-> | Hne].
    + rewrite bool_decide_eq_true_2 by done. cbn. split.
      * destruct (fst v !! k) as [a |] eqn:Hv; [injection Hus as <-; by rewrite Hv |].
        destruct (Entities.new_account strict f) as [a |]; [| done].
        injection Hus as <-. by rewrite lookup_insert_eq.
      * destruct (snd v !! k) as [p |] eqn:Hv; [injection Hps as <-; by rewrite Hv |].
        destruct (decide _); [| done].
        destruct (Entities.new_profile strict k f) as [p |]; [| done].
        injection Hps as <-. by rewrite lookup_insert_eq.
    + rewrite bool_decide_eq_false_2 by congruence. split.
      * destruct (fst v !! kf) as [a |]; [by injection Hus as <- |].
        destruct (Entities.new_account strict f) as [a |]; [| done].
        injection Hus as <-. by rewrite lookup_insert_ne.
      * destruct (snd v !! kf) as [p |]; [by injection Hps as <- |].
        destruct (decide _); [| done].
        destruct (Entities.new_profile strict kf f) as [p |]; [| done].
        injection Hps as <-. by rewrite lookup_insert_ne.
Qed.

(** X8. First write wins, over a whole batch: after a loop that went
    through on tables that meet the schema constraints, a key that had an
    account (a profile) keeps it, column by column, and a key that had
    none has the values of the first row of the batch that carries it;
    later rows with that key change nothing. *)
Theorem X8_first_row_of_a_key_wins :
  forall (rows : list Csv.row) (db db' : DB) (k : string),
    Entities.consistent db ->
    Tasks.for_each (Tasks.process_row strict) rows db = (db', Ok tt) ->
    Entities.accounts db' !! k
    = match Entities.accounts db !! k with
      | Some a => Some a
      | None => Batch.first_with_key k (map Tasks.read_row rows)
                  ≫= Entities.new_account strict
      end
    /\ Entities.profiles db' !! k
       = match Entities.profiles db !! k with
         | Some p => Some p
         | None => Batch.first_with_key k (map Tasks.read_row rows)
                     ≫= Entities.new_profile strict k
         end.
Proof.
  intros rows db db' k Hc Hrun.
  pose proof (for_each_steps strict rows db Hc) as Hs. rewrite Hrun in Hs.
  destruct Hs as [_ Hs]. by apply (steps_first_wins _ _ _ k) in Hs.
Qed.

End Acceptance.

Lemma X7_complete_rows_go_through_witness :
  snd (Samples.run Samples.twice_ab empty_db)
  = match snd (Tasks.rows_of Samples.twice_ab) with
    | Some e => Raise e
    | None => Ok tt
    end.
Proof.
  apply (X7_complete_rows_go_through false (Samples.disk Samples.twice_ab)
           "/srv/media/students.csv" Samples.twice_ab empty_db).
  - vm_compute. reflexivity.
  - exact empty_db_consistent.
  - intros s j [].
  - assert (forallb
              (fun r =>
                 let f := Tasks.read_row r in
                 bool_decide (is_Some (Tasks.reg_no f) /\ is_Some (Tasks.first_name f)
                              /\ is_Some (Tasks.last_name f) /\ is_Some (Tasks.email f)
                              /\ is_Some (Tasks.department f) /\ is_Some (Tasks.level f))
                 && Batch.within_limits false f)
              (fst (Tasks.rows_of Samples.twice_ab)) = true) as Hall
      by (vm_compute; reflexivity).
    intros r Hr. apply (proj1 (forallb_forall _ _) Hall) in Hr.
    apply andb_true_iff in Hr as [Hc Hl].
    split; [exact (bool_decide_eq_true_1 _ Hc) | exact Hl].
Defined.

Lemma X8_first_row_of_a_key_wins_witness :
  Entities.accounts
    (fst (Tasks.for_each (Tasks.process_row false)
            [Samples.ada_row; Fixtures.ada_again] empty_db)) !! "S001"
  = match Entities.accounts empty_db !! "S001" with
    | Some a => Some a
    | None => Batch.first_with_key "S001"
                (map Tasks.read_row [Samples.ada_row; Fixtures.ada_again])
                ≫= Entities.new_account false
    end
  /\ Entities.profiles
       (fst (Tasks.for_each (Tasks.process_row false)
               [Samples.ada_row; Fixtures.ada_again] empty_db)) !! "S001"
     = match Entities.profiles empty_db !! "S001" with
       | Some p => Some p
       | None => Batch.first_with_key "S001"
                   (map Tasks.read_row [Samples.ada_row; Fixtures.ada_again])
                   ≫= Entities.new_profile false "S001"
       end.
Proof.
  apply (X8_first_row_of_a_key_wins false [Samples.ada_row; Fixtures.ada_again]
           empty_db).
  - exact empty_db_consistent.
  - vm_compute. reflexivity.
Defined.

(** ** Submit, work, query *)

(** A writing that raises nothing has stored the chunks, one after the
    other. *)
Lemma write_chunks_stored (os : Os.answers) (file_path : string)
    (chunks : list (list byte)) (fs : gmap string (list byte)) :
  snd (Views.write_chunks os file_path chunks fs) = None ->
  Views.write_chunks os file_path chunks fs = (<[file_path := concat chunks]> fs, None).
Proof.
  unfold Views.write_chunks.
  destruct (String.eqb file_path ""); [discriminate |].
  destruct (Views.has_nul file_path); [discriminate |].
  by destruct (Os.write os).
Qed.

(** A writing that raises leaves queue, result store and database alone. *)
Lemma write_chunks_failed (os : Os.answers) (file_path : string)
    (chunks : list (list byte)) (fs : gmap string (list byte)) (e : exn) :
  snd (Views.write_chunks os file_path chunks fs) = Some e ->
  exists fs1, Views.write_chunks os file_path chunks fs = (fs1, Some e).
Proof.
  intros H. destruct (Views.write_chunks os file_path chunks fs) as [fs1 o].
  cbn [snd] in H. subst o. by exists fs1.
Qed.

Lemma upload_with_file (os : Os.answers) (MEDIA_ROOT task_id : string)
    (request : Views.Request) (f : Views.UploadedFile) (w : Celery.world) :
  Views.FILES request !! "file" = Some f -> Views.name f <> "" ->
  Views.makedirs os MEDIA_ROOT = None ->
  snd (Views.write_chunks os (Views.path_join MEDIA_ROOT (Views.name f))
         (Views.file_chunks f) (Celery.fs w)) = None ->
  Views.upload_students_csv os MEDIA_ROOT task_id request w
  = (Ok {| Views.status_code := Views.HTTP_202_ACCEPTED;
           Views.data := [("message", "CSV upload received. Processing started.");
                          ("task_id", task_id); ("status", "PENDING")] |},
     {| Celery.fs := <[Views.path_join MEDIA_ROOT (Views.name f)
                       := concat (Views.file_chunks f)]> (Celery.fs w);
        Celery.queue := Celery.queue w
                        ++ [(task_id, Views.path_join MEDIA_ROOT (Views.name f))];
        Celery.backend := Celery.backend w;
        Celery.db := Celery.db w |}).
Proof.
  intros Hf Hn Hdir Hwrite. unfold Views.upload_students_csv. rewrite Hf.
  unfold Views.truthy. destruct (String.eqb_spec (Views.name f) ""); [done |].
  cbn [negb]. rewrite Hdir. by rewrite (write_chunks_stored _ _ _ _ Hwrite).
Qed.

Lemma worker_step_cons (strict : bool) (w : Celery.world) (task_id file_path : string)
    (rest : list (string * string)) :
  Celery.queue w = (task_id, file_path) :: rest ->
  Celery.worker_step strict w
  = {| Celery.fs := Celery.fs w; Celery.queue := rest;
       Celery.backend :=
         <[task_id := Worker.meta_of (snd (Tasks.process_students_csv strict (Celery.fs w)
                                      file_path (Celery.db w)))]> (Celery.backend w);
       Celery.db := fst (Tasks.process_students_csv strict (Celery.fs w)
                           file_path (Celery.db w)) |}.
Proof.
  intros Hq. unfold Celery.worker_step. rewrite Hq.
  by destruct (Tasks.process_students_csv strict (Celery.fs w) file_path (Celery.db w))
    as [db' [[] | e]].
Qed.

Lemma for_rows_again (strict : bool) (src : list Csv.row * option exn)
    (db db' : DB) (o : result unit) :
  Tasks.for_rows strict src db = (db', o) -> Tasks.for_rows strict src db' = (db', o).
Proof.
  rewrite !for_rows_eq.
  destruct (Tasks.for_each (Tasks.process_row strict) (fst src) db) as [db1 o1] eqn:Hrun.
  pose proof (for_each_again _ _ _ _ _ Hrun) as Hagain.
  destruct o1 as [[] | e]; [destruct (snd src) |]; intros [= <- <-]; by rewrite Hagain.
Qed.

(** X9. A Submit request with a file, on a machine where the media
    directory can be made and the file written, is answered with HTTP 202
    and the id of the new job; the bytes of the upload, chunk after chunk,
    are stored under the media root at the file's name, one job for that
    path is added at the end of the queue, and database and result store
    are untouched: a Status query for the new id, asked before any worker
    ran, answers [PENDING]. *)
Theorem X9_status_right_after_submit :
  forall (os : Os.answers) (MEDIA_ROOT task_id : string) (request : Views.Request)
         (f : Views.UploadedFile) (w : Celery.world),
    Views.FILES request !! "file" = Some f -> Views.name f <> "" ->
    Views.makedirs os MEDIA_ROOT = None ->
    snd (Views.write_chunks os (Views.path_join MEDIA_ROOT (Views.name f))
           (Views.file_chunks f) (Celery.fs w)) = None ->
    Celery.backend w !! task_id = None ->
    let out := Views.upload_students_csv os MEDIA_ROOT task_id request w in
    let file_path := Views.path_join MEDIA_ROOT (Views.name f) in
    fst out
    = Ok {| Views.status_code := 202;
            Views.data := [("message", "CSV upload received. Processing started.");
                           ("task_id", task_id); ("status", "PENDING")] |}
    /\ Celery.fs (snd out) !! file_path = Some (concat (Views.file_chunks f))
    /\ Celery.queue (snd out) = Celery.queue w ++ [(task_id, file_path)]
    /\ Celery.db (snd out) = Celery.db w
    /\ Views.get_task_status task_id (snd out)
       = {| Views.status_code := 200;
            Views.data := [("task_id", task_id); ("status", "PENDING")] |}.
Proof.
  intros os MEDIA_ROOT task_id request f w Hf Hn Hdir Hwrite Hb out file_path.
  subst out file_path.
  rewrite (upload_with_file _ _ _ _ _ _ Hf Hn Hdir Hwrite). cbn [fst snd].
  split; [done |].
  split; [apply lookup_insert_eq |]. split; [done |]. split; [done |].
  unfold Views.get_task_status, Celery.AsyncResult_status. cbn [Celery.backend].
  by rewrite Hb.
Qed.

Lemma X9_status_right_after_submit_witness :
  let out := Views.upload_students_csv Os.ok Samples.media "7f3c"
               (Fixtures.upload Fixtures.students_file) Samples.world0 in
  let file_path := Views.path_join Samples.media (Views.name Fixtures.students_file) in
  fst out
  = Ok {| Views.status_code := 202;
          Views.data := [("message", "CSV upload received. Processing started.");
                         ("task_id", "7f3c"); ("status", "PENDING")] |}
  /\ Celery.fs (snd out) !! file_path
     = Some (concat (Views.file_chunks Fixtures.students_file))
  /\ Celery.queue (snd out) = Celery.queue Samples.world0 ++ [("7f3c", file_path)]
  /\ Celery.db (snd out) = Celery.db Samples.world0
  /\ Views.get_task_status "7f3c" (snd out)
     = {| Views.status_code := 200;
          Views.data := [("task_id", "7f3c"); ("status", "PENDING")] |}.
Proof.
  apply (X9_status_right_after_submit Os.ok Samples.media "7f3c"
           (Fixtures.upload Fixtures.students_file) Fixtures.students_file
           Samples.world0).
  - vm_compute. reflexivity.
  - discriminate.
  - vm_compute. reflexivity.
  - vm_compute. reflexivity.
  - vm_compute. reflexivity.
Defined.

(** X10. Submit, on a machine where the media directory can be made and
    the file written, then one worker step on a queue that was empty: the
    worker finds the stored file and runs the loop over the rows of the
    uploaded bytes. The database, and the list the students endpoint returns, are
    what that loop leaves; the queue is empty again; and a Status query
    answers [SUCCESS] if the loop ended without an exception and [FAILURE]
    otherwise. *)
Theorem X10_submit_then_work :
  forall (strict : bool) (os : Os.answers) (MEDIA_ROOT task_id : string)
         (request : Views.Request) (f : Views.UploadedFile) (w : Celery.world),
    Views.FILES request !! "file" = Some f -> Views.name f <> "" ->
    Views.makedirs os MEDIA_ROOT = None ->
    snd (Views.write_chunks os (Views.path_join MEDIA_ROOT (Views.name f))
           (Views.file_chunks f) (Celery.fs w)) = None ->
    Celery.queue w = [] ->
    let w' := Celery.worker_step strict
                (snd (Views.upload_students_csv os MEDIA_ROOT task_id request w)) in
    let r := Tasks.for_rows strict (Tasks.rows_of (concat (Views.file_chunks f)))
               (Celery.db w) in
    Celery.db w' = fst r
    /\ Views.get_students w' = students (fst r)
    /\ Celery.queue w' = []
    /\ Views.get_task_status task_id w'
       = {| Views.status_code := 200;
            Views.data := [("task_id", task_id);
                           ("status", match snd r with
                                      | Ok _ => "SUCCESS"
                                      | Raise _ => "FAILURE"
                                      end)] |}.
Proof.
  intros strict os MEDIA_ROOT task_id request f w Hf Hn Hdir Hwrite Hq w' r.
  subst w' r.
  rewrite (upload_with_file _ _ _ _ _ _ Hf Hn Hdir Hwrite). cbn [snd].
  rewrite Hq. cbn [app].
  rewrite (worker_step_cons strict _ task_id
             (Views.path_join MEDIA_ROOT (Views.name f)) []) by reflexivity.
  cbn [Celery.fs Celery.db]. unfold Tasks.process_students_csv.
  rewrite lookup_insert_eq.
  unfold Views.get_students, Views.get_task_status, Celery.AsyncResult_status.
  cbn [Celery.db Celery.queue Celery.backend]. rewrite lookup_insert_eq.
  repeat split.
  by destruct (snd (Tasks.for_rows strict _ (Celery.db w))).
Qed.

Lemma X10_submit_then_work_witness :
  let w' := Celery.worker_step false
              (snd (Views.upload_students_csv Os.ok Samples.media "7f3c"
                      (Fixtures.upload Fixtures.students_file) Samples.world0)) in
  let r := Tasks.for_rows false
             (Tasks.rows_of (concat (Views.file_chunks Fixtures.students_file)))
             (Celery.db Samples.world0) in
  Celery.db w' = fst r
  /\ Views.get_students w' = students (fst r)
  /\ Celery.queue w' = []
  /\ Views.get_task_status "7f3c" w'
     = {| Views.status_code := 200;
          Views.data := [("task_id", "7f3c");
                         ("status", match snd r with
                                    | Ok _ => "SUCCESS"
                                    | Raise _ => "FAILURE"
                                    end)] |}.
Proof.
  apply (X10_submit_then_work false Os.ok Samples.media "7f3c"
           (Fixtures.upload Fixtures.students_file) Fixtures.students_file
           Samples.world0).
  - vm_compute. reflexivity.
  - discriminate.
  - vm_compute. reflexivity.
  - vm_compute. reflexivity.
  - reflexivity.
Defined.

(** A file name that is not empty gives a path that is not empty. *)
Lemma path_join_not_empty (a b : string) :
  b <> "" -> String.eqb (Views.path_join a b) "" = false.
Proof.
  intros Hb. unfold Views.path_join.
  destruct (Views.starts_with_slash b); [by apply String.eqb_neq |].
  destruct (String.eqb_spec a "") as [-> | Ha]; cbn [orb].
  - by apply String.eqb_neq.
  - destruct (Views.ends_with_slash a); apply String.eqb_neq; by destruct a.
Qed.

Lemma has_nul_app (a b : string) :
  Views.has_nul (a ++ b) = Views.has_nul a || Views.has_nul b.
Proof.
  induction a as [| c a IH]; [done |].
  change (Views.has_nul (String c (String.append a b))
          = Views.has_nul (String c a) || Views.has_nul b).
  cbn [Views.has_nul]. rewrite IH. by rewrite orb_assoc.
Qed.

(** A directory that was made and a file name without a NUL character give
    a path without one. *)
Lemma path_join_no_nul (os : Os.answers) (a b : string) :
  Views.makedirs os a = None -> Views.has_nul b = false ->
  Views.has_nul (Views.path_join a b) = false.
Proof.
  intros Hd Hb.
  assert (Views.has_nul a = false) as Ha.
  { unfold Views.makedirs in Hd. destruct (String.eqb a ""); [discriminate |].
    by destruct (Views.has_nul a). }
  unfold Views.path_join. destruct (Views.starts_with_slash b); [done |].
  destruct (_ || _); rewrite !has_nul_app, ?Ha, ?Hb; done.
Qed.

(** X11. Two uploads under the same file name, both stored without an
    error and both made before a worker runs, share one stored file: the second upload replaces the bytes of
    the first, and both jobs process the second upload. The first upload's
    bytes are never read; the database is what one run over the second
    upload leaves, and both jobs end in the same state. *)
Theorem X11_same_name_uploads_share_the_file :
  forall (strict : bool) (os1 os2 : Os.answers) (MEDIA_ROOT id1 id2 : string)
         (req1 req2 : Views.Request) (f1 f2 : Views.UploadedFile) (w : Celery.world),
    Views.FILES req1 !! "file" = Some f1 -> Views.FILES req2 !! "file" = Some f2 ->
    Views.name f1 <> "" -> Views.name f2 = Views.name f1 ->
    Views.makedirs os1 MEDIA_ROOT = None -> Views.makedirs os2 MEDIA_ROOT = None ->
    Os.write os1 = Os.Stored -> Os.write os2 = Os.Stored ->
    Views.has_nul (Views.name f1) = false ->
    Celery.queue w = [] ->
    let w1 := snd (Views.upload_students_csv os1 MEDIA_ROOT id1 req1 w) in
    let w2 := snd (Views.upload_students_csv os2 MEDIA_ROOT id2 req2 w1) in
    let w' := Worker.work strict 2 w2 in
    let r := Tasks.for_rows strict (Tasks.rows_of (concat (Views.file_chunks f2)))
               (Celery.db w) in
    Celery.db w' = fst r
    /\ Celery.backend w' !! id1 = Some (Worker.meta_of (snd r))
    /\ Celery.backend w' !! id2 = Some (Worker.meta_of (snd r)).
Proof.
  intros strict os1 os2 MEDIA_ROOT id1 id2 req1 req2 f1 f2 w Hf1 Hf2 Hn1 Hn2
    Hd1 Hd2 Hw1 Hw2 Hnul Hq w1 w2 w' r.
  subst w1 w2 w' r.
  assert (forall os chunks fs,
            Os.write os = Os.Stored ->
            snd (Views.write_chunks os (Views.path_join MEDIA_ROOT (Views.name f1))
                   chunks fs) = None) as Hstored.
  { intros os chunks fs Hw. unfold Views.write_chunks. rewrite Hw.
    rewrite (path_join_not_empty _ _ Hn1), (path_join_no_nul _ _ _ Hd1 Hnul). done. }
  rewrite (upload_with_file _ _ _ _ _ _ Hf1 Hn1 Hd1 (Hstored _ _ _ Hw1)). cbn [snd].
  rewrite (upload_with_file _ _ _ _ _ _ Hf2); [| congruence | done
    | rewrite Hn2; by apply Hstored].
  cbn [snd Celery.fs Celery.queue Celery.backend Celery.db].
  rewrite Hq, Hn2. cbn [app]. unfold Worker.work, Nat.iter. cbn [nat_rect].
  set (p := Views.path_join MEDIA_ROOT (Views.name f1)).
  set (c2 := concat (Views.file_chunks f2)).
  set (fs2 := <[p := c2]> (<[p := concat (Views.file_chunks f1)]> (Celery.fs w))).
  assert (forall db, Tasks.process_students_csv strict fs2 p db
                     = Tasks.for_rows strict (Tasks.rows_of c2) db) as Hread.
  { intros db. unfold Tasks.process_students_csv, fs2. by rewrite lookup_insert_eq. }
  destruct (Tasks.for_rows strict (Tasks.rows_of c2) (Celery.db w)) as [db1 o] eqn:Hrun.
  rewrite (worker_step_cons strict (Celery.Build_world _ _ _ _) id1 p [(id2, p)])
    by reflexivity.
  cbn [Celery.fs Celery.db Celery.backend]. rewrite !Hread, Hrun. cbn [fst snd].
  rewrite (worker_step_cons strict (Celery.Build_world _ _ _ _) id2 p []) by reflexivity.
  cbn [Celery.fs Celery.db Celery.backend].
  rewrite !Hread, (for_rows_again _ _ _ _ _ Hrun). cbn [fst snd].
  split; [done |]. split; [| apply lookup_insert_eq].
  destruct (decide (id2 = id1)) as [-> | Hne]; [apply lookup_insert_eq |].
  rewrite lookup_insert_ne by done. apply lookup_insert_eq.
Qed.

Lemma X11_same_name_uploads_share_the_file_witness :
  let w1 := snd (Views.upload_students_csv Os.ok Samples.media "7f3c"
                   (Fixtures.upload Fixtures.students_file) Samples.world0) in
  let w2 := snd (Views.upload_students_csv Os.ok Samples.media "9a1e"
                   (Fixtures.upload Fixtures.second_file) w1) in
  let w' := Worker.work false 2 w2 in
  let r := Tasks.for_rows false
             (Tasks.rows_of (concat (Views.file_chunks Fixtures.second_file)))
             (Celery.db Samples.world0) in
  Celery.db w' = fst r
  /\ Celery.backend w' !! "7f3c" = Some (Worker.meta_of (snd r))
  /\ Celery.backend w' !! "9a1e" = Some (Worker.meta_of (snd r)).
Proof.
  apply (X11_same_name_uploads_share_the_file false Os.ok Os.ok Samples.media
           "7f3c" "9a1e"
           (Fixtures.upload Fixtures.students_file)
           (Fixtures.upload Fixtures.second_file)
           Fixtures.students_file Fixtures.second_file Samples.world0).
  - vm_compute. reflexivity.
  - vm_compute. reflexivity.
  - discriminate.
  - reflexivity.
  - vm_compute. reflexivity.
  - vm_compute. reflexivity.
  - reflexivity.
  - reflexivity.
  - vm_compute. reflexivity.
  - reflexivity.
Defined.

(** The messages left after [n] worker steps. *)
Lemma work_queue (strict : bool) (n : nat) (w : Celery.world) :
  Celery.queue (Worker.work strict n w) = skipn n (Celery.queue w)
  /\ Celery.fs (Worker.work strict n w) = Celery.fs w.
Proof.
  unfold Worker.work. revert w. induction n as [| n IH]; intros w; [done |].
  rewrite Nat.iter_succ_r.
  destruct (Celery.queue w) as [| [task_id file_path] rest] eqn:Hq.
  - assert (Celery.worker_step strict w = w) as -> by (unfold Celery.worker_step; by rewrite Hq).
    destruct (IH w) as [-> ->]. rewrite Hq. by rewrite !skipn_nil.
  - destruct (IH (Celery.worker_step strict w)) as [-> ->].
    by rewrite (worker_step_cons strict w _ _ _ Hq).
Qed.

(** X12. The state recorded for a job is final as long as its id is not
    queued again: whatever other jobs a worker runs afterwards, a Status
    query for the id keeps giving the same answer. *)
Theorem X12_recorded_state_is_final :
  forall (strict : bool) (n : nat) (w : Celery.world) (task_id : string),
    ~ In task_id (map fst (Celery.queue w)) ->
    Celery.backend (Worker.work strict n w) !! task_id = Celery.backend w !! task_id
    /\ Views.get_task_status task_id (Worker.work strict n w)
       = Views.get_task_status task_id w.
Proof.
  intros strict n w task_id Hnot.
  assert (Celery.backend (Worker.work strict n w) !! task_id
          = Celery.backend w !! task_id) as Hb.
  { unfold Worker.work. revert w Hnot. induction n as [| n IH]; intros w Hnot; [done |].
    rewrite Nat.iter_succ_r.
    destruct (Celery.queue w) as [| [id' file_path] rest] eqn:Hq.
    - assert (Celery.worker_step strict w = w) as ->
          by (unfold Celery.worker_step; by rewrite Hq).
      apply IH. by rewrite Hq.
    - rewrite IH; rewrite (worker_step_cons strict w _ _ _ Hq); cbn [Celery.queue
        Celery.backend].
      + apply lookup_insert_ne. intros ->. apply Hnot. by left.
      + intros Hin. apply Hnot. by right. }
  split; [exact Hb |].
  unfold Views.get_task_status, Celery.AsyncResult_status. by rewrite Hb.
Qed.

Lemma X12_recorded_state_is_final_witness :
  Celery.queue Fixtures.world_with_pending = [("9a1e", "/srv/media/students.csv")]
  /\ Celery.db (Worker.work false 1 Fixtures.world_with_pending)
     <> Celery.db Fixtures.world_with_pending
  /\ Celery.backend (Worker.work false 1 Fixtures.world_with_pending) !! "7f3c"
     = Celery.backend Fixtures.world_with_pending !! "7f3c"
  /\ Views.get_task_status "7f3c" (Worker.work false 1 Fixtures.world_with_pending)
     = Views.get_task_status "7f3c" Fixtures.world_with_pending.
Proof.
  split; [vm_compute; reflexivity |].
  split; [vm_compute; discriminate |].
  apply (X12_recorded_state_is_final false 1 Fixtures.world_with_pending "7f3c").
  vm_compute. intros [H | []]. discriminate H.
Defined.

Lemma work_drains (strict : bool) (q : list (string * string)) (w : Celery.world) :
  Celery.queue w = q ->
  let w' := Worker.work strict (length q) w in
  Celery.queue w' = []
  /\ Celery.db w' = Worker.run_jobs strict (Celery.fs w) q (Celery.db w)
  /\ (forall task_id, In task_id (map fst q) ->
        Worker.terminal (Celery.AsyncResult_status task_id w') = true)
  /\ (forall task_id, Worker.terminal (Celery.AsyncResult_status task_id w) = true ->
        Worker.terminal (Celery.AsyncResult_status task_id w') = true).
Proof.
  revert w. induction q as [| [id1 file_path] q IH]; intros w Hq; cbn zeta.
  - cbn. by repeat split.
  - cbn [length]. unfold Worker.work. rewrite Nat.iter_succ_r.
    fold (Worker.work strict (length q) (Celery.worker_step strict w)).
    pose proof (worker_step_cons strict w _ _ _ Hq) as Hstep.
    assert (Celery.queue (Celery.worker_step strict w) = q) as Hq1 by by rewrite Hstep.
    destruct (IH _ Hq1) as (H1 & H2 & H3 & H4).
    assert (forall t, t = id1 \/ Worker.terminal (Celery.AsyncResult_status t w) = true ->
                      Worker.terminal
                        (Celery.AsyncResult_status t (Celery.worker_step strict w)) = true)
      as Hkeep.
    { intros t Ht. rewrite Hstep. unfold Celery.AsyncResult_status. cbn [Celery.backend].
      destruct (decide (t = id1)) as [-> | Hne].
      - rewrite lookup_insert_eq. unfold Worker.meta_of. by destruct (snd _).
      - rewrite lookup_insert_ne by done. by destruct Ht. }
    split; [done |]. split.
    { rewrite H2, Hstep. by cbn [Celery.fs Celery.db]. }
    split.
    + intros t [<- | Hin]; [| by apply H3]. apply H4, Hkeep. by left.
    + intros t Ht. apply H4, Hkeep. by right.
Qed.

(** X13. A worker that takes as many steps as there are messages empties
    the queue: the jobs have run in the order they were queued, each on the
    database the one before left, and every id that was queued has a final
    state, [SUCCESS] or [FAILURE]. *)
Theorem X13_worker_drains_the_queue :
  forall (strict : bool) (w : Celery.world),
    let w' := Worker.work strict (length (Celery.queue w)) w in
    Celery.queue w' = []
    /\ Celery.db w' = Worker.run_jobs strict (Celery.fs w) (Celery.queue w) (Celery.db w)
    /\ (forall task_id, In task_id (map fst (Celery.queue w)) ->
          Worker.terminal (Celery.AsyncResult_status task_id w') = true).
Proof.
  intros strict w. destruct (work_drains strict (Celery.queue w) w eq_refl)
    as (H1 & H2 & H3 & _).
  by repeat split.
Qed.

(** X21. When the media directory cannot be made or the file cannot be
    written, Submit raises the exception of the failing call and no job is
    queued: queue, result store and database are as they were, and when it
    is the directory that fails the files are as they were too. Under an
    empty [MEDIA_ROOT] the exception is [FileNotFoundError]. *)
Theorem X21_failed_store_queues_nothing :
  forall (os : Os.answers) (MEDIA_ROOT task_id : string) (request : Views.Request)
         (f : Views.UploadedFile) (w : Celery.world) (e : exn),
    Views.FILES request !! "file" = Some f -> Views.name f <> "" ->
    Views.makedirs os MEDIA_ROOT = Some e
    \/ (Views.makedirs os MEDIA_ROOT = None
        /\ snd (Views.write_chunks os (Views.path_join MEDIA_ROOT (Views.name f))
                  (Views.file_chunks f) (Celery.fs w)) = Some e) ->
    let out := Views.upload_students_csv os MEDIA_ROOT task_id request w in
    fst out = Raise e
    /\ Celery.queue (snd out) = Celery.queue w
    /\ Celery.backend (snd out) = Celery.backend w
    /\ Celery.db (snd out) = Celery.db w
    /\ (Views.makedirs os MEDIA_ROOT = Some e -> snd out = w)
    /\ (MEDIA_ROOT = "" -> e = FileNotFoundError).
Proof.
  intros os MEDIA_ROOT task_id request f w e Hf Hn Hfail out. subst out.
  unfold Views.upload_students_csv. rewrite Hf. unfold Views.truthy.
  destruct (String.eqb_spec (Views.name f) ""); [done |]. cbn [negb].
  destruct Hfail as [Hd | [Hd Hw]]; rewrite Hd.
  - cbn [fst snd]. repeat split; try done.
    intros ->. unfold Views.makedirs in Hd. cbn in Hd. congruence.
  - apply write_chunks_failed in Hw as [fs1 ->]. cbn [fst snd Celery.queue
      Celery.backend Celery.db]. repeat split; try done.
    intros ->. unfold Views.makedirs in Hd. cbn in Hd. discriminate.
Qed.

Lemma X21_failed_store_queues_nothing_witness :
  (let out := Views.upload_students_csv Os.ok "" "7f3c"
                (Fixtures.upload Fixtures.students_file) Samples.world0 in
   fst out = Raise FileNotFoundError /\ snd out = Samples.world0)
  /\ (let out := Views.upload_students_csv Fixtures.disk_full Samples.media "7f3c"
                    (Fixtures.upload Fixtures.students_file) Samples.world0 in
      fst out = Raise OSError
      /\ Celery.queue (snd out) = []
      /\ Celery.fs (snd out) !! "/srv/media/students.csv" = Some []).
Proof.
  split.
  - pose proof (X21_failed_store_queues_nothing Os.ok "" "7f3c"
                  (Fixtures.upload Fixtures.students_file) Fixtures.students_file
                  Samples.world0 FileNotFoundError) as H.
    destruct H as (H1 & _ & _ & _ & H2 & _);
      [vm_compute; reflexivity | discriminate | by left |].
    split; [exact H1 | by apply H2].
  - pose proof (X21_failed_store_queues_nothing Fixtures.disk_full Samples.media "7f3c"
                  (Fixtures.upload Fixtures.students_file) Fixtures.students_file
                  Samples.world0 OSError) as H.
    destruct H as (H1 & H2 & _);
      [vm_compute; reflexivity | discriminate | right; split; vm_compute; reflexivity |].
    split; [exact H1 |]. split; [exact H2 | vm_compute; reflexivity].
Defined.

(** ** Reading a row *)

Lemma foldl_cells_hit (k v : string) (l : list (string * string))
    (d : gmap string (option string)) :
  NoDup (map fst l) -> In (k, v) l ->
  foldl (fun d kv => <[fst kv := Some (snd kv)]> d) d l !! k = Some (Some v).
Proof.
  revert d. induction l as [| [k0 v0] l IH]; intros d Hnd Hin; [destruct Hin |].
  cbn [map fst] in Hnd. apply NoDup_cons in Hnd as [Hk0 Hnd]. cbn [foldl fst snd].
  destruct Hin as [[= -> ->] | Hin]; [| by apply IH].
  rewrite foldl_cells_other; [apply lookup_insert_eq |].
  intros [k' v'] Hin' <-. apply Hk0. apply list_elem_of_In.
  by apply (in_map fst) in Hin'.
Qed.

Lemma zip_keys_NoDup (fieldnames cells : list string) :
  NoDup fieldnames -> NoDup (map fst (zip fieldnames cells)).
Proof.
  revert cells. induction fieldnames as [| a l IH]; intros cells Hnd; [apply NoDup_nil_2 |].
  destruct cells as [| c cells]; [apply NoDup_nil_2 |].
  apply NoDup_cons in Hnd as [Ha Hnd]. cbn. apply NoDup_cons. split; [| by apply IH].
  intros Hin. apply Ha. apply list_elem_of_In, in_map_iff in Hin as ([k v] & <- & Hin).
  eapply elem_of_zip_l. apply list_elem_of_In, Hin.
Qed.

Lemma zip_lookup_In (fieldnames cells : list string) (i : nat) (k v : string) :
  fieldnames !! i = Some k -> cells !! i = Some v -> In (k, v) (zip fieldnames cells).
Proof.
  revert cells i. induction fieldnames as [| a l IH]; intros cells i Hk Hv; [done |].
  destruct cells as [| c cells]; [done |].
  destruct i as [| i]; cbn in *.
  - left. congruence.
  - right. by eapply IH.
Qed.

Lemma NoDup_lookup_not_in_skipn (l : list string) (i n : nat) (k : string) :
  NoDup l -> l !! i = Some k -> i < n -> ~ In k (skipn n l).
Proof.
  revert i n. induction l as [| a l IH]; intros i n Hnd Hk Hi Hin; [done |].
  apply NoDup_cons in Hnd as [Ha Hnd].
  destruct n as [| n]; [lia |]. cbn [skipn] in Hin.
  destruct i as [| i]; cbn in Hk.
  - injection Hk as ->. apply Ha, list_elem_of_In.
    clear -Hin. revert n Hin. induction l as [| b l IHl]; intros [| n] Hin; cbn in Hin;
      try done. right. by eapply IHl.
  - eapply IH; [exact Hnd | exact Hk | | exact Hin]. lia.
Qed.

(** X14. Under a header of distinct column names, a column that has a cell
    in the row reads as that cell: [row.get] returns it whatever default
    it is given, cells past the header are ignored, and neither [None] nor
    the default shows up. *)
Theorem X14_column_reads_its_cell :
  forall (fieldnames cells : list string) (i : nat) (k v : string)
         (dflt : option string),
    NoDup fieldnames ->
    fieldnames !! i = Some k -> cells !! i = Some v ->
    Csv.get (Csv.make_row fieldnames cells) k dflt = Some v.
Proof.
  intros fieldnames cells i k v dflt Hnd Hk Hv.
  unfold Csv.get, Csv.make_row.
  rewrite foldl_restval_other.
  - rewrite (foldl_cells_hit k v); [done | by apply zip_keys_NoDup |].
    by eapply zip_lookup_In.
  - eapply NoDup_lookup_not_in_skipn; [exact Hnd | exact Hk |].
    by eapply lookup_lt_Some.
Qed.

Lemma X14_column_reads_its_cell_witness :
  Csv.get (Csv.make_row Samples.columns (Fixtures.ada_cells ++ ["surplus"]))
    "department" (Some "") = Some "CS".
Proof.
  apply (X14_column_reads_its_cell Samples.columns (Fixtures.ada_cells ++ ["surplus"]) 4).
  - apply (bool_decide_unpack _). vm_compute. reflexivity.
  - reflexivity.
  - reflexivity.
Defined.

(** ** Routes *)

Local Open Scope string_scope.

Lemma append_cons_str (c : ascii) (a b : string) : String c a ++ b = String c (a ++ b).
Proof. reflexivity. Qed.

Lemma append_nil_l_str (b : string) : "" ++ b = b.
Proof. reflexivity. Qed.

Lemma append_assoc_str (a b c : string) : (a ++ b) ++ c = a ++ (b ++ c).
Proof.
  induction a as [| x a IH]; [done |]. rewrite !append_cons_str. by f_equal.
Qed.

Lemma append_nil_r_str (a : string) : a ++ "" = a.
Proof. induction a as [| x a IH]; [done |]. rewrite append_cons_str. by f_equal. Qed.

Lemma strip_prefix_app (p s : string) : Urls.strip_prefix p (p ++ s) = Some s.
Proof.
  induction p as [| a p IH]; [done |]. rewrite append_cons_str.
  cbn [Urls.strip_prefix]. by rewrite Ascii.eqb_refl.
Qed.

Lemma strip_prefix_Some (p s r : string) :
  Urls.strip_prefix p s = Some r -> s = p ++ r.
Proof.
  revert s. induction p as [| a p IH]; intros s; cbn [Urls.strip_prefix];
    [by intros [= ->] |].
  destruct s as [| b s]; [done |].
  destruct (Ascii.eqb_spec a b) as [-> | _]; [| done].
  intros H. by rewrite (IH _ H).
Qed.

Lemma match_literal (text s : string) :
  Urls.match_route [Urls.Lit text] s = (if String.eqb s text then Some [] else None).
Proof.
  cbn. destruct (Urls.strip_prefix text s) as [r |] eqn:Hp.
  - apply strip_prefix_Some in Hp as ->.
    destruct (String.eqb_spec r "") as [-> | Hr].
    + by rewrite append_nil_r_str, String.eqb_refl.
    + destruct (String.eqb_spec (text ++ r) text) as [E | _]; [| done].
      exfalso. apply Hr. clear -E. induction text as [| a t IH]; [done |].
      rewrite append_cons_str in E. injection E as E. by apply IH.
  - destruct (String.eqb_spec s text) as [-> | _]; [| done].
    rewrite <- (append_nil_r_str text) in Hp at 2.
    by rewrite strip_prefix_app in Hp.
Qed.

(** What the converter captures is a non-empty run without a slash, and the
    rest of the route matches what follows the run. *)
Lemma match_str_sound (k : string -> option (list (string * string)))
    (taken s v : string) (kwargs : list (string * string)) :
  Urls.match_str k taken s = Some (v, kwargs) ->
  exists run rest,
    s = run ++ rest /\ v = taken ++ run /\ Urls.no_slash run = true
    /\ v <> "" /\ k rest = Some kwargs.
Proof.
  revert taken. induction s as [| c s IH]; intros taken.
  - cbn. destruct (String.eqb_spec taken "") as [-> | Ht]; [done |].
    destruct (k "") as [kw |] eqn:Hk; [| done]. intros [= <- <-].
    exists "", "". repeat split; by rewrite ?append_nil_r_str.
  - cbn [Urls.match_str].
    assert ((if String.eqb taken "" then None
             else match k (String c s) with
                  | Some kw => Some (taken, kw)
                  | None => None
                  end) = Some (v, kwargs) ->
            exists run rest,
              String c s = run ++ rest /\ v = taken ++ run /\ Urls.no_slash run = true
              /\ v <> "" /\ k rest = Some kwargs) as Hhere.
    { destruct (String.eqb_spec taken "") as [-> | Ht]; [done |].
      destruct (k (String c s)) as [kw |] eqn:Hk; [| done]. intros [= <- <-].
      exists "", (String c s). repeat split; by rewrite ?append_nil_r_str. }
    destruct (Ascii.eqb_spec c Urls.SLASH) as [-> | Hc]; [exact Hhere |].
    destruct (Urls.match_str k (taken ++ String c "") s) as [r |] eqn:Hm; [| exact Hhere].
    intros [= ->]. apply IH in Hm as (run & rest & -> & -> & Hns & Hne & Hk).
    exists (String c run), rest. cbn [Urls.no_slash].
    rewrite append_assoc_str, append_cons_str, append_nil_l_str in *.
    repeat split; try done.
    destruct (Ascii.eqb_spec c Urls.SLASH); [done | by rewrite Hns].
Qed.

(** In front of a slash that ends the path, the converter captures the
    whole run. *)
Lemma match_str_slash (taken id : string) :
  Urls.no_slash id = true -> taken ++ id <> "" ->
  Urls.match_str (Urls.match_route [Urls.Lit "/"]) taken (id ++ "/")
  = Some (taken ++ id, []).
Proof.
  revert taken. induction id as [| c id IH]; intros taken Hns Hne.
  - rewrite append_nil_r_str in *. rewrite append_nil_l_str. cbn.
    by destruct (String.eqb_spec taken "").
  - cbn [Urls.no_slash] in Hns. apply andb_true_iff in Hns as [Hc Hns].
    rewrite append_cons_str. cbn [Urls.match_str].
    destruct (Ascii.eqb_spec c Urls.SLASH); [done |].
    rewrite IH; [| done |].
    + by rewrite append_assoc_str.
    + rewrite append_assoc_str. by destruct taken.
Qed.

(** X15. The status route takes exactly the paths [task-status/<id>/] in
    which the id is not empty and holds no slash, and hands the view that
    id, character for character; any other path, an id with a slash in it
    included, does not reach the status view. *)
Theorem X15_status_route :
  forall (path : string) (u : Urls.url) (kwargs : list (string * string)),
    Urls.resolve path = Some (u, kwargs) /\ Urls.target u = Urls.get_task_status
    <-> exists id,
          path = "task-status/" ++ id ++ "/"
          /\ id <> "" /\ Urls.no_slash id = true
          /\ kwargs = [("task_id", id)]
          /\ u = {| Urls.route := [Urls.Lit "task-status/"; Urls.Str "task_id";
                                   Urls.Lit "/"];
                    Urls.target := Urls.get_task_status;
                    Urls.name := "get_task_status" |}.
Proof.
  intros path u kwargs. unfold Urls.resolve, Urls.urlpatterns. cbn [Urls.resolve_in Urls.route].
  rewrite !match_literal. split.
  - intros [H Ht].
    destruct (String.eqb_spec path "upload-students-csv/") as [-> | _];
      [injection H as <- <-; discriminate Ht |].
    cbn [Urls.match_route] in H.
    destruct (Urls.strip_prefix "task-status/" path) as [rest |] eqn:Hp.
    + apply strip_prefix_Some in Hp as ->.
      fold (Urls.match_route [Urls.Lit "/"]) in H.
      destruct (Urls.match_str (Urls.match_route [Urls.Lit "/"]) "" rest)
        as [[v kw] |] eqn:Hm.
      * injection H as <- <-.
        apply match_str_sound in Hm as (run & rest' & -> & -> & Hns & Hne & Hk).
        rewrite match_literal in Hk.
        destruct (String.eqb_spec rest' "/") as [-> | _]; [| done].
        injection Hk as <-. exists run. rewrite append_nil_l_str in *. by repeat split.
      * revert H. destruct (String.eqb ("task-status/" ++ rest) "students/"); [| done].
        intros [= <- <-]. discriminate Ht.
    + destruct (String.eqb_spec path "students/") as [_ | _]; [| done].
      injection H as <- <-. discriminate Ht.
  - intros (id & -> & Hne & Hns & -> & ->). split; [| done].
    destruct (String.eqb_spec ("task-status/" ++ id ++ "/") "upload-students-csv/")
      as [E | _]; [discriminate E |].
    cbn [Urls.match_route]. rewrite strip_prefix_app.
    fold (Urls.match_route [Urls.Lit "/"]).
    by rewrite (match_str_slash "" id Hns).
Qed.

(** X17. No path is matched by two of the patterns: the order in which
    [urlpatterns] lists them decides nothing. *)
Theorem X17_routes_are_exclusive :
  forall (path : string) (u1 u2 : Urls.url),
    In u1 Urls.urlpatterns -> In u2 Urls.urlpatterns ->
    is_Some (Urls.match_route (Urls.route u1) path) ->
    is_Some (Urls.match_route (Urls.route u2) path) ->
    u1 = u2.
Proof.
  intros path u1 u2 H1 H2 [k1 M1] [k2 M2].
  assert (forall u, In u Urls.urlpatterns ->
            forall kw, Urls.match_route (Urls.route u) path = Some kw ->
            path <> "" /\
            match path with
            | String c _ =>
                (c = "u"%char /\ Urls.target u = Urls.upload_students_csv)
                \/ (c = "t"%char /\ Urls.target u = Urls.get_task_status)
                \/ (c = "s"%char /\ Urls.target u = Urls.get_students)
            | EmptyString => False
            end) as Hhead.
  { intros u Hu kw. unfold Urls.urlpatterns in Hu.
    destruct Hu as [<- | [<- | [<- | []]]]; cbn [Urls.route Urls.target];
      [rewrite match_literal | | rewrite match_literal].
    - destruct (String.eqb_spec path "upload-students-csv/") as [-> | _]; [| done].
      intros _. split; [done | by left].
    - cbn [Urls.match_route].
      destruct (Urls.strip_prefix "task-status/" path) as [rest |] eqn:Hp; [| done].
      apply strip_prefix_Some in Hp as ->. intros _. split; [done |]. right. by left.
    - destruct (String.eqb_spec path "students/") as [-> | _]; [| done].
      intros _. split; [done |]. right. by right. }
  destruct (Hhead u1 H1 k1 M1) as [_ T1]. destruct (Hhead u2 H2 k2 M2) as [_ T2].
  destruct path as [| c path]; [done |].
  assert (Urls.target u1 = Urls.target u2) as Ht.
  { destruct T1 as [[-> E1] | [[-> E1] | [-> E1]]];
      destruct T2 as [[E E2] | [[E E2] | [E E2]]]; try discriminate E; congruence. }
  unfold Urls.urlpatterns in H1, H2.
  destruct H1 as [<- | [<- | [<- | []]]]; destruct H2 as [<- | [<- | [<- | []]]];
    try done; discriminate Ht.
Qed.

(** ** Display *)

Lemma split_at_space (a b x y : string) :
  no_space a = true -> no_space b = true ->
  a ++ String " " x = b ++ String " " y -> a = b /\ x = y.
Proof.
  revert b. induction a as [| c a IH]; intros b Ha Hb E.
  - destruct b as [| d b]; rewrite ?append_cons_str, ?append_nil_l_str in E;
      [by injection E as -> |].
    injection E as <- _. cbn in Hb. discriminate.
  - destruct b as [| d b]; rewrite ?append_cons_str, ?append_nil_l_str in E.
    + injection E as -> _. cbn in Ha. discriminate.
    + injection E as -> E. cbn in Ha, Hb.
      apply andb_true_iff in Ha as [_ Ha]. apply andb_true_iff in Hb as [_ Hb].
      by destruct (IH b Ha Hb E) as [-> ->].
Qed.

(** X18. The display string of a student tells students apart: when
    neither registration number and neither first name holds a space, two
    students with the same display string have the same registration
    number, first name and last name. *)
Theorem X18_display_string_identifies :
  forall s1 s2 : Student.t,
    no_space (Student.reg_no s1) = true -> no_space (Student.reg_no s2) = true ->
    no_space (Student.first_name s1) = true ->
    no_space (Student.first_name s2) = true ->
    __str__ s1 = __str__ s2 ->
    Student.reg_no s1 = Student.reg_no s2
    /\ Student.first_name s1 = Student.first_name s2
    /\ Student.last_name s1 = Student.last_name s2.
Proof.
  intros s1 s2 Hr1 Hr2 Hf1 Hf2 E. unfold __str__ in E.
  change (" - " ++ ?x) with (String " " (String "-" (String " " x))) in E.
  apply split_at_space in E as [Er E]; [| done | done].
  injection E as E. change (" " ++ ?x) with (String " " x) in E.
  apply split_at_space in E as [Ef El]; done.
Qed.

Local Open Scope list_scope.

Lemma X17_routes_are_exclusive_witness :
  Fixtures.status_url = Fixtures.status_url.
Proof.
  apply (X17_routes_are_exclusive "task-status/7f3c/" Fixtures.status_url
           Fixtures.status_url).
  - right. left. reflexivity.
  - right. left. reflexivity.
  - eexists. vm_compute. reflexivity.
  - eexists. vm_compute. reflexivity.
Defined.

Lemma X18_display_string_identifies_witness :
  Student.reg_no Samples.ada_student = Student.reg_no Fixtures.ada_twin
  /\ Student.first_name Samples.ada_student = Student.first_name Fixtures.ada_twin
  /\ Student.last_name Samples.ada_student = Student.last_name Fixtures.ada_twin.
Proof.
  apply (X18_display_string_identifies Samples.ada_student Fixtures.ada_twin);
    vm_compute; reflexivity.
Defined.

(** ** Reading back a file written the plain way *)

Lemma plain_facts (c : ascii) :
  Format.plain c = true ->
  (N_of_ascii c < 128)%N /\ Ascii.eqb c Csv.COMMA = false
  /\ Ascii.eqb c Csv.QUOTE = false /\ Csv.is_nl c = false.
Proof.
  unfold Format.plain. intros H.
  apply andb_true_iff in H as [H Hnl]. apply andb_true_iff in H as [H Hq].
  apply andb_true_iff in H as [Ha Hc].
  apply N.ltb_lt in Ha. apply negb_true_iff in Hc, Hq, Hnl. done.
Qed.

Lemma parse_add_plain (c : ascii) (p : Csv.parser) :
  Format.plain c = true -> (Csv.field_len p < Csv.FIELD_LIMIT)%N ->
  Csv.parse_add_char c p
  = Ok {| Csv.state := Csv.state p; Csv.field := c :: Csv.field p;
          Csv.field_len := N.succ (Csv.field_len p); Csv.fields := Csv.fields p |}.
Proof.
  intros Hp Hlen. pose proof (plain_facts c Hp) as (Ha & _).
  unfold Csv.parse_add_char, Text.in_range.
  destruct (N.leb_spec 128 (N_of_ascii c)); [lia |]. cbn [andb].
  destruct (N.leb_spec Csv.FIELD_LIMIT (Csv.field_len p)); [lia | done].
Qed.

(** A plain character in a cell: it joins the cell. *)
Lemma plain_char_step (c : ascii) (st : Csv.pstate) (cur : list ascii) (len : N)
    (acc : list string) :
  st = Csv.START_FIELD \/ st = Csv.IN_FIELD ->
  Format.plain c = true -> (len < Csv.FIELD_LIMIT)%N ->
  Csv.parse_process_char (Csv.Build_parser st cur len acc) (Some c)
  = Ok (Csv.Build_parser Csv.IN_FIELD (c :: cur) (N.succ len) acc).
Proof.
  intros Hst Hp Hlen. pose proof (plain_facts c Hp) as (_ & Hc & Hq & Hnl).
  unfold Csv.parse_process_char. cbn [Csv.state Csv.ends_line].
  destruct Hst as [-> | ->]; rewrite Hnl, ?Hq, Hc, parse_add_plain by done; done.
Qed.

(** A comma after a cell: the cell is saved and the next one starts. *)
Lemma comma_step (st : Csv.pstate) (cur : list ascii) (len : N) (acc : list string) :
  st = Csv.START_FIELD \/ st = Csv.IN_FIELD ->
  Csv.parse_process_char (Csv.Build_parser st cur len acc) (Some Csv.COMMA)
  = Ok (Csv.Build_parser Csv.START_FIELD [] 0 (string_of_list_ascii (rev cur) :: acc)).
Proof. by intros [-> | ->]. Qed.

(** The line feed after the last cell, and the end of the line. *)
Lemma line_end_step (st : Csv.pstate) (cur : list ascii) (len : N) (acc : list string) :
  st = Csv.START_FIELD \/ st = Csv.IN_FIELD ->
  Csv.feed_chars (Csv.Build_parser st cur len acc) [Text.LF]
  = Ok (Csv.Build_parser Csv.START_RECORD [] 0 (string_of_list_ascii (rev cur) :: acc)).
Proof. by intros [-> | ->]. Qed.

Lemma feed_plain_cell (cs rest : list ascii) (st : Csv.pstate) (cur : list ascii)
    (len : N) (acc : list string) :
  st = Csv.START_FIELD \/ st = Csv.IN_FIELD ->
  forallb Format.plain cs = true ->
  (len + N.of_nat (length cs) <= Csv.FIELD_LIMIT)%N ->
  exists st',
    (st' = Csv.START_FIELD \/ st' = Csv.IN_FIELD)
    /\ Csv.feed_chars (Csv.Build_parser st cur len acc) (cs ++ rest)
       = Csv.feed_chars
           (Csv.Build_parser st' (rev cs ++ cur) (len + N.of_nat (length cs)) acc) rest.
Proof.
  revert st cur len. induction cs as [| c cs IH]; intros st cur len Hst Hp Hlen.
  - exists st. split; [done |]. cbn. by rewrite N.add_0_r.
  - cbn [forallb] in Hp. apply andb_true_iff in Hp as [Hc Hp].
    cbn [length] in Hlen.
    destruct (IH Csv.IN_FIELD (c :: cur) (N.succ len)) as (st' & Hst' & E);
      [by right | done | lia |].
    exists st'. split; [done |].
    rewrite <- app_comm_cons. cbn [Csv.feed_chars].
    rewrite plain_char_step by (try done; lia). rewrite E.
    cbn [rev length]. rewrite <- app_assoc. cbn [app].
    by replace (N.succ len + N.of_nat (length cs))%N
      with (len + N.of_nat (S (length cs)))%N by lia.
Qed.

Lemma list_ascii_app (a b : string) :
  list_ascii_of_string (a ++ b)%string = list_ascii_of_string a ++ list_ascii_of_string b.
Proof. induction a as [| c a IH]; [done |]. cbn. by rewrite <- IH. Qed.

Lemma concat_cons2 (sep x y : string) (l : list string) :
  String.concat sep (x :: y :: l) = (x ++ sep ++ String.concat sep (y :: l))%string.
Proof. reflexivity. Qed.

Lemma string_length_chars (s : string) :
  String.length s = length (list_ascii_of_string s).
Proof. induction s as [| c s IH]; [done |]. cbn. by rewrite IH. Qed.

(** The cells of a record, joined by commas and ended by a line feed, read
    from the start of a cell. *)
Lemma feed_record_cells (rec : list string) (acc : list string) :
  rec <> [] ->
  (forall cell, In cell rec -> Format.plain_cell cell = true) ->
  Csv.feed_chars (Csv.Build_parser Csv.START_FIELD [] 0 acc)
    (list_ascii_of_string (String.concat "," rec) ++ [Text.LF])
  = Ok (Csv.Build_parser Csv.START_RECORD [] 0 (rev rec ++ acc)).
Proof.
  revert acc. induction rec as [| cell rec IH]; intros acc Hne Hall; [done |].
  assert (Format.plain_cell cell = true) as Hcell by (apply Hall; by left).
  unfold Format.plain_cell in Hcell. apply andb_true_iff in Hcell as [Hp Hlen].
  apply N.leb_le in Hlen. rewrite string_length_chars in Hlen.
  destruct rec as [| cell' rec].
  - cbn [String.concat].
    destruct (feed_plain_cell (list_ascii_of_string cell) [Text.LF] Csv.START_FIELD
                [] 0 acc) as (st' & Hst' & ->); [by left | done | lia |].
    rewrite line_end_step by done. rewrite app_nil_r, rev_involutive.
    by rewrite string_of_list_ascii_of_string.
  - rewrite concat_cons2, !list_ascii_app.
    destruct (feed_plain_cell (list_ascii_of_string cell)
                (list_ascii_of_string "," ++
                 list_ascii_of_string (String.concat "," (cell' :: rec)) ++ [Text.LF])
                Csv.START_FIELD [] 0 acc) as (st' & Hst' & E);
      [by left | done | lia |].
    rewrite <- !app_assoc, E.
    cbn [list_ascii_of_string app Csv.feed_chars].
    change ","%char with Csv.COMMA. rewrite comma_step by done.
    rewrite IH; [| done | intros c Hc; apply Hall; by right].
    rewrite app_nil_r, rev_involutive, string_of_list_ascii_of_string.
    cbn [rev]. by rewrite <- !app_assoc.
Qed.

(** No character of the joined cells is a line break. *)
Lemma joined_cells_no_nl (rec : list string) :
  (forall cell, In cell rec -> Format.plain_cell cell = true) ->
  forall c, In c (list_ascii_of_string (String.concat "," rec)) -> Csv.is_nl c = false.
Proof.
  induction rec as [| cell rec IH]; intros Hall c Hin; [destruct Hin |].
  assert (forall c, In c (list_ascii_of_string cell) -> Csv.is_nl c = false) as Hcell.
  { intros c' Hc'. specialize (Hall cell (or_introl eq_refl)).
    unfold Format.plain_cell in Hall. apply andb_true_iff in Hall as [Hp _].
    pose proof (proj1 (forallb_forall _ _) Hp c' Hc') as Hpc.
    by apply plain_facts in Hpc as (_ & _ & _ & ?). }
  destruct rec as [| cell' rec]; [by apply Hcell |].
  rewrite concat_cons2, !list_ascii_app in Hin.
  apply in_app_or in Hin as [Hin | Hin]; [by apply Hcell |].
  apply in_app_or in Hin as [[<- | []] | Hin]; [done |].
  apply IH; [| done]. intros c' Hc'. apply Hall. by right.
Qed.

(** One line written the plain way reads back as its record. *)
Lemma feed_line_record (rec : list string) :
  Format.writable rec ->
  Csv.feed_line Csv.parse_reset (Format.encode_record rec)
  = Ok (Csv.Build_parser Csv.START_RECORD [] 0 (rev rec)).
Proof.
  intros [Hne Hall]. unfold Csv.feed_line, Format.encode_record.
  rewrite list_ascii_app. change (list_ascii_of_string (String Text.LF "")) with [Text.LF].
  destruct rec as [| cell rec]; [done |].
  pose proof (feed_record_cells (cell :: rec) [] ltac:(done) Hall) as Hfeed.
  pose proof (joined_cells_no_nl (cell :: rec) Hall) as Hnl.
  rewrite app_nil_r in Hfeed.
  destruct (list_ascii_of_string (String.concat "," (cell :: rec))) as [| c cs] eqn:Hcs.
  - exfalso. apply Hne.
    assert (String.concat "," (cell :: rec) = "") as E.
    { rewrite <- (string_of_list_ascii_of_string (String.concat "," (cell :: rec))).
      by rewrite Hcs. }
    destruct rec as [| cell' rec]; [cbn [String.concat] in E; by rewrite E |].
    rewrite concat_cons2 in E. destruct cell; discriminate E.
  - rewrite <- Hfeed. cbn [app Csv.feed_chars].
    unfold Csv.parse_process_char at 1. cbn [Csv.state Csv.parse_reset].
    rewrite (Hnl c) by by left. reflexivity.
Qed.

Lemma read_records_plain (recs : list (list string)) :
  (forall rec, In rec recs -> Format.writable rec) ->
  Csv.read_records Csv.parse_reset (map Format.encode_record recs) None = (recs, None).
Proof.
  induction recs as [| rec recs IH]; intros Hall; [done |].
  cbn [map Csv.read_records]. rewrite feed_line_record by (apply Hall; by left).
  cbn [Csv.state Csv.pstate_eqb Csv.fields].
  rewrite IH by (intros r Hr; apply Hall; by right). by rewrite rev_involutive.
Qed.

(** X19. Lines written the plain way are read back as they were written:
    for records of plain cells (no comma, quote or line break, within the
    field size limit), none of them the record of one empty cell, the
    reader returns exactly those records, cell for cell, and ends without
    an error. *)
Theorem X19_reader_round_trip :
  forall recs : list (list string),
    (forall rec, In rec recs -> Format.writable rec) ->
    Csv.reader (map Format.encode_record recs, None) = (recs, None).
Proof. intros recs Hall. unfold Csv.reader. cbn [fst snd]. by apply read_records_plain. Qed.

Lemma X19_reader_round_trip_witness :
  Csv.reader (map Format.encode_record [Samples.columns; Fixtures.ada_cells; []], None)
  = ([Samples.columns; Fixtures.ada_cells; []], None).
Proof.
  apply (X19_reader_round_trip [Samples.columns; Fixtures.ada_cells; []]).
  intros rec [<- | [<- | [<- | []]]];
    (split; [discriminate |]); intros cell Hc;
    repeat (destruct Hc as [<- | Hc]; [vm_compute; reflexivity |]); destruct Hc.
Defined.

(** ** From the bytes of a plain file to its rows *)

Lemma byte_to_N_of_ascii (c : ascii) : Byte.to_N (byte_of_ascii c) = N_of_ascii c.
Proof.
  pose proof (byte_of_ascii_via_N c) as H. symmetry in H.
  by apply Byte.to_of_N in H.
Qed.

Lemma list_byte_of_string_map (s : string) :
  list_byte_of_string s = map byte_of_ascii (list_ascii_of_string s).
Proof. induction s as [| c s IH]; [done |]. cbn [list_byte_of_string list_ascii_of_string map]. by f_equal. Qed.

(** The bytes the text layer passes through unchanged are the ASCII bytes
    other than the carriage return. *)
Lemma decode_bytes_ascii (bs : list byte) (acc : list ascii) :
  (forall b, In b bs -> (Byte.to_N b < 128)%N /\ Ascii.eqb (ascii_of_byte b) Text.CR = false) ->
  Text.decode_bytes Text.Idle acc bs
  = Some (Text.Idle, rev (map ascii_of_byte bs) ++ acc).
Proof.
  revert acc. induction bs as [| b bs IH]; intros acc Hall; [done |].
  cbn [map Text.decode_bytes Text.feed].
  destruct (N.ltb_spec (Byte.to_N b) 128) as [_ | Hge].
  - cbn [rev_append]. rewrite IH by (intros b' Hb'; apply Hall; by right).
    cbn [rev]. by rewrite <- app_assoc.
  - destruct (Hall b (or_introl eq_refl)). lia.
Qed.

Lemma translate_newlines_no_cr (cs : list ascii) :
  (forall c, In c cs -> Ascii.eqb c Text.CR = false) ->
  Text.translate_newlines cs = cs.
Proof.
  induction cs as [| c cs IH]; intros Hall; [done |].
  cbn [Text.translate_newlines]. rewrite (Hall c) by by left.
  by rewrite IH by (intros c' Hc'; apply Hall; by right).
Qed.

Lemma ends_with_cr_no_cr (cs : list ascii) :
  (forall c, In c cs -> Ascii.eqb c Text.CR = false) ->
  Text.ends_with_cr cs = false.
Proof.
  intros Hall. unfold Text.ends_with_cr.
  destruct (rev cs) as [| c r] eqn:E; [done |].
  apply Hall. apply in_rev. rewrite E. by left.
Qed.

(** A chunk of such bytes decodes to its characters and leaves the text
    layer in its initial state. *)
Lemma decode_chunk_ascii (final : bool) (bs : list byte) :
  (forall b, In b bs -> (Byte.to_N b < 128)%N /\ Ascii.eqb (ascii_of_byte b) Text.CR = false) ->
  Text.decode_chunk Text.tstate0 final bs = Some (Text.tstate0, map ascii_of_byte bs).
Proof.
  intros Hall.
  assert (forall c, In c (map ascii_of_byte bs) -> Ascii.eqb c Text.CR = false) as Hcr.
  { intros c Hc. apply in_map_iff in Hc as (b & <- & Hb). by apply Hall. }
  unfold Text.decode_chunk. cbn [Text.dec Text.tstate0 Text.pendingcr].
  rewrite decode_bytes_ascii by done.
  rewrite app_nil_r, rev_involutive. cbn [andb orb].
  rewrite ends_with_cr_no_cr by done. cbn [andb orb].
  by rewrite translate_newlines_no_cr by done.
Qed.

Lemma split_lines_app (cur a b : list ascii) :
  Text.split_lines cur (a ++ b)
  = let '(ls, r) := Text.split_lines cur a in
    let '(ls', r') := Text.split_lines r b in (ls ++ ls', r').
Proof.
  revert cur. induction a as [| c a IH]; intros cur.
  - cbn. by destruct (Text.split_lines cur b).
  - cbn [app Text.split_lines]. destruct (Ascii.eqb c Text.LF).
    + rewrite IH. destruct (Text.split_lines [] a) as [ls r].
      by destruct (Text.split_lines r b).
    + apply IH.
Qed.

(** The chunks of a file put together are the file. *)
Lemma chunk_list_concat (n fuel : nat) (bs : list byte) :
  0 < n -> length bs <= fuel -> concat (Text.chunk_list n fuel bs) = bs.
Proof.
  intros Hn. revert bs. induction fuel as [| fuel IH]; intros bs Hlen.
  - destruct bs; [done | cbn in Hlen; lia].
  - destruct bs as [| b bs]; [done |].
    cbn [Text.chunk_list concat]. rewrite IH; [apply firstn_skipn |].
    rewrite length_skipn. cbn [length] in *. lia.
Qed.

(** Reading chunks of such bytes: the lines of the text they spell, the
    unterminated rest as the last line. *)
Lemma read_lines_ascii (cks : list (list byte)) (cur : list ascii) :
  (forall b, In b (concat cks) -> (Byte.to_N b < 128)%N /\ Ascii.eqb (ascii_of_byte b) Text.CR = false) ->
  Text.read_lines Text.tstate0 cur cks
  = let '(ls, r) := Text.split_lines cur (map ascii_of_byte (concat cks)) in
    match r with
    | [] => (ls, None)
    | _ => (ls ++ [string_of_list_ascii (rev r)], None)
    end.
Proof.
  revert cur. induction cks as [| ck cks IH]; intros cur Hall.
  - cbn [map Text.read_lines concat Text.split_lines].
    rewrite decode_chunk_ascii by (intros c []). cbn [map Text.split_lines].
    by destruct cur.
  - cbn [Text.read_lines concat] in *.
    rewrite decode_chunk_ascii by (intros b Hb; apply Hall, in_or_app; by left).
    rewrite map_app, split_lines_app.
    destruct (Text.split_lines cur (map ascii_of_byte ck)) as [ls r].
    rewrite IH by (intros b Hb; apply Hall, in_or_app; by right).
    destruct (Text.split_lines r (map ascii_of_byte (concat cks))) as [ls' r'].
    destruct r' as [| x r']; [done |]. by rewrite app_assoc.
Qed.

(** A line: characters other than the line feed, and the line feed. *)
Lemma split_lines_line (body cur rest : list ascii) :
  (forall c, In c body -> Ascii.eqb c Text.LF = false) ->
  Text.split_lines cur (body ++ Text.LF :: rest)
  = let '(ls, r) := Text.split_lines [] rest in
    (string_of_list_ascii (rev cur ++ body ++ [Text.LF]) :: ls, r).
Proof.
  revert cur. induction body as [| c body IH]; intros cur Hall.
  - cbn [app Text.split_lines]. rewrite Ascii.eqb_refl.
    destruct (Text.split_lines [] rest). by cbn [rev].
  - cbn [app Text.split_lines]. rewrite (Hall c) by by left.
    rewrite IH by (intros c' Hc'; apply Hall; by right).
    destruct (Text.split_lines [] rest). cbn [rev].
    by rewrite <- app_assoc.
Qed.

Lemma concat_empty_sep (ls : list string) :
  list_ascii_of_string (String.concat "" ls) = concat (map list_ascii_of_string ls).
Proof.
  induction ls as [| l ls IH]; [done |].
  destruct ls as [| l' ls].
  - cbn [String.concat map concat]. by rewrite app_nil_r.
  - rewrite concat_cons2, !list_ascii_app, IH. done.
Qed.

(** The characters of a written record: ASCII, no carriage return, and a
    line feed at the end only. *)
Lemma encode_record_chars (rec : list string) :
  (forall cell, In cell rec -> Format.plain_cell cell = true) ->
  forall c, In c (list_ascii_of_string (String.concat "," rec)) ->
    (N_of_ascii c < 128)%N /\ Ascii.eqb c Text.CR = false
    /\ Ascii.eqb c Text.LF = false.
Proof.
  induction rec as [| cell rec IH]; intros Hall c Hin; [destruct Hin |].
  assert (forall c, In c (list_ascii_of_string cell) ->
            (N_of_ascii c < 128)%N /\ Ascii.eqb c Text.CR = false
            /\ Ascii.eqb c Text.LF = false) as Hcell.
  { intros c' Hc'. specialize (Hall cell (or_introl eq_refl)).
    unfold Format.plain_cell in Hall. apply andb_true_iff in Hall as [Hp _].
    pose proof (proj1 (forallb_forall _ _) Hp c' Hc') as Hpc.
    apply plain_facts in Hpc as (? & _ & _ & Hnl).
    unfold Csv.is_nl in Hnl. apply orb_false_iff in Hnl as [? ?]. done. }
  destruct rec as [| cell' rec]; [by apply Hcell |].
  rewrite concat_cons2, !list_ascii_app in Hin.
  apply in_app_or in Hin as [Hin | Hin]; [by apply Hcell |].
  apply in_app_or in Hin as [[<- | []] | Hin]; [by vm_compute |].
  apply IH; [| done]. intros c' Hc'. apply Hall. by right.
Qed.

Lemma split_lines_records (recs : list (list string)) :
  (forall rec, In rec recs -> forall cell, In cell rec -> Format.plain_cell cell = true) ->
  Text.split_lines [] (concat (map list_ascii_of_string (map Format.encode_record recs)))
  = (map Format.encode_record recs, []).
Proof.
  induction recs as [| rec recs IH]; intros Hall; [done |].
  cbn [map concat]. unfold Format.encode_record at 1.
  rewrite list_ascii_app. change (list_ascii_of_string (String Text.LF "")) with [Text.LF].
  rewrite <- app_assoc. cbn [app].
  rewrite split_lines_line.
  2:{ intros c Hc. by apply (encode_record_chars rec (Hall rec (or_introl eq_refl))). }
  rewrite IH by (intros r Hr; apply Hall; by right).
  cbn [rev app]. f_equal. f_equal.
  unfold Format.encode_record.
  rewrite <- (string_of_list_ascii_of_string (String.concat "," rec ++ String Text.LF "")).
  by rewrite list_ascii_app.
Qed.

Lemma encode_file_passes (recs : list (list string)) :
  (forall rec, In rec recs -> forall cell, In cell rec -> Format.plain_cell cell = true) ->
  forall b, In b (Format.encode_file recs) -> (Byte.to_N b < 128)%N /\ Ascii.eqb (ascii_of_byte b) Text.CR = false.
Proof.
  intros Hall b Hb. unfold Format.encode_file in Hb.
  rewrite list_byte_of_string_map, concat_empty_sep in Hb.
  apply in_map_iff in Hb as (c & <- & Hc).
  rewrite byte_to_N_of_ascii, ascii_of_byte_of_ascii.
  apply in_concat in Hc as (l & Hl & Hc).
  apply in_map_iff in Hl as (s & <- & Hs).
  apply in_map_iff in Hs as (rec & <- & Hrec).
  unfold Format.encode_record in Hc. rewrite list_ascii_app in Hc.
  apply in_app_or in Hc as [Hc | [<- | []]]; [| by vm_compute].
  by destruct (encode_record_chars rec (Hall rec Hrec) c Hc) as (? & ? & _).
Qed.

(** The lines of a file written the plain way, whatever the chunk size. *)
Lemma lines_of_encode_file (n : nat) (recs : list (list string)) :
  0 < n ->
  (forall rec, In rec recs -> forall cell, In cell rec -> Format.plain_cell cell = true) ->
  Text.lines_of n (Format.encode_file recs) = (map Format.encode_record recs, None).
Proof.
  intros Hn Hall. unfold Text.lines_of, Text.chunks.
  rewrite read_lines_ascii; rewrite chunk_list_concat by (try done; lia).
  2: by apply encode_file_passes.
  unfold Format.encode_file.
  rewrite list_byte_of_string_map, map_map.
  rewrite (map_ext _ id) by (intros c; apply ascii_of_byte_of_ascii).
  rewrite map_id, concat_empty_sep, split_lines_records by done. done.
Qed.

(** X20. A file written the plain way is read back as the rows it spells:
    when the header and the records are made of plain cells (ASCII without
    comma, quote or line break, within the field size limit) and none of
    them is the record of one empty cell, the task iterates over one row per
    record that is not empty, in the order of the file, each made of the
    header and that record, and the iteration ends without an error. *)
Theorem X20_plain_file_rows :
  forall (header : list string) (recs : list (list string)),
    Format.writable header ->
    (forall rec, In rec recs -> Format.writable rec) ->
    Tasks.rows_of (Format.encode_file (header :: recs))
    = (map (Csv.make_row header) (filter (fun r => negb (Csv.is_blank r)) recs), None).
Proof.
  intros header recs Hh Hall.
  assert (forall rec, In rec (header :: recs) -> Format.writable rec) as Hw.
  { intros rec [<- | Hr]; [done | by apply Hall]. }
  unfold Tasks.rows_of.
  rewrite lines_of_encode_file.
  - unfold Csv.reader. cbn [fst snd].
    rewrite (read_records_plain (header :: recs)) by done. done.
  - unfold Text.CHUNK_SIZE. lia.
  - intros rec Hr cell Hc. by apply (Hw rec Hr).
Qed.

Lemma X20_plain_file_rows_witness :
  Tasks.rows_of (Format.encode_file [Samples.columns; Fixtures.ada_cells; []])
  = (map (Csv.make_row Samples.columns)
       (filter (fun r => negb (Csv.is_blank r)) [Fixtures.ada_cells; []]), None).
Proof.
  apply (X20_plain_file_rows Samples.columns [Fixtures.ada_cells; []]).
  - split; [discriminate |]. intros cell Hc.
    repeat (destruct Hc as [<- | Hc]; [vm_compute; reflexivity |]); destruct Hc.
  - intros rec [<- | [<- | []]];
      (split; [discriminate |]); intros cell Hc;
      repeat (destruct Hc as [<- | Hc]; [vm_compute; reflexivity |]); destruct Hc.
Defined.
